(** * Prebid.js adapters: the Media.net analytics adapter and the Smaato bid
    adapter, embedded in Rocq.

    The adapters are JavaScript.  Their data is dynamically typed, so the
    embedding starts with a small model of JavaScript values (module [JS]):
    numbers are IEEE binary64 floats, strings are byte strings (the UTF-8
    encoding of the text), arrays are lists and objects are association lists
    kept in own-property order.  Where the adapters use a plain object as a
    map with keys that come from outside (auction ids, ad-unit codes, the
    keys of a query string), the names the object inherits from
    [Object.prototype] are told apart ([JS.inherited]): a lookup under such
    a name is not [undefined].  Code that may throw returns a [result];
    code that reads or writes the module-level variables of the analytics
    adapter runs in a state-and-exception monad over a record of those
    variables. *)

From Stdlib Require Import ZArith String List Ascii Bool Lia DecimalString.
From Stdlib Require Import PrimFloat FloatOps SpecFloat Uint63.
From Stdlib Require Import Permutation.
Import ListNotations.
Open Scope list_scope.
Open Scope string_scope.

Set Implicit Arguments.

(* ===================================================================== *)
(** ** Results of code that may throw *)
(* ===================================================================== *)

(** A JavaScript exception, reduced to what the adapters observe of it: its
    constructor name and its message ([String(e)] is [name: message]). *)
Record exn : Type := Exn { exn_name : string; exn_message : string }.

Definition TypeError (msg : string) : exn := Exn "TypeError" msg.

Inductive result (A : Type) : Type :=
| Ok (a : A)
| Throw (e : exn).
Arguments Ok {A} a.
Arguments Throw {A} e.

Definition rbind {A B} (r : result A) (k : A -> result B) : result B :=
  match r with
  | Ok a => k a
  | Throw e => Throw e
  end.

Declare Scope result_scope.
Delimit Scope result_scope with res.
Notation "'let?' x ':=' c 'in' k" := (rbind c (fun x => k))
  (at level 10, x pattern, c at level 100, k at level 200) : result_scope.

(** [arr.map(f)] and [arr.forEach(f)] for a callback that may throw: left to
    right, stopping at the first exception. *)
Fixpoint rmap {A B} (f : A -> result B) (l : list A) : result (list B) :=
  match l with
  | [] => Ok []
  | x :: tl =>
      match f x with
      | Ok y => match rmap f tl with
                | Ok ys => Ok (y :: ys)
                | Throw e => Throw e
                end
      | Throw e => Throw e
      end
  end.

(* ===================================================================== *)
(** ** Strings *)
(* ===================================================================== *)

Module Str.

(** [Array.prototype.join] on strings. *)
Fixpoint join (sep : string) (l : list string) : string :=
  match l with
  | [] => ""
  | [x] => x
  | x :: tl => x ++ sep ++ join sep tl
  end.

(** [s.split(c)] for a one-character separator; the accumulator holds the
    current piece in reverse. *)
Fixpoint split_go (c : ascii) (s : string) (cur : string) : list string :=
  match s with
  | EmptyString => [cur]
  | String a tl =>
      if Ascii.eqb a c then cur :: split_go c tl ""
      else split_go c tl (cur ++ String a "")
  end.

Definition split (c : ascii) (s : string) : list string := split_go c s "".

Definition is_digit (a : ascii) : bool :=
  let n := nat_of_ascii a in (48 <=? n)%nat && (n <=? 57)%nat.

Fixpoint all_digits (s : string) : bool :=
  match s with
  | EmptyString => true
  | String a tl => is_digit a && all_digits tl
  end.

Fixpoint digits_value (s : string) (acc : N) : N :=
  match s with
  | EmptyString => acc
  | String a tl => digits_value tl (acc * 10 + N.of_nat (nat_of_ascii a - 48))%N
  end.

(** A property key is an array index when it is the canonical decimal
    form of an integer below 2^32 - 1. *)
Definition array_index (k : string) : option N :=
  match k with
  | EmptyString => None
  | String a tl =>
      if all_digits k && (negb (Ascii.eqb a "0") || String.eqb tl "") then
        let n := digits_value k 0 in
        if (n <? 4294967295)%N then Some n else None
      else None
  end.

Definition of_Z (z : Z) : string := NilZero.string_of_int (Z.to_int z).
Definition of_nat (n : nat) : string := of_Z (Z.of_nat n).

(** Text all of whose bytes are ASCII characters. *)
Fixpoint is_ascii (s : string) : bool :=
  match s with
  | EmptyString => true
  | String a tl => (nat_of_ascii a <? 128)%nat && is_ascii tl
  end.

(** [toUpperCase] on ASCII text: the letters [a] to [z] are the only
    characters with an upper-case form. *)
Definition upper_ascii (a : ascii) : ascii :=
  let n := nat_of_ascii a in
  if (97 <=? n)%nat && (n <=? 122)%nat then ascii_of_nat (n - 32) else a.

Fixpoint toUpperCase (s : string) : string :=
  match s with
  | EmptyString => EmptyString
  | String a tl => String (upper_ascii a) (toUpperCase tl)
  end.

(** [s.indexOf(t) !== -1] *)
Fixpoint contains (t s : string) : bool :=
  if String.prefix t s then true
  else match s with
       | EmptyString => false
       | String _ tl => contains t tl
       end.

(** Upper-case hexadecimal digit (percent-encoding). *)
Definition hex_digit (n : nat) : ascii :=
  ascii_of_nat (if (n <? 10)%nat then 48 + n else 55 + n).

(** Lower-case hexadecimal digit (JSON escapes). *)
Definition hex_digit_lower (n : nat) : ascii :=
  ascii_of_nat (if (n <? 10)%nat then 48 + n else 87 + n).

(** The characters [encodeURIComponent] leaves alone: letters, digits and
    [- _ . ! ~ * ' ( )]. *)
Definition uri_unreserved (a : ascii) : bool :=
  let n := nat_of_ascii a in
  ((65 <=? n) && (n <=? 90))%nat || ((97 <=? n) && (n <=? 122))%nat
  || ((48 <=? n) && (n <=? 57))%nat
  || existsb (Nat.eqb n) [45; 95; 46; 33; 126; 42; 39; 40; 41].

(** [encodeURIComponent]: every other byte of the UTF-8 text becomes
    [%XX]. *)
Fixpoint encodeURIComponent (s : string) : string :=
  match s with
  | EmptyString => EmptyString
  | String a tl =>
      if uri_unreserved a then String a (encodeURIComponent tl)
      else
        let n := nat_of_ascii a in
        String "%" (String (hex_digit (n / 16)) (String (hex_digit (n mod 16))
               (encodeURIComponent tl)))
  end.

Definition dquote : ascii := ascii_of_nat 34.

(** [s.endsWith(t)], here for the test [/\[\]$/]. *)
Fixpoint ends_with (t s : string) : bool :=
  if String.eqb s t then true
  else match s with
       | EmptyString => false
       | String _ tl => ends_with t tl
       end.

Fixpoint drop (n : nat) (s : string) : string :=
  match n, s with
  | O, _ => s
  | S n', String _ tl => drop n' tl
  | S _, EmptyString => EmptyString
  end.

(** [s.replace(pat, rep)] for a string pattern: the first occurrence. *)
Fixpoint replace_first (pat rep s : string) : string :=
  if String.prefix pat s then rep ++ drop (String.length pat) s
  else match s with
       | EmptyString => EmptyString
       | String c tl => String c (replace_first pat rep tl)
       end.

(** [s.replace(/^\?/, '')] *)
Definition strip_question (s : string) : string :=
  match s with
  | String c tl => if Ascii.eqb c "?" then tl else s
  | EmptyString => s
  end.

(** The quoting of [JSON.stringify]. *)
Definition json_escape_char (a : ascii) : string :=
  let n := nat_of_ascii a in
  if Nat.eqb n 34 then String "\" (String dquote "")
  else if Nat.eqb n 92 then "\\"
  else if Nat.eqb n 8 then "\b"
  else if Nat.eqb n 9 then "\t"
  else if Nat.eqb n 10 then "\n"
  else if Nat.eqb n 12 then "\f"
  else if Nat.eqb n 13 then "\r"
  else if (n <? 32)%nat then
    "\u00" ++ String (hex_digit_lower (n / 16)) (String (hex_digit_lower (n mod 16)) "")
  else String a "".

Fixpoint json_escape (s : string) : string :=
  match s with
  | EmptyString => EmptyString
  | String a tl => json_escape_char a ++ json_escape tl
  end.

Definition json_quote (s : string) : string :=
  String dquote (json_escape s ++ String dquote "").

End Str.

(* ===================================================================== *)
(** ** JavaScript values *)
(* ===================================================================== *)

Module JS.

#[local] Unset Elimination Schemes.
Inductive value : Type :=
| VUndef
| VNull
| VBool (b : bool)
| VNum (n : float)
| VStr (s : string)
| VArr (items : list value)
| VObj (fields : list (string * value))
| VError (e : exn).
#[local] Set Elimination Schemes.

(** [VError e] is an [Error] object, the value a [catch] clause binds: it
    is truthy, it is not a plain object, and [String] prints its name and
    message. *)

(** What the engine provides and this development does not define: the
    parts of the number/string conversions that need decimal floating-point
    printing or parsing, [JSON.parse], [decodeURIComponent], and the rounding
    functions of [Math]. *)
Class Engine : Type := {
  (** [String(n)] for a finite [n] that is not an integer below 10^21 *)
  Number_toString_other : float -> string;
  (** [Number(s)] *)
  StringToNumber : string -> float;
  (** [parseInt(s, 10)] and [parseFloat(s)] on a string *)
  parseInt10 : string -> float;
  parseFloat_str : string -> float;
  (** [n.toFixed(4)] *)
  toFixed4 : float -> string;
  Math_round : float -> float;
  Math_floor : float -> float;
  JSON_parse : string -> result value;
  decodeURIComponent : string -> result string;
  (** [s.toUpperCase()] for a text [s] that has a character outside ASCII,
      which follows the case mappings of Unicode *)
  toUpperCase_other : string -> string
}.

(** The integer a float denotes, when it denotes one. *)
Definition float_to_Z (f : float) : option Z :=
  match Prim2SF f with
  | S754_zero _ => Some 0%Z
  | S754_finite s m e =>
      let mz := Z.pos m in
      let v := if (0 <=? e)%Z then Some (mz * 2 ^ e)%Z
               else if (mz mod 2 ^ (- e) =? 0)%Z then Some (mz / 2 ^ (- e))%Z
               else None in
      match v with
      | Some z => Some (if s then (- z)%Z else z)
      | None => None
      end
  | _ => None
  end.

(** The float of an integer literal (of magnitude below 2^63). *)
Definition float_of_Z (z : Z) : float :=
  if (z <? 0)%Z then PrimFloat.opp (PrimFloat.of_uint63 (Uint63.of_Z (- z)))
  else PrimFloat.of_uint63 (Uint63.of_Z z).

Definition num (z : Z) : value := VNum (float_of_Z z).

Section WithEngine.
Context {E : Engine}.

(** [Number::toString]: NaN, the infinities and integers below 10^21 are
    printed here, the rest by the engine. *)
Definition Number_toString (f : float) : string :=
  if PrimFloat.is_nan f then "NaN"
  else if PrimFloat.eqb f infinity then "Infinity"
  else if PrimFloat.eqb f neg_infinity then "-Infinity"
  else match float_to_Z f with
       | Some z =>
           if (Z.abs z <? 10 ^ 21)%Z then Str.of_Z z
           else Number_toString_other f
       | None => Number_toString_other f
       end.

(** [String(v)]; arrays print as [join(",")], objects as [[object Object]]. *)
Fixpoint ToString (v : value) : string :=
  match v with
  | VUndef => "undefined"
  | VNull => "null"
  | VBool true => "true"
  | VBool false => "false"
  | VNum n => Number_toString n
  | VStr s => s
  | VArr l =>
      Str.join ","
        (map (fun x => match x with
                       | VUndef | VNull => ""
                       | _ => ToString x
                       end) l)
  | VObj _ => "[object Object]"
  | VError e => exn_name e ++ ": " ++ exn_message e
  end.

(** [Number(v)] *)
Definition ToNumber (v : value) : float :=
  match v with
  | VUndef => nan
  | VNull => zero
  | VBool true => one
  | VBool false => zero
  | VNum n => n
  | VStr s => StringToNumber s
  | VArr _ | VObj _ | VError _ => StringToNumber (ToString v)
  end.

(** [a - b] *)
Definition sub (a b : value) : value := VNum (ToNumber a - ToNumber b)%float.

(** [parseInt(v, 10)] and [parseFloat(v)]: the argument is first converted
    to a string. *)
Definition parseInt (v : value) : float := parseInt10 (ToString v).
Definition parseFloat (v : value) : float := parseFloat_str (ToString v).

(** [JSON.stringify(v)]; [None] stands for the result [undefined].
    Properties whose value is [undefined] are left out, array holes and
    non-finite numbers print as [null]. *)
Fixpoint JSON_stringify (v : value) : option string :=
  match v with
  | VUndef => None
  | VNull => Some "null"
  | VBool true => Some "true"
  | VBool false => Some "false"
  | VNum n =>
      if PrimFloat.is_nan n || PrimFloat.is_infinity n then Some "null"
      else Some (Number_toString n)
  | VStr s => Some (Str.json_quote s)
  | VArr l =>
      Some ("[" ++ Str.join ","
              (map (fun x => match JSON_stringify x with
                             | Some s => s
                             | None => "null"
                             end) l) ++ "]")
  | VObj fs =>
      Some ("{" ++ Str.join ","
              ((fix members (l : list (string * value)) : list string :=
                  match l with
                  | [] => []
                  | (k, x) :: tl =>
                      match JSON_stringify x with
                      | Some s => (Str.json_quote k ++ ":" ++ s) :: members tl
                      | None => members tl
                      end
                  end) fs) ++ "}")
  | VError _ => Some "{}"
  end.

(** [JSON.stringify(v)] as a value. *)
Definition JSON_stringify_value (v : value) : value :=
  match JSON_stringify v with
  | Some s => VStr s
  | None => VUndef
  end.

End WithEngine.

(** Truthiness. *)
Definition truthy (v : value) : bool :=
  match v with
  | VUndef | VNull => false
  | VBool b => b
  | VNum n => negb (PrimFloat.is_zero n || PrimFloat.is_nan n)
  | VStr s => negb (String.eqb s "")
  | VArr _ | VObj _ | VError _ => true
  end.

(** [a || b] and [a && b] *)
Definition or (a b : value) : value := if truthy a then a else b.
Definition and (a b : value) : value := if truthy a then b else a.

(** [a === b].  Values carry no object identity: two arrays or objects
    compare unequal, as two separately built ones do in JavaScript.  The
    adapters compare identifiers, statuses and constants, which are
    primitives. *)
Definition strict_eq (a b : value) : bool :=
  match a, b with
  | VUndef, VUndef => true
  | VNull, VNull => true
  | VBool x, VBool y => Bool.eqb x y
  | VNum x, VNum y => PrimFloat.eqb x y
  | VStr x, VStr y => String.eqb x y
  | _, _ => false
  end.

(** [v == null] *)
Definition is_nullish (v : value) : bool :=
  match v with
  | VUndef | VNull => true
  | _ => false
  end.

Definition is_undefined (v : value) : bool :=
  match v with
  | VUndef => true
  | _ => false
  end.

(** *** Objects used as maps

    The own properties of an object, in the order [Object.keys] lists
    them: array-index keys in ascending order first, then the other keys in
    the order of their creation.  [oset] keeps a list in that order. *)
Definition obj (A : Type) : Type := list (string * A).

Section Obj.
Variable A : Type.

Fixpoint oget (k : string) (o : obj A) : option A :=
  match o with
  | [] => None
  | (k', v) :: tl => if String.eqb k' k then Some v else oget k tl
  end.

Definition ohas (k : string) (o : obj A) : bool :=
  match oget k o with
  | Some _ => true
  | None => false
  end.

Fixpoint oreplace (k : string) (v : A) (o : obj A) : obj A :=
  match o with
  | [] => []
  | (k', v') :: tl =>
      if String.eqb k' k then (k', v) :: tl else (k', v') :: oreplace k v tl
  end.

(** A new array-index key goes before the first key that is not an index
    or is a larger index. *)
Fixpoint oinsert_index (n : N) (k : string) (v : A) (o : obj A) : obj A :=
  match o with
  | [] => [(k, v)]
  | (k', v') :: tl =>
      match Str.array_index k' with
      | Some n' =>
          if (n <? n')%N then (k, v) :: o
          else (k', v') :: oinsert_index n k v tl
      | None => (k, v) :: o
      end
  end.

(** [o[k] = v] *)
Definition oset (k : string) (v : A) (o : obj A) : obj A :=
  if ohas k o then oreplace k v o
  else match Str.array_index k with
       | Some n => oinsert_index n k v o
       | None => (o ++ [(k, v)])%list
       end.

(** [delete o[k]] *)
Definition odelete (k : string) (o : obj A) : obj A :=
  filter (fun kv => negb (String.eqb (fst kv) k)) o.

(** [Object.keys(o)] *)
Definition okeys (o : obj A) : list string := map fst o.

End Obj.

(** The properties every plain object inherits from [Object.prototype].
    On an object [o] without an own property [k], [o[k]] is [undefined]
    unless [k] is one of these names: then it is a built-in function, or
    the prototype itself for [__proto__]. *)
Definition Object_prototype_names : list string :=
  ["constructor"; "__defineGetter__"; "__defineSetter__"; "hasOwnProperty";
   "__lookupGetter__"; "__lookupSetter__"; "isPrototypeOf";
   "propertyIsEnumerable"; "toString"; "valueOf"; "__proto__";
   "toLocaleString"].

Definition inherited (k : string) : bool :=
  existsb (String.eqb k) Object_prototype_names.

(** [Object.assign(target, source)] on property lists. *)
Definition oassign {A} (target source : obj A) : obj A :=
  fold_left (fun t kv => oset (fst kv) (snd kv) t) source target.

(** *** Property access *)

(** [v[k]] for a [v] that is neither [undefined] nor [null].  The length of
    a string is counted in bytes, which is its length in UTF-16 units for
    ASCII text. *)
Definition get (v : value) (k : string) : value :=
  match v with
  | VObj fs =>
      match oget k fs with
      | Some x => x
      | None => VUndef
      end
  | VArr l =>
      if String.eqb k "length" then num (Z.of_nat (List.length l))
      else match Str.array_index k with
           | Some n => nth (N.to_nat n) l VUndef
           | None => VUndef
           end
  | VStr s =>
      if String.eqb k "length" then num (Z.of_nat (String.length s))
      else match Str.array_index k with
           | Some n =>
               match String.get (N.to_nat n) s with
               | Some c => VStr (String c "")
               | None => VUndef
               end
           | None => VUndef
           end
  | _ => VUndef
  end.

Definition type_name (v : value) : string :=
  match v with
  | VUndef => "undefined"
  | VNull => "null"
  | VBool _ => "boolean"
  | VNum _ => "number"
  | VStr _ => "string"
  | VArr _ => "array"
  | VObj _ | VError _ => "object"
  end.

(** [v[k]] or [v.k]: reading a property of [undefined] or [null] throws. *)
Definition get_prop (v : value) (k : string) : result value :=
  if is_nullish v then
    Throw (TypeError ("Cannot read properties of " ++ type_name v
                      ++ " (reading '" ++ k ++ "')"))
  else Ok (get v k).

(** The receiver of an array method ([v.map], [v.forEach], [v.join],
    [v.reduce], [v.filter]): only arrays have them. *)
Definition as_array (method : string) (v : value) : result (list value) :=
  match v with
  | VArr l => Ok l
  | VUndef | VNull =>
      Throw (TypeError ("Cannot read properties of " ++ type_name v
                        ++ " (reading '" ++ method ++ "')"))
  | _ => Throw (TypeError (method ++ " is not a function"))
  end.

(** [Object.keys(v)]: throws on [undefined] and [null]; a string lists its
    indices, other primitives have no own keys. *)
Definition Object_keys (v : value) : result (list string) :=
  match v with
  | VUndef | VNull =>
      Throw (TypeError "Cannot convert undefined or null to object")
  | VObj fs => Ok (okeys fs)
  | VArr l => Ok (map Str.of_nat (seq 0 (List.length l)))
  | VStr s => Ok (map Str.of_nat (seq 0 (String.length s)))
  | _ => Ok []
  end.

(** [o[k] = v] in strict mode: on an object it sets the property, on
    [undefined], [null] and primitives it throws.  Arrays are only
    assigned at their indices by the engine; the adapters do not do it. *)
Definition set_prop (o : value) (k : string) (v : value) : result value :=
  match o with
  | VObj fs => Ok (VObj (oset k v fs))
  | _ => Throw (TypeError ("Cannot set properties of " ++ type_name o
                           ++ " (setting '" ++ k ++ "')"))
  end.

Fixpoint string_chars (s : string) : list value :=
  match s with
  | EmptyString => []
  | String c tl => VStr (String c "") :: string_chars tl
  end.

(** The own enumerable properties a value contributes as the source of
    [Object.assign] or of a spread [{...v}]. *)
Definition own_props (v : value) : obj value :=
  match v with
  | VObj fs => fs
  | VArr l => combine (map Str.of_nat (seq 0 (List.length l))) l
  | VStr s => combine (map Str.of_nat (seq 0 (String.length s))) (string_chars s)
  | _ => []
  end.

(** [{...v}] *)
Definition spread (v : value) : obj value := own_props v.

(** [v instanceof Object] *)
Definition instanceof_Object (v : value) : bool :=
  match v with
  | VArr _ | VObj _ | VError _ => true
  | _ => false
  end.

Section Conversions.
Context {E : Engine}.

(** [arr.join(sep)]: [undefined] and [null] elements print as nothing. *)
Definition join_values (sep : string) (l : list value) : string :=
  Str.join sep (map (fun x => if is_nullish x then "" else ToString x) l).

(** [s.toUpperCase()]: ASCII text is upper-cased here, other text by the
    engine. *)
Definition String_toUpperCase (s : string) : string :=
  if Str.is_ascii s then Str.toUpperCase s else toUpperCase_other s.

(** [v.toUpperCase()]: only strings have the method. *)
Definition toUpperCase (v : value) : result value :=
  match v with
  | VStr s => Ok (VStr (String_toUpperCase s))
  | VUndef | VNull =>
      Throw (TypeError ("Cannot read properties of " ++ type_name v
                        ++ " (reading 'toUpperCase')"))
  | _ => Throw (TypeError "toUpperCase is not a function")
  end.

(** [arr.indexOf(x) !== -1] *)
Definition index_found (l : list value) (x : value) : bool :=
  existsb (fun y => strict_eq y x) l.

End Conversions.

End JS.

(* ===================================================================== *)
(** ** Helpers of the host library (src/utils.js, src/polyfill.js) *)
(* ===================================================================== *)

Module Utils.
Import JS.

(** Modelled from the spec: [deepAccess] of src/utils.js, which is not
    among the sources.  It walks a dotted path and yields [undefined] as
    soon as an intermediate value is falsy. *)
Definition deepAccess (o : value) (path : string) : value :=
  fold_left (fun cur k => if truthy cur then get cur k else VUndef)
            (Str.split "." path) o.

(** Modelled from the spec: [deepSetValue] of src/utils.js, which is not
    among the sources.  It walks all but the last segment of a dotted path,
    creating an empty object where the property is falsy, and assigns the
    value at the last segment. *)
Fixpoint deepSetValue_path (o : value) (path : list string) (v : value)
  : result value :=
  match path with
  | [] => Ok o
  | [k] => set_prop o k v
  | k :: rest =>
      match get_prop o k with
      | Throw e => Throw e
      | Ok child =>
          let child := if truthy child then child else VObj [] in
          match deepSetValue_path child rest v with
          | Throw e => Throw e
          | Ok child' => set_prop o k child'
          end
      end
  end.

Definition deepSetValue (o : value) (path : string) (v : value)
  : result value :=
  deepSetValue_path o (Str.split "." path) v.

(** Modelled from the spec: [isPlainObject] of src/utils.js, which is not
    among the sources: true of objects, false of arrays and primitives. *)
Definition isPlainObject (v : value) : bool :=
  match v with
  | VObj _ => true
  | _ => false
  end.

(** Modelled from the spec: [isEmpty] of src/utils.js, which is not among
    the sources: falsy values, empty arrays and strings, and values
    without own keys are empty. *)
Definition isEmpty (v : value) : bool :=
  match v with
  | VArr l => match l with [] => true | _ => false end
  | VStr s => String.eqb s ""
  | VObj fs => match fs with [] => true | _ => false end
  | VUndef | VNull | VBool _ | VNum _ | VError _ => true
  end.

(** Modelled from the spec: [_map] of src/utils.js, which is not among the
    sources, on an object: the callback is applied to each own property
    (value, key) in key order and the results are collected in an array. *)
Definition _map {B} (o : obj value) (f : value -> string -> B) : list B :=
  map (fun kv => f (snd kv) (fst kv)) o.

(** Modelled from the spec: [uniques] of src/utils.js, which is not among
    the sources, as used in [arr.filter(uniques)]: an element is kept when
    it is the first occurrence of its value. *)
Fixpoint filter_uniques_go (seen l : list string) : list string :=
  match l with
  | [] => []
  | x :: tl =>
      if existsb (String.eqb x) seen then filter_uniques_go seen tl
      else x :: filter_uniques_go (x :: seen) tl
  end.

Definition filter_uniques (l : list string) : list string :=
  filter_uniques_go [] l.

(** Modelled from the spec: [includes] of src/polyfill.js, which is not
    among the sources, on an array of strings. *)
Definition includes (l : list string) (v : value) : bool :=
  existsb (fun k => strict_eq (VStr k) v) l.

End Utils.

(* ===================================================================== *)
(** ** The Smaato bid adapter *)
(* ===================================================================== *)

Module Smaato.
Import JS.

Definition BIDDER_CODE : string := "smaato".
Definition SMAATO_ENDPOINT : string := "https://prebid-test.smaatolabs.net/bidder".
Definition CLIENT : string := "prebid/js/$prebid.version$_0.1".

(** The browser and the host library, as the adapter reads them. *)
Class Env : Type := {
  location_hostname : string;
  location_href : string;
  (** [navigator.language], empty when the browser gives none *)
  navigator_language : string;
  navigator_userAgent : string;
  screen_height : value;
  screen_width : value;
  (** [utils.getDNT()] *)
  getDNT : bool;
  (** [config.getConfig('coppa')] *)
  getConfig_coppa : value;
  (** [utils.getAdUnitSizes(bidRequest)] *)
  getAdUnitSizes : value -> value;
  (** [Date.now()] *)
  Date_now : float
}.

(** What [buildRequests] returns. *)
Record ServerRequest : Type := {
  method : string;
  url : value;
  data : value;
  customHeaders : list (string * value)
}.

(** A server response: [headers.get] and the parsed body. *)
Record ServerResponse : Type := {
  headers_get : string -> value;
  body : value
}.

(** A bid as [interpretResponse] hands it to the host. *)
Record PrebidBid : Type := {
  requestId : value;
  cpm : value;
  width : value;
  height : value;
  ad : value;
  ttl : value;
  creativeId : value;
  dealId : value;
  netRevenue : bool;
  currency : value
}.

(** [typeof v === 'object'] and [typeof v === 'string'] *)
Definition typeof_object (v : value) : bool :=
  match v with
  | VNull | VArr _ | VObj _ | VError _ => true
  | _ => false
  end.

Definition typeof_string (v : value) : bool :=
  match v with
  | VStr _ => true
  | _ => false
  end.

Definition dq : string := String Str.dquote "".

Section WithEnv.
Context {E : Engine} {V : Env}.
Open Scope result_scope.

(** [parseSizes]: [[w, h]] pairs to [{w, h}] objects. *)
Definition parseSizes (sizes : value) : result (list value) :=
  let? l := as_array "map" sizes in
  rmap (fun size =>
          let? w := get_prop size "0" in
          let? h := get_prop size "1" in
          Ok (VObj [("w", w); ("h", h)])) l.

(** The callback of [validBidRequests.map] that builds one [imp]. *)
Definition build_imp (br : value) : result value :=
  let? sizes := parseSizes (getAdUnitSizes br) in
  let? id := get_prop br "bidId" in
  let? first := get_prop (nth 0 sizes VUndef) "w" in
  let? firsth := get_prop (nth 0 sizes VUndef) "h" in
  Ok (VObj [("id", id);
            ("banner", VObj [("w", first); ("h", firsth); ("format", VArr sizes)]);
            ("tagid", Utils.deepAccess br "params.adspaceId")]).

(** The request object of [buildOpenRtbBidRequestPayload], before it is
    serialized. *)
Definition buildOpenRtbBidRequest (validBidRequests : list value)
    (bidderRequest : value) : result value :=
  let? imp := rmap build_imp validBidRequests in
  let? auctionId := get_prop bidderRequest "auctionId" in
  let publisherId :=
    Utils.deepAccess (nth 0 validBidRequests VUndef) "params.publisherId" in
  let? referer := get_prop (get bidderRequest "refererInfo") "referer" in
  let language :=
    if truthy (VStr navigator_language)
    then nth 0 (Str.split "-" navigator_language) ""
    else "" in
  let gdprConsent := get bidderRequest "gdprConsent" in
  let gdpr :=
    if truthy (and gdprConsent (get gdprConsent "gdprApplies"))
    then num 1 else num 0 in
  let request :=
    VObj [("id", auctionId);
          ("at", num 1);
          ("imp", VArr imp);
          ("cur", VArr [VStr "USD"]);
          ("site", VObj [("id", VStr location_hostname);
                         ("publisher", VObj [("id", publisherId)]);
                         ("domain", VStr location_hostname);
                         ("page", VStr location_href);
                         ("ref", referer)]);
          ("device", VObj [("language", VStr language);
                           ("ua", VStr navigator_userAgent);
                           ("dnt", if getDNT then num 1 else num 0);
                           ("h", screen_height);
                           ("w", screen_width)]);
          ("regs", VObj [("coppa",
                          if strict_eq getConfig_coppa (VBool true)
                          then num 1 else num 0);
                         ("ext", VObj [("gdpr", gdpr)])]);
          ("ext", VObj [("client", VStr CLIENT)])] in
  let uspConsent := get bidderRequest "uspConsent" in
  if negb (is_undefined uspConsent)
  then Utils.deepSetValue request "regs.ext.us_privacy" uspConsent
  else Ok request.

Definition buildOpenRtbBidRequestPayload (validBidRequests : list value)
    (bidderRequest : value) : result value :=
  let? request := buildOpenRtbBidRequest validBidRequests bidderRequest in
  Ok (JSON_stringify_value request).

(** [spec.isBidRequestValid] *)
Definition isBidRequestValid (bid : value) : result bool :=
  let? params := get_prop bid "params" in
  if typeof_object params then
    let? publisherId := get_prop params "publisherId" in
    if typeof_string publisherId then
      let? adspaceId := get_prop params "adspaceId" in
      Ok (typeof_string adspaceId)
    else Ok false
  else Ok false.

(** [spec.buildRequests] *)
Definition buildRequests (validBidRequests : list value)
    (bidderRequest : value) : result ServerRequest :=
  let? params := get_prop (nth 0 validBidRequests VUndef) "params" in
  let? endpoint := get_prop params "endpoint" in
  let? payload := buildOpenRtbBidRequestPayload validBidRequests bidderRequest in
  let? auctionId := get_prop bidderRequest "auctionId" in
  Ok {| method := "POST";
        url := or endpoint (VStr SMAATO_ENDPOINT);
        data := payload;
        customHeaders := [("X-SMT-Client", VStr CLIENT);
                          ("X-SMT-SessionId", auctionId)] |}.

(** [createImgAd]: the markup of an image ad. *)
Definition createImgAd (adm : value) : result value :=
  let? parsed := JSON_parse (ToString adm) in
  let? image := get_prop parsed "image" in
  let? clicktrackers := get_prop image "clicktrackers" in
  let? clicks := as_array "forEach" clicktrackers in
  let clickEvent :=
    fold_left
      (fun acc src =>
         acc ++ "fetch(decodeURIComponent('"
             ++ Str.encodeURIComponent (ToString src)
             ++ "'), {cache: 'no-cache'});")
      clicks "" in
  let? img := get_prop image "img" in
  let? ctaurl := get_prop img "ctaurl" in
  let? imgurl := get_prop img "url" in
  let? w := get_prop img "w" in
  let? h := get_prop img "h" in
  let markup :=
    "<div onclick=" ++ dq ++ clickEvent ++ dq ++ "><a href=" ++ dq
      ++ ToString ctaurl ++ dq ++ "><img src=" ++ dq ++ ToString imgurl ++ dq
      ++ " width=" ++ dq ++ ToString w ++ dq ++ " height=" ++ dq
      ++ ToString h ++ dq ++ "/></a></div>" in
  let? impressiontrackers := get_prop image "impressiontrackers" in
  let? imps := as_array "forEach" impressiontrackers in
  Ok (VStr (fold_left
              (fun acc src =>
                 acc ++ "<img src=" ++ dq ++ ToString src ++ dq ++ " alt=" ++ dq
                     ++ dq ++ " width=" ++ dq ++ "0" ++ dq ++ " height=" ++ dq
                     ++ "0" ++ dq ++ "/>")
              imps markup)).

(** [createRichmediaAd]: the content of a rich-media ad. *)
Definition createRichmediaAd (adm : value) : result value :=
  let? parsed := JSON_parse (ToString adm) in
  let? richmedia := get_prop parsed "richmedia" in
  let? rich := get_prop richmedia "mediadata" in
  get_prop rich "content".

(** The [switch (smtAdType)] of [interpretResponse]. *)
Definition createAd (smtAdType : value) (b : value) : result value :=
  if strict_eq smtAdType (VStr "Img") then
    let? adm := get_prop b "adm" in createImgAd adm
  else if strict_eq smtAdType (VStr "Richmedia") then
    let? adm := get_prop b "adm" in createRichmediaAd adm
  else Ok (VStr "").

(** The body of [sb.bid.forEach]: the bids pushed for one seatbid bid. *)
Definition interpretBid (smtAdType : value) (ttlSec : value) (res : value)
    (b : value) : result (list PrebidBid) :=
  let? ad := createAd smtAdType b in
  if negb (strict_eq ad (VStr "")) then
    Ok [{| requestId := get b "impid";
           cpm := or (get b "price") (num 0);
           width := get b "w";
           height := get b "h";
           ad := ad;
           ttl := ttlSec;
           creativeId := get b "crid";
           dealId := or (get b "dealid") VNull;
           netRevenue := false;
           currency := get res "cur" |}]
  else Ok [].

(** The body of [res.seatbid.forEach]. *)
Definition interpretSeatbid (smtAdType : value) (ttlSec : value) (res : value)
    (sb : value) : result (list PrebidBid) :=
  let? bid := get_prop sb "bid" in
  let? bs := as_array "forEach" bid in
  let? pushed := rmap (interpretBid smtAdType ttlSec res) bs in
  Ok (concat pushed).

(** [spec.interpretResponse] *)
Definition interpretResponse (serverResponse : ServerResponse)
  : result (list PrebidBid) :=
  let smtAdType := headers_get serverResponse "X-SMT-ADTYPE" in
  let smtExpires := headers_get serverResponse "X-SMT-Expires" in
  let ttlSec :=
    if negb (is_undefined smtExpires)
    then VNum (Math_floor ((ToNumber smtExpires - Date_now) / float_of_Z 1000)%float)
    else num 300 in
  let res := body serverResponse in
  if truthy res then
    let? seatbid := as_array "forEach" (get res "seatbid") in
    let? pushed := rmap (interpretSeatbid smtAdType ttlSec res) seatbid in
    Ok (concat pushed)
  else Ok [].

End WithEnv.
End Smaato.

(* ===================================================================== *)
(** ** The Media.net analytics adapter *)
(* ===================================================================== *)

Module Medianet.
Import JS.

Definition ENDPOINT : string :=
  "https://pb-logs.media.net/log?logid=kfk&evtid=prebid_analytics_events_client".
Definition CONFIG_URL : string := "https://prebid.media.net/rtb/prebid/analytics/config".
Definition EVENT_PIXEL_URL : string := "https://qsearch-a.akamaihd.net/log".
Definition DEFAULT_LOGGING_PERCENT : value := num 50.
Definition ANALYTICS_VERSION : string := "1.0.0".

Definition PRICE_GRANULARITY : obj string :=
  [("auto", "pbAg"); ("custom", "pbCg"); ("dense", "pbDg");
   ("low", "pbLg"); ("medium", "pbMg"); ("high", "pbHg")].

Definition MEDIANET_BIDDER_CODE : string := "medianet".
Definition PREBID_VERSION : string := "$prebid.version$".
Definition ERROR_CONFIG_JSON_PARSE : string := "analytics_config_parse_fail".
Definition ERROR_CONFIG_FETCH : string := "analytics_config_ajax_fail".
Definition ERROR_WINNING_BID_ABSENT : string := "winning_bid_absent".
Definition ERROR_WINNING_AUCTION_MISSING : string := "winning_auction_missing".
Definition BID_SUCCESS : value := num 1.
Definition BID_NOBID : value := num 2.
Definition BID_TIMEOUT : value := num 3.
Definition BID_FLOOR_REJECTED : value := num 12.
Definition DUMMY_BIDDER : string := "-2".

Definition CONFIG_PENDING : Z := 0.
Definition CONFIG_PASS : Z := 1.
Definition CONFIG_ERROR : Z := 3.

Definition VALID_URL_KEY : list string := ["canonical_url"; "og_url"; "twitter_url"].
Definition DEFAULT_URL_KEY : string := "topmostLocation".

Definition LOG_TYPE_APPR : string := "APPR".
Definition LOG_TYPE_RA : string := "RA".

(** An element of the page, as [_getAttributeFromSelector] reads it: its
    attributes. *)
Definition element : Type := string -> value.

(** What the adapter imports and reads from its surroundings: constants
    and functions of the host library whose files are not among the
    sources, the clock, the random source and the page. *)
Class Host : Type := {
  (** [EVENTS] of src/constants.js *)
  AUCTION_INIT : string;
  BID_REQUESTED : string;
  BID_RESPONSE : string;
  EV_BID_TIMEOUT : string;
  NO_BID : string;
  AUCTION_END : string;
  SET_TARGETING : string;
  BID_WON : string;
  (** [BID_STATUS.BID_REJECTED] and [TARGETING_KEYS.AD_ID] *)
  BID_REJECTED : string;
  AD_ID : string;
  (** src/auction.js *)
  AUCTION_COMPLETED : string;
  AUCTION_IN_PROGRESS : string;
  getPriceGranularity : value -> value;
  (** src/video.js and src/mediaTypes.js *)
  INSTREAM : string;
  OUTSTREAM : string;
  ADPOD : string;
  (** [convertCurrency(price, from, to, false)] of
      libraries/currencyUtils/currency.js *)
  convertCurrency : value -> value -> value -> result value;
  (** the n-th reading of [Date.now()] and of [Math.random()] *)
  Date_now : nat -> float;
  Math_random : nat -> float;
  (** [getRefererInfo()] and [window.document.referrer] *)
  getRefererInfo : value;
  document_referrer : value;
  (** [getWindowTop().document.querySelector(selector)]: an element,
      [null], or an exception *)
  querySelector : string -> result (option element);
  (** [_getAbsoluteUrl]: the [href] of an anchor of the top document *)
  anchor_href : value -> result value;
  (** the widths and heights [_getWindowSize] tries in turn *)
  window_innerWidth : value;
  documentElement_clientWidth : value;
  body_clientWidth : value;
  window_innerHeight : value;
  documentElement_clientHeight : value;
  body_clientHeight : value;
  (** [parsed.hostname], [parsed.search] and [parsed.host] of an anchor
      whose [href] was set to the given string, and [window.location.host] *)
  anchor_hostname : string -> value;
  anchor_search : string -> value;
  anchor_host : string -> value;
  location_host : value
}.

(** *** The classes of the adapter *)

(** A [Bid] is kept as its property list: the handlers copy bids with
    [Object.assign] and spreads, which work on properties. *)
Definition Bid : Type := obj value.

Record AdSlot : Type := {
  tmax : value;
  supplyAdCode : value;
  context : value;
  adext : value;
  logged : obj bool;
  targeting : value;
  medianetPresent : value
}.

(** An [Auction] with its [BidWrapper] inlined: [bidReqs] and [bidObjs]
    are the two arrays of the wrapper. *)
Record Auction : Type := {
  acid : value;
  status : string;
  bidReqs : list Bid;
  bidObjs : list Bid;
  adSlots : obj AdSlot;
  auctionInitTime : value;
  auctionStartTime : value;
  setTargetingTime : value;
  auctionEndTime : value;
  bidWonTime : value;
  floorData : value
}.

Record Configure : Type := {
  cid : value;
  pubLper : value;
  ajaxState : Z;
  loggingPercent : value;
  urlToConsume : string;
  debug : bool;
  gdprConsent : value;
  gdprApplies : value;
  uspConsent : value;
  shouldBeLogged : obj bool;
  mnetDebugConfig : value
}.

Record PageDetail : Type := {
  domain : value;
  page : value;
  is_top : value;
  referrer : value;
  canonical_url : value;
  og_url : value;
  twitter_url : value;
  topmostLocation : value;
  screen : value
}.

(** The module-level variables, with what the adapter does to its
    surroundings: pixels triggered, messages logged, requests sent, the
    global flag, the calls of the inherited [enableAnalytics], and how
    often the clock and the random source were read. *)
Record state : Type := {
  auctions : obj Auction;
  config : option Configure;
  pageDetails : option PageDetail;
  logsQueue : list string;
  errorQueue : list string;
  pixels : list string;
  console_errors : list string;
  console_infos : list (value * value);
  ajax_requests : list string;
  analyticsEnabled : bool;
  origin_calls : list value;
  clock_reads : nat;
  random_draws : nat
}.

(** *** Field updates *)

Definition set_logged (x : obj bool) (s : AdSlot) : AdSlot :=
  {| tmax := tmax s; supplyAdCode := supplyAdCode s; context := context s;
     adext := adext s; logged := x; targeting := targeting s;
     medianetPresent := medianetPresent s |}.

Definition set_targeting (x : value) (s : AdSlot) : AdSlot :=
  {| tmax := tmax s; supplyAdCode := supplyAdCode s; context := context s;
     adext := adext s; logged := logged s; targeting := x;
     medianetPresent := medianetPresent s |}.

Definition set_medianetPresent (x : value) (s : AdSlot) : AdSlot :=
  {| tmax := tmax s; supplyAdCode := supplyAdCode s; context := context s;
     adext := adext s; logged := logged s; targeting := targeting s;
     medianetPresent := x |}.

Definition set_status (x : string) (a : Auction) : Auction :=
  {| acid := acid a; status := x; bidReqs := bidReqs a; bidObjs := bidObjs a;
     adSlots := adSlots a; auctionInitTime := auctionInitTime a;
     auctionStartTime := auctionStartTime a; setTargetingTime := setTargetingTime a;
     auctionEndTime := auctionEndTime a; bidWonTime := bidWonTime a;
     floorData := floorData a |}.

Definition set_bidReqs (x : list Bid) (a : Auction) : Auction :=
  {| acid := acid a; status := status a; bidReqs := x; bidObjs := bidObjs a;
     adSlots := adSlots a; auctionInitTime := auctionInitTime a;
     auctionStartTime := auctionStartTime a; setTargetingTime := setTargetingTime a;
     auctionEndTime := auctionEndTime a; bidWonTime := bidWonTime a;
     floorData := floorData a |}.

Definition set_bidObjs (x : list Bid) (a : Auction) : Auction :=
  {| acid := acid a; status := status a; bidReqs := bidReqs a; bidObjs := x;
     adSlots := adSlots a; auctionInitTime := auctionInitTime a;
     auctionStartTime := auctionStartTime a; setTargetingTime := setTargetingTime a;
     auctionEndTime := auctionEndTime a; bidWonTime := bidWonTime a;
     floorData := floorData a |}.

Definition set_adSlots (x : obj AdSlot) (a : Auction) : Auction :=
  {| acid := acid a; status := status a; bidReqs := bidReqs a; bidObjs := bidObjs a;
     adSlots := x; auctionInitTime := auctionInitTime a;
     auctionStartTime := auctionStartTime a; setTargetingTime := setTargetingTime a;
     auctionEndTime := auctionEndTime a; bidWonTime := bidWonTime a;
     floorData := floorData a |}.

Definition set_auctionInitTime (x : value) (a : Auction) : Auction :=
  {| acid := acid a; status := status a; bidReqs := bidReqs a; bidObjs := bidObjs a;
     adSlots := adSlots a; auctionInitTime := x;
     auctionStartTime := auctionStartTime a; setTargetingTime := setTargetingTime a;
     auctionEndTime := auctionEndTime a; bidWonTime := bidWonTime a;
     floorData := floorData a |}.

Definition set_auctionStartTime (x : value) (a : Auction) : Auction :=
  {| acid := acid a; status := status a; bidReqs := bidReqs a; bidObjs := bidObjs a;
     adSlots := adSlots a; auctionInitTime := auctionInitTime a;
     auctionStartTime := x; setTargetingTime := setTargetingTime a;
     auctionEndTime := auctionEndTime a; bidWonTime := bidWonTime a;
     floorData := floorData a |}.

Definition set_setTargetingTime (x : value) (a : Auction) : Auction :=
  {| acid := acid a; status := status a; bidReqs := bidReqs a; bidObjs := bidObjs a;
     adSlots := adSlots a; auctionInitTime := auctionInitTime a;
     auctionStartTime := auctionStartTime a; setTargetingTime := x;
     auctionEndTime := auctionEndTime a; bidWonTime := bidWonTime a;
     floorData := floorData a |}.

Definition set_auctionEndTime (x : value) (a : Auction) : Auction :=
  {| acid := acid a; status := status a; bidReqs := bidReqs a; bidObjs := bidObjs a;
     adSlots := adSlots a; auctionInitTime := auctionInitTime a;
     auctionStartTime := auctionStartTime a; setTargetingTime := setTargetingTime a;
     auctionEndTime := x; bidWonTime := bidWonTime a;
     floorData := floorData a |}.

Definition set_bidWonTime (x : value) (a : Auction) : Auction :=
  {| acid := acid a; status := status a; bidReqs := bidReqs a; bidObjs := bidObjs a;
     adSlots := adSlots a; auctionInitTime := auctionInitTime a;
     auctionStartTime := auctionStartTime a; setTargetingTime := setTargetingTime a;
     auctionEndTime := auctionEndTime a; bidWonTime := x;
     floorData := floorData a |}.

Definition set_floorData (x : value) (a : Auction) : Auction :=
  {| acid := acid a; status := status a; bidReqs := bidReqs a; bidObjs := bidObjs a;
     adSlots := adSlots a; auctionInitTime := auctionInitTime a;
     auctionStartTime := auctionStartTime a; setTargetingTime := setTargetingTime a;
     auctionEndTime := auctionEndTime a; bidWonTime := bidWonTime a;
     floorData := x |}.

Definition set_pubLper (x : value) (c : Configure) : Configure :=
  {| cid := cid c; pubLper := x; ajaxState := ajaxState c;
     loggingPercent := loggingPercent c; urlToConsume := urlToConsume c;
     debug := debug c; gdprConsent := gdprConsent c; gdprApplies := gdprApplies c;
     uspConsent := uspConsent c; shouldBeLogged := shouldBeLogged c;
     mnetDebugConfig := mnetDebugConfig c |}.

Definition set_ajaxState (x : Z) (c : Configure) : Configure :=
  {| cid := cid c; pubLper := pubLper c; ajaxState := x;
     loggingPercent := loggingPercent c; urlToConsume := urlToConsume c;
     debug := debug c; gdprConsent := gdprConsent c; gdprApplies := gdprApplies c;
     uspConsent := uspConsent c; shouldBeLogged := shouldBeLogged c;
     mnetDebugConfig := mnetDebugConfig c |}.

Definition set_loggingPercent (x : value) (c : Configure) : Configure :=
  {| cid := cid c; pubLper := pubLper c; ajaxState := ajaxState c;
     loggingPercent := x; urlToConsume := urlToConsume c;
     debug := debug c; gdprConsent := gdprConsent c; gdprApplies := gdprApplies c;
     uspConsent := uspConsent c; shouldBeLogged := shouldBeLogged c;
     mnetDebugConfig := mnetDebugConfig c |}.

Definition set_urlToConsume (x : string) (c : Configure) : Configure :=
  {| cid := cid c; pubLper := pubLper c; ajaxState := ajaxState c;
     loggingPercent := loggingPercent c; urlToConsume := x;
     debug := debug c; gdprConsent := gdprConsent c; gdprApplies := gdprApplies c;
     uspConsent := uspConsent c; shouldBeLogged := shouldBeLogged c;
     mnetDebugConfig := mnetDebugConfig c |}.

Definition set_debug (x : bool) (c : Configure) : Configure :=
  {| cid := cid c; pubLper := pubLper c; ajaxState := ajaxState c;
     loggingPercent := loggingPercent c; urlToConsume := urlToConsume c;
     debug := x; gdprConsent := gdprConsent c; gdprApplies := gdprApplies c;
     uspConsent := uspConsent c; shouldBeLogged := shouldBeLogged c;
     mnetDebugConfig := mnetDebugConfig c |}.

Definition set_gdprConsent (x : value) (c : Configure) : Configure :=
  {| cid := cid c; pubLper := pubLper c; ajaxState := ajaxState c;
     loggingPercent := loggingPercent c; urlToConsume := urlToConsume c;
     debug := debug c; gdprConsent := x; gdprApplies := gdprApplies c;
     uspConsent := uspConsent c; shouldBeLogged := shouldBeLogged c;
     mnetDebugConfig := mnetDebugConfig c |}.

Definition set_gdprApplies (x : value) (c : Configure) : Configure :=
  {| cid := cid c; pubLper := pubLper c; ajaxState := ajaxState c;
     loggingPercent := loggingPercent c; urlToConsume := urlToConsume c;
     debug := debug c; gdprConsent := gdprConsent c; gdprApplies := x;
     uspConsent := uspConsent c; shouldBeLogged := shouldBeLogged c;
     mnetDebugConfig := mnetDebugConfig c |}.

Definition set_uspConsent (x : value) (c : Configure) : Configure :=
  {| cid := cid c; pubLper := pubLper c; ajaxState := ajaxState c;
     loggingPercent := loggingPercent c; urlToConsume := urlToConsume c;
     debug := debug c; gdprConsent := gdprConsent c; gdprApplies := gdprApplies c;
     uspConsent := x; shouldBeLogged := shouldBeLogged c;
     mnetDebugConfig := mnetDebugConfig c |}.

Definition set_shouldBeLogged (x : obj bool) (c : Configure) : Configure :=
  {| cid := cid c; pubLper := pubLper c; ajaxState := ajaxState c;
     loggingPercent := loggingPercent c; urlToConsume := urlToConsume c;
     debug := debug c; gdprConsent := gdprConsent c; gdprApplies := gdprApplies c;
     uspConsent := uspConsent c; shouldBeLogged := x;
     mnetDebugConfig := mnetDebugConfig c |}.

Definition set_mnetDebugConfig (x : value) (c : Configure) : Configure :=
  {| cid := cid c; pubLper := pubLper c; ajaxState := ajaxState c;
     loggingPercent := loggingPercent c; urlToConsume := urlToConsume c;
     debug := debug c; gdprConsent := gdprConsent c; gdprApplies := gdprApplies c;
     uspConsent := uspConsent c; shouldBeLogged := shouldBeLogged c;
     mnetDebugConfig := x |}.

Definition set_auctions (x : obj Auction) (s : state) : state :=
  {| auctions := x; config := config s; pageDetails := pageDetails s;
     logsQueue := logsQueue s; errorQueue := errorQueue s; pixels := pixels s;
     console_errors := console_errors s; console_infos := console_infos s;
     ajax_requests := ajax_requests s; analyticsEnabled := analyticsEnabled s;
     origin_calls := origin_calls s; clock_reads := clock_reads s;
     random_draws := random_draws s |}.

Definition set_config (x : option Configure) (s : state) : state :=
  {| auctions := auctions s; config := x; pageDetails := pageDetails s;
     logsQueue := logsQueue s; errorQueue := errorQueue s; pixels := pixels s;
     console_errors := console_errors s; console_infos := console_infos s;
     ajax_requests := ajax_requests s; analyticsEnabled := analyticsEnabled s;
     origin_calls := origin_calls s; clock_reads := clock_reads s;
     random_draws := random_draws s |}.

Definition set_pageDetails (x : option PageDetail) (s : state) : state :=
  {| auctions := auctions s; config := config s; pageDetails := x;
     logsQueue := logsQueue s; errorQueue := errorQueue s; pixels := pixels s;
     console_errors := console_errors s; console_infos := console_infos s;
     ajax_requests := ajax_requests s; analyticsEnabled := analyticsEnabled s;
     origin_calls := origin_calls s; clock_reads := clock_reads s;
     random_draws := random_draws s |}.

Definition set_logsQueue (x : list string) (s : state) : state :=
  {| auctions := auctions s; config := config s; pageDetails := pageDetails s;
     logsQueue := x; errorQueue := errorQueue s; pixels := pixels s;
     console_errors := console_errors s; console_infos := console_infos s;
     ajax_requests := ajax_requests s; analyticsEnabled := analyticsEnabled s;
     origin_calls := origin_calls s; clock_reads := clock_reads s;
     random_draws := random_draws s |}.

Definition set_errorQueue (x : list string) (s : state) : state :=
  {| auctions := auctions s; config := config s; pageDetails := pageDetails s;
     logsQueue := logsQueue s; errorQueue := x; pixels := pixels s;
     console_errors := console_errors s; console_infos := console_infos s;
     ajax_requests := ajax_requests s; analyticsEnabled := analyticsEnabled s;
     origin_calls := origin_calls s; clock_reads := clock_reads s;
     random_draws := random_draws s |}.

Definition set_pixels (x : list string) (s : state) : state :=
  {| auctions := auctions s; config := config s; pageDetails := pageDetails s;
     logsQueue := logsQueue s; errorQueue := errorQueue s; pixels := x;
     console_errors := console_errors s; console_infos := console_infos s;
     ajax_requests := ajax_requests s; analyticsEnabled := analyticsEnabled s;
     origin_calls := origin_calls s; clock_reads := clock_reads s;
     random_draws := random_draws s |}.

Definition set_console_errors (x : list string) (s : state) : state :=
  {| auctions := auctions s; config := config s; pageDetails := pageDetails s;
     logsQueue := logsQueue s; errorQueue := errorQueue s; pixels := pixels s;
     console_errors := x; console_infos := console_infos s;
     ajax_requests := ajax_requests s; analyticsEnabled := analyticsEnabled s;
     origin_calls := origin_calls s; clock_reads := clock_reads s;
     random_draws := random_draws s |}.

Definition set_console_infos (x : list (value * value)) (s : state) : state :=
  {| auctions := auctions s; config := config s; pageDetails := pageDetails s;
     logsQueue := logsQueue s; errorQueue := errorQueue s; pixels := pixels s;
     console_errors := console_errors s; console_infos := x;
     ajax_requests := ajax_requests s; analyticsEnabled := analyticsEnabled s;
     origin_calls := origin_calls s; clock_reads := clock_reads s;
     random_draws := random_draws s |}.

Definition set_ajax_requests (x : list string) (s : state) : state :=
  {| auctions := auctions s; config := config s; pageDetails := pageDetails s;
     logsQueue := logsQueue s; errorQueue := errorQueue s; pixels := pixels s;
     console_errors := console_errors s; console_infos := console_infos s;
     ajax_requests := x; analyticsEnabled := analyticsEnabled s;
     origin_calls := origin_calls s; clock_reads := clock_reads s;
     random_draws := random_draws s |}.

Definition set_analyticsEnabled (x : bool) (s : state) : state :=
  {| auctions := auctions s; config := config s; pageDetails := pageDetails s;
     logsQueue := logsQueue s; errorQueue := errorQueue s; pixels := pixels s;
     console_errors := console_errors s; console_infos := console_infos s;
     ajax_requests := ajax_requests s; analyticsEnabled := x;
     origin_calls := origin_calls s; clock_reads := clock_reads s;
     random_draws := random_draws s |}.

Definition set_origin_calls (x : list value) (s : state) : state :=
  {| auctions := auctions s; config := config s; pageDetails := pageDetails s;
     logsQueue := logsQueue s; errorQueue := errorQueue s; pixels := pixels s;
     console_errors := console_errors s; console_infos := console_infos s;
     ajax_requests := ajax_requests s; analyticsEnabled := analyticsEnabled s;
     origin_calls := x; clock_reads := clock_reads s;
     random_draws := random_draws s |}.

Definition set_clock_reads (x : nat) (s : state) : state :=
  {| auctions := auctions s; config := config s; pageDetails := pageDetails s;
     logsQueue := logsQueue s; errorQueue := errorQueue s; pixels := pixels s;
     console_errors := console_errors s; console_infos := console_infos s;
     ajax_requests := ajax_requests s; analyticsEnabled := analyticsEnabled s;
     origin_calls := origin_calls s; clock_reads := x;
     random_draws := random_draws s |}.

Definition set_random_draws (x : nat) (s : state) : state :=
  {| auctions := auctions s; config := config s; pageDetails := pageDetails s;
     logsQueue := logsQueue s; errorQueue := errorQueue s; pixels := pixels s;
     console_errors := console_errors s; console_infos := console_infos s;
     ajax_requests := ajax_requests s; analyticsEnabled := analyticsEnabled s;
     origin_calls := origin_calls s; clock_reads := clock_reads s;
     random_draws := x |}.

(** The adapter as the module is loaded. *)
Definition initial_state : state :=
  {| auctions := []; config := None; pageDetails := None;
     logsQueue := []; errorQueue := []; pixels := [];
     console_errors := []; console_infos := []; ajax_requests := [];
     analyticsEnabled := false; origin_calls := [];
     clock_reads := 0; random_draws := 0 |}.

(** *** Code that reads and writes the module's variables and may throw *)

Definition M (A : Type) : Type := state -> result A * state.

Definition ret {A} (a : A) : M A := fun s => (Ok a, s).

Definition bind {A B} (m : M A) (k : A -> M B) : M B :=
  fun s =>
    match m s with
    | (Ok a, s') => k a s'
    | (Throw e, s') => (Throw e, s')
    end.

Definition throw {A} (e : exn) : M A := fun s => (Throw e, s).

(** A computation that may throw and touches no variable. *)
Definition lift {A} (r : result A) : M A := fun s => (r, s).

Definition gets {A} (f : state -> A) : M A := fun s => (Ok (f s), s).

Definition modify (f : state -> state) : M unit := fun s => (Ok tt, f s).

(** [try { m } catch (e) { h e }] *)
Definition try_catch {A} (m : M A) (h : exn -> M A) : M A :=
  fun s =>
    match m s with
    | (Ok a, s') => (Ok a, s')
    | (Throw e, s') => h e s'
    end.

Declare Scope m_scope.
Delimit Scope m_scope with M.
Notation "x <- c ;; k" := (bind c (fun x => k))
  (at level 61, c at next level, right associativity) : m_scope.
Notation "c ;;; k" := (bind c (fun _ => k))
  (at level 61, right associativity) : m_scope.

(** [l.forEach(f)] *)
Fixpoint forEach {A} (l : list A) (f : A -> M unit) : M unit :=
  match l with
  | [] => ret tt
  | x :: tl => bind (f x) (fun _ => forEach tl f)
  end.

Section WithHost.
Context {E : Engine} {H : Host}.
Open Scope m_scope.

(** *** The surroundings *)

(** [Date.now()] *)
Definition Date_now_read : M value :=
  fun s => (Ok (VNum (Date_now (clock_reads s))),
            set_clock_reads (S (clock_reads s)) s).

(** [Math.random()] *)
Definition Math_random_draw : M float :=
  fun s => (Ok (Math_random (random_draws s)),
            set_random_draws (S (random_draws s)) s).

Definition logError (msg : string) : M unit :=
  modify (fun s => set_console_errors (console_errors s ++ [msg])%list s).

Definition logInfo (a b : value) : M unit :=
  modify (fun s => set_console_infos (console_infos s ++ [(a, b)])%list s).

Definition triggerPixel (url : string) : M unit :=
  modify (fun s => set_pixels (pixels s ++ [url])%list s).

(** [ajax(url, callbacks)]: the request is sent; its callbacks,
    [_parseResponse] and [_errorFetch], run later. *)
Definition ajax (url : string) : M unit :=
  modify (fun s => set_ajax_requests (ajax_requests s ++ [url])%list s).

(** *** Access to the module's variables *)

Definition undefined_read (what prop : string) : exn :=
  TypeError ("Cannot read properties of undefined (reading '" ++ prop
             ++ "') of " ++ what).

(** [config.p]: reading a property of [config] throws while it is
    [undefined]. *)
Definition get_config (prop : string) : M Configure :=
  fun s =>
    match config s with
    | Some c => (Ok c, s)
    | None => (Throw (undefined_read "config" prop), s)
    end.

Definition modify_config (prop : string) (f : Configure -> Configure) : M unit :=
  fun s =>
    match config s with
    | Some c => (Ok tt, set_config (Some (f c)) s)
    | None => (Throw (undefined_read "config" prop), s)
    end.

Definition get_pageDetails (prop : string) : M PageDetail :=
  fun s =>
    match pageDetails s with
    | Some p => (Ok p, s)
    | None => (Throw (undefined_read "pageDetails" prop), s)
    end.

(** [auctions[id]] *)
Definition find_auction (id : value) : M (option Auction) :=
  gets (fun s => oget (ToString id) (auctions s)).

(** [auctions[id].p] *)
Definition get_auction (id : value) (prop : string) : M Auction :=
  fun s =>
    match oget (ToString id) (auctions s) with
    | Some a => (Ok a, s)
    | None => (Throw (undefined_read "auctions[id]" prop), s)
    end.

(** An update of the object [auctions[id]]. *)
Definition modify_auction (id : value) (prop : string) (f : Auction -> Auction)
  : M unit :=
  fun s =>
    match oget (ToString id) (auctions s) with
    | Some a => (Ok tt, set_auctions (oset (ToString id) (f a) (auctions s)) s)
    | None => (Throw (undefined_read "auctions[id]" prop), s)
    end.

(** [auctions[id] === undefined].  [auctions] is a plain object: under a
    name it inherits from [Object.prototype] it is not [undefined], also
    when it has no auction of that name. *)
Definition auction_undefined (id : value) : M bool :=
  gets (fun s => negb (ohas (ToString id) (auctions s))
                 && negb (inherited (ToString id))).

(** [auctions[id].p = v] where no test comes before it.  Under a name that
    [auctions] only inherits, the assignment sets a property of the built-in
    object of that name, which is none of the adapter's variables; where
    [auctions[id]] is [undefined] it throws. *)
Definition write_auction (id : value) (prop : string) (f : Auction -> Auction)
  : M unit :=
  own <- gets (fun s => ohas (ToString id) (auctions s)) ;;
  if negb own && inherited (ToString id) then ret tt
  else modify_auction id prop f.

(** *** formatQS *)

(** The callback of [_map] in [formatQS]. *)
Definition formatQS_pair (value : value) (key : string) : string :=
  if is_undefined value then key ++ "="
  else
    let value := if Utils.isPlainObject value then JSON_stringify_value value
                 else value in
    key ++ "=" ++ Str.encodeURIComponent (ToString value).

Definition formatQS (data : obj value) : string :=
  Str.join "&" (Utils._map data formatQS_pair).

(** *** ErrorLogger *)

(** [new ErrorLogger(event, additionalData)], as its property list. *)
Definition ErrorLogger (event : string) (additionalData : value) : M (obj value) :=
  pd <- get_pageDetails "domain" ;;
  c <- get_config "cid" ;;
  ret [("event", VStr event);
       ("logid", VStr "kfk");
       ("evtid", VStr "projectevents");
       ("project", VStr "prebidanalytics");
       ("dn", or (domain pd) (VStr ""));
       ("requrl", or (topmostLocation pd) (VStr ""));
       ("pbversion", VStr PREBID_VERSION);
       ("cid", or (cid c) (VStr ""));
       ("rd", additionalData)].

(** [ErrorLogger.send] *)
Definition ErrorLogger_send (this : obj value) : M unit :=
  let url := EVENT_PIXEL_URL ++ "?" ++ formatQS this in
  modify (fun s => set_errorQueue (errorQueue s ++ [url])%list s) ;;;
  triggerPixel url.

(** *** Configure

    The methods run on the object held by [config]: [enableAnalytics]
    creates it and binds the callbacks to it. *)

Definition new_Configure (cid : value) : Configure :=
  {| cid := cid;
     pubLper := num (-1);
     ajaxState := CONFIG_PENDING;
     loggingPercent := DEFAULT_LOGGING_PERCENT;
     urlToConsume := DEFAULT_URL_KEY;
     debug := false;
     gdprConsent := VUndef;
     gdprApplies := VUndef;
     uspConsent := VUndef;
     shouldBeLogged := [];
     mnetDebugConfig := VStr "" |}.

(** [Configure.getLoggingData] *)
Definition Configure_getLoggingData (c : Configure) : obj value :=
  [("cid", cid c);
   ("lper", VNum (Math_round (float_of_Z 100 / ToNumber (loggingPercent c))%float));
   ("plper", pubLper c);
   ("gdpr", VStr (if truthy (gdprApplies c) then "1" else "0"));
   ("gdprConsent", gdprConsent c);
   ("ccpa", uspConsent c);
   ("ajx", num (ajaxState c));
   ("pbv", VStr PREBID_VERSION);
   ("pbav", VStr ANALYTICS_VERSION);
   ("flt", num 1);
   ("enableDbf", num 1)].

(** [Configure._configURL] *)
Definition _configURL : M string :=
  c <- get_config "cid" ;;
  pd <- get_pageDetails "domain" ;;
  ret (CONFIG_URL ++ "?cid=" ++ Str.encodeURIComponent (ToString (cid c))
         ++ "&dn=" ++ Str.encodeURIComponent (ToString (domain pd))).

(** [Configure.setDataFromResponse] *)
Definition setDataFromResponse (response : value) : M unit :=
  percentage <- lift (get_prop response "percentage") ;;
  if negb (PrimFloat.is_nan (parseInt percentage))
  then modify_config "loggingPercent" (set_loggingPercent percentage)
  else ret tt.

(** [Configure.overrideDomainLevelData] *)
Definition overrideDomainLevelData (response : value) : M unit :=
  pd <- get_pageDetails "domain" ;;
  let domain := Utils.deepAccess response ("domain." ++ ToString (domain pd)) in
  if truthy domain then setDataFromResponse domain else ret tt.

(** [Configure.overrideToDebug] *)
Definition overrideToDebug (response : value) : M unit :=
  if strict_eq response (VStr "") then ret tt
  else
    try_catch
      (decoded <- lift (decodeURIComponent (ToString response)) ;;
       parsed <- lift (JSON_parse decoded) ;;
       setDataFromResponse parsed)
      (fun _ => ret tt).

(** The [try] block of [Configure._parseResponse] *)
Definition _parseResponse_try (response : string) : M unit :=
  response <- lift (JSON_parse response) ;;
  setDataFromResponse response ;;;
  overrideDomainLevelData response ;;;
  c <- get_config "mnetDebugConfig" ;;
  overrideToDebug (mnetDebugConfig c) ;;;
  urlKey <- lift (get_prop response "urlKey") ;;
  modify_config "urlToConsume"
    (fun c => set_urlToConsume
                (match urlKey with
                 | VStr k => if Utils.includes VALID_URL_KEY urlKey then k
                             else urlToConsume c
                 | _ => urlToConsume c
                 end) c) ;;;
  modify_config "ajaxState" (set_ajaxState CONFIG_PASS).

(** [Configure._parseResponse] *)
Definition _parseResponse (response : string) : M unit :=
  try_catch
    (_parseResponse_try response)
    (fun e =>
       modify_config "ajaxState" (set_ajaxState CONFIG_ERROR) ;;;
       logger <- ErrorLogger ERROR_CONFIG_JSON_PARSE (VError e) ;;
       ErrorLogger_send logger).

(** [Configure._errorFetch] *)
Definition _errorFetch : M unit :=
  modify_config "ajaxState" (set_ajaxState CONFIG_ERROR) ;;;
  logger <- ErrorLogger ERROR_CONFIG_FETCH VUndef ;;
  ErrorLogger_send logger.

(** *** URL *)

(** The callback of [reduce] in [URL.parseQS].  The accumulator is a plain
    object.  Under a name it only inherits from [Object.prototype],
    [acc[k]] is a built-in function, or the prototype for [__proto__], none
    of which has a method [push]; and an assignment to [acc.__proto__]
    goes to the setter of the prototype, which stores no own property and
    ignores a string. *)
Definition parseQS_step (acc : obj value) (criteria : string) : result (obj value) :=
  let kv := Str.split "=" criteria in
  let k := nth 0 kv "" in
  let v := match nth_error kv 1 with
           | Some x => VStr x
           | None => VUndef
           end in
  if Str.ends_with "[]" k then
    let k := Str.replace_first "[]" "" k in
    match oget k acc with
    | Some x =>
        match or x (VArr []) with
        | VArr l => Ok (oset k (VArr (l ++ [v])%list) acc)
        | _ => Throw (TypeError "acc[k].push is not a function")
        end
    | None =>
        if inherited k then Throw (TypeError "acc[k].push is not a function")
        else Ok (oset k (VArr [v]) acc)
    end
  else if String.eqb k "__proto__" then Ok acc
  else Ok (oset k (or v (VStr "")) acc).

(** [URL.parseQS] *)
Definition URL_parseQS (query : string) : result (obj value) :=
  if String.eqb query "" then Ok []
  else
    fold_left (fun acc criteria => rbind acc (fun a => parseQS_step a criteria))
              (Str.split "&" (Str.strip_question query)) (Ok []).

(** [URL.parseUrl] *)
Definition URL_parseUrl (url : value) : result value :=
  rbind (decodeURIComponent (ToString url)) (fun href =>
  rbind (URL_parseQS (ToString (or (anchor_search href) (VStr "")))) (fun search =>
  Ok (VObj [("hostname", anchor_hostname href);
            ("search", VObj search);
            ("host", or (anchor_host href) location_host)]))).

(** [Configure.init] *)
Definition Configure_init : M unit :=
  pd <- get_pageDetails "topmostLocation" ;;
  urlObj <- lift (URL_parseUrl (topmostLocation pd)) ;;
  if truthy (Utils.deepAccess urlObj "search.medianet_test")
     || strict_eq (get urlObj "hostname") (VStr "localhost")
  then
    modify_config "loggingPercent" (set_loggingPercent (num 100)) ;;;
    modify_config "ajaxState" (set_ajaxState CONFIG_PASS) ;;;
    modify_config "debug" (set_debug true)
  else
    (if truthy (Utils.deepAccess urlObj "search.mnet_setconfig")
     then modify_config "mnetDebugConfig"
            (set_mnetDebugConfig (Utils.deepAccess urlObj "search.mnet_setconfig"))
     else ret tt) ;;;
    url <- _configURL ;;
    ajax url.

(** *** PageDetail *)

(** [PageDetail._getAttributeFromSelector]; its [catch] swallows what
    the page throws. *)
Definition _getAttributeFromSelector (selector attribute : string) : value :=
  match querySelector selector with
  | Ok (Some el) => if truthy (el attribute) then el attribute else VUndef
  | Ok None => VUndef
  | Throw _ => VUndef
  end.

(** [PageDetail._getUrlFromSelector] *)
Definition _getUrlFromSelector (selector attribute : string) : result value :=
  let attr := _getAttributeFromSelector selector attribute in
  if truthy attr then anchor_href attr else Ok attr.

(** [PageDetail._getWindowSize] *)
Definition _getWindowSize : value :=
  let w := or (or (or window_innerWidth documentElement_clientWidth)
                  body_clientWidth) (num (-1)) in
  let h := or (or (or window_innerHeight documentElement_clientHeight)
                  body_clientHeight) (num (-1)) in
  VStr (ToString w ++ "x" ++ ToString h).

(** [new PageDetail()] *)
Definition new_PageDetail : result PageDetail :=
  rbind (_getUrlFromSelector ("meta[property=" ++ Smaato.dq ++ "og:url"
                              ++ Smaato.dq ++ "]") "content") (fun ogUrl =>
  rbind (_getUrlFromSelector ("meta[name=" ++ Smaato.dq ++ "twitter:url"
                              ++ Smaato.dq ++ "]") "content") (fun twitterUrl =>
  let refererInfo := getRefererInfo in
  rbind (get_prop refererInfo "domain") (fun domain =>
  Ok {| domain := domain;
        page := get refererInfo "page";
        is_top := get refererInfo "reachedTop";
        referrer := or (get refererInfo "ref") document_referrer;
        canonical_url := get refererInfo "canonicalUrl";
        og_url := ogUrl;
        twitter_url := twitterUrl;
        topmostLocation := get refererInfo "topmostLocation";
        screen := _getWindowSize |}))).

(** [this[key]] on a [PageDetail]. *)
Definition PageDetail_get (p : PageDetail) (key : string) : value :=
  if String.eqb key "domain" then domain p
  else if String.eqb key "page" then page p
  else if String.eqb key "is_top" then is_top p
  else if String.eqb key "referrer" then referrer p
  else if String.eqb key "canonical_url" then canonical_url p
  else if String.eqb key "og_url" then og_url p
  else if String.eqb key "twitter_url" then twitter_url p
  else if String.eqb key "topmostLocation" then topmostLocation p
  else if String.eqb key "screen" then screen p
  else VUndef.

(** [PageDetail.getLoggingData] *)
Definition PageDetail_getLoggingData : M (obj value) :=
  p <- get_pageDetails "getLoggingData" ;;
  c <- get_config "urlToConsume" ;;
  ret [("requrl", or (PageDetail_get p (urlToConsume c)) (topmostLocation p));
       ("dn", domain p);
       ("ref", referrer p);
       ("screen", screen p)].

(** *** Bid *)

Definition bget (b : Bid) (k : string) : value := get (VObj b) k.

(** [new Bid(bidId, bidder, src, start, adUnitCode, mediaType,
    allMediaTypeSizes, resSizes)] *)
Definition new_Bid (bidId bidder src start adUnitCode mediaType
                    allMediaTypeSizes resSizes : value) : Bid :=
  [("bidId", bidId);
   ("bidder", bidder);
   ("src", src);
   ("start", start);
   ("adUnitCode", adUnitCode);
   ("allMediaTypeSizes", allMediaTypeSizes);
   ("iwb", num 0);
   ("winner", num 0);
   ("status", if strict_eq bidder (VStr DUMMY_BIDDER) then BID_SUCCESS else BID_TIMEOUT);
   ("ext", VObj []);
   ("originalCpm", VUndef);
   ("cpm", VUndef);
   ("dfpbd", VUndef);
   ("width", VUndef);
   ("height", VUndef);
   ("mediaType", mediaType);
   ("timeToRespond", VUndef);
   ("dealId", VUndef);
   ("creativeId", VUndef);
   ("adId", VUndef);
   ("currency", VUndef);
   ("crid", VUndef);
   ("pubcrid", VUndef);
   ("mpvid", VUndef);
   ("floorPrice", VUndef);
   ("floorRule", VUndef);
   ("serverLatencyMillis", VUndef);
   ("used", VBool false);
   ("originalRequestId", bidId);
   ("requestId", VUndef);
   ("advUrl", VUndef);
   ("latestAcid", VUndef);
   ("originalCurrency", VUndef);
   ("currMul", VUndef);
   ("inCurrMul", VUndef);
   ("res_mtype", VUndef);
   ("res_sizes", resSizes);
   ("req_mtype", mediaType)].

(** The getter [Bid.size] *)
Definition Bid_size (this : Bid) : string :=
  if negb (truthy (bget this "width")) || negb (truthy (bget this "height"))
  then ""
  else ToString (bget this "width") ++ "x" ++ ToString (bget this "height").

(** [Bid.getInstance(bidProps)] for an object [bidProps]: a new [Bid] with
    the properties of [bidProps] assigned to it. *)
Definition Bid_getInstance (bidProps : obj value) : Bid :=
  oassign (new_Bid VUndef VUndef VUndef VUndef VUndef VUndef VUndef VUndef) bidProps.

(** [Bid.getLoggingData] *)
Definition Bid_getLoggingData (this : Bid) : result (obj value) :=
  rbind (as_array "join" (bget this "allMediaTypeSizes")) (fun szs =>
  rbind (as_array "join" (or (bget this "res_sizes") (VArr [VStr (Bid_size this)])))
        (fun sizes =>
  Ok [("reqId", or (bget this "requestId") (bget this "bidId"));
      ("ogReqId", bget this "originalRequestId");
      ("adid", bget this "adId");
      ("pvnm", bget this "bidder");
      ("src", bget this "src");
      ("ogbdp", bget this "originalCpm");
      ("bdp", bget this "cpm");
      ("cbdp", bget this "dfpbd");
      ("dfpbd", bget this "dfpbd");
      ("szs", VStr (join_values "|" szs));
      ("size", VStr (join_values "|" sizes));
      ("mtype", bget this "mediaType");
      ("dId", bget this "dealId");
      ("winner", bget this "winner");
      ("curr", bget this "currency");
      ("rests", bget this "timeToRespond");
      ("status", bget this "status");
      ("iwb", bget this "iwb");
      ("crid", bget this "crid");
      ("pubcrid", bget this "pubcrid");
      ("mpvid", bget this "mpvid");
      ("bidflr", bget this "floorPrice");
      ("flrrule", bget this "floorRule");
      ("ext", JSON_stringify_value (bget this "ext"));
      ("rtime", bget this "serverLatencyMillis");
      ("advurl", bget this "advUrl");
      ("lacid", bget this "latestAcid");
      ("icurr", bget this "originalCurrency");
      ("imul", bget this "inCurrMul");
      ("omul", bget this "currMul");
      ("res_mtype", bget this "res_mtype");
      ("req_mtype", bget this "req_mtype")])).

(** *** AdSlot *)

Definition new_AdSlot (tmax supplyAdCode context adext : value) : AdSlot :=
  {| tmax := tmax; supplyAdCode := supplyAdCode; context := context;
     adext := adext; logged := []; targeting := VUndef;
     medianetPresent := num 0 |}.

(** [isSampled] *)
Definition isSampled : M bool :=
  r <- Math_random_draw ;;
  c <- get_config "loggingPercent" ;;
  ret (PrimFloat.ltb (r * float_of_Z 100)%float (parseFloat (loggingPercent c))).

(** [AdSlot.getShouldBeLogged] *)
Definition getShouldBeLogged (logType : string) : M bool :=
  c <- get_config "shouldBeLogged" ;;
  (if negb (ohas logType (shouldBeLogged c))
   then
     sampled <- isSampled ;;
     modify_config "shouldBeLogged"
       (fun c => set_shouldBeLogged (oset logType sampled (shouldBeLogged c)) c)
   else ret tt) ;;;
  c <- get_config "shouldBeLogged" ;;
  ret (match oget logType (shouldBeLogged c) with
       | Some b => b
       | None => false
       end).

(** [AdSlot.getVideoPlacement] *)
Definition getVideoPlacement (this : AdSlot) : value :=
  if strict_eq (context this) (VStr INSTREAM) then num 1
  else if strict_eq (context this) (VStr OUTSTREAM) then num 6
  else if strict_eq (context this) (VStr ADPOD) then num 7
  else num 0.

(** [AdSlot.getLoggingData] *)
Definition AdSlot_getLoggingData (this : AdSlot) : obj value :=
  oassign
    [("supcrid", supplyAdCode this);
     ("tmax", tmax this);
     ("targ", JSON_stringify_value (targeting this));
     ("ismn", medianetPresent this);
     ("vplcmtt", getVideoPlacement this)]
    (if truthy (adext this)
     then [("adext", JSON_stringify_value (adext this))]
     else own_props (adext this)).

(** *** Auction and its BidWrapper *)

Definition new_Auction (acid : value) : Auction :=
  {| acid := acid;
     status := AUCTION_IN_PROGRESS;
     bidReqs := [];
     bidObjs := [];
     adSlots := [];
     auctionInitTime := VUndef;
     auctionStartTime := VUndef;
     setTargetingTime := VUndef;
     auctionEndTime := VUndef;
     bidWonTime := VUndef;
     floorData := VObj [] |}.

(** [Auction.hasEnded] *)
Definition hasEnded (this : Auction) : bool :=
  String.eqb (status this) AUCTION_COMPLETED.

(** [Auction._mergeFieldsToLog] *)
Definition _mergeFieldsToLog (objParams : obj value) : string :=
  Str.join "||"
    (map (fun pv => fst pv ++ "=" ++
                    (if is_undefined (snd pv) then "" else ToString (snd pv)))
         objParams).

(** [Auction.getLoggingData] *)
Definition Auction_getLoggingData (this : Auction) : obj value :=
  [("sts", sub (auctionStartTime this) (auctionInitTime this));
   ("ets", sub (auctionEndTime this) (auctionInitTime this));
   ("tts", sub (setTargetingTime this) (auctionInitTime this));
   ("wts", sub (bidWonTime this) (auctionInitTime this));
   ("aucstatus", VStr (status this));
   ("acid", acid this);
   ("flrdata",
    VStr (_mergeFieldsToLog
            [("ln", get (floorData this) "location");
             ("skp", get (floorData this) "skipped");
             ("enfj", Utils.deepAccess (floorData this) "enforcements.enforceJS");
             ("enfd", Utils.deepAccess (floorData this) "enforcements.floorDeals");
             ("sr", get (floorData this) "skipRate");
             ("fs", get (floorData this) "fetchStatus")]));
   ("flrver", get (floorData this) "modelVersion")].

(** [arr.find(p)] with an update of the element found: the first element
    that satisfies [p] is replaced by its image. *)
Fixpoint update_first {A} (p : A -> bool) (f : A -> A) (l : list A) : list A :=
  match l with
  | [] => []
  | x :: tl => if p x then f x :: tl else x :: update_first p f tl
  end.

(** The position of the element [arr.find(p)] returns. *)
Fixpoint find_index {A} (p : A -> bool) (l : list A) : option nat :=
  match l with
  | [] => None
  | x :: tl =>
      if p x then Some 0
      else match find_index p tl with
           | Some i => Some (S i)
           | None => None
           end
  end.

Fixpoint update_nth {A} (n : nat) (f : A -> A) (l : list A) : list A :=
  match l, n with
  | [], _ => []
  | x :: tl, O => f x :: tl
  | x :: tl, S n' => x :: update_nth n' f tl
  end.

(** [BidWrapper.findReqBid].  Both arrays of the wrapper only ever receive
    instances of [Bid], so [x instanceof Bid] on the result of a search is
    the search having found an element. *)
Definition findReqBid (this : Auction) (bidId : value) : option Bid :=
  find (fun bid => strict_eq (bget bid "bidId") bidId) (bidReqs this).

(** [BidWrapper.findBidObj] *)
Definition findBidObj (this : Auction) (key : string) (v : value) : option Bid :=
  find (fun bid => strict_eq (bget bid key) v) (bidObjs this).

(** [BidWrapper.addBidReq] *)
Definition addBid (bid : Bid) (this : Auction) : Auction :=
  set_bidReqs (bidReqs this ++ [bid])%list this.

(** [BidWrapper.addBidObj]; [instance] tells whether the argument is a
    [Bid] already or a plain object to be made one. *)
Definition addBidObj (instance : bool) (bidObj : obj value) (this : Auction)
  : Auction :=
  let bidObj := if instance then bidObj else Bid_getInstance bidObj in
  let bidId := bget bidObj "bidId" in
  let reqs :=
    update_first (fun bid => strict_eq (bget bid "bidId") bidId)
                 (oset "used" (VBool true)) (bidReqs this) in
  set_bidObjs (bidObjs this ++ [bidObj])%list (set_bidReqs reqs this).

(** [BidWrapper.getAdSlotBidRequests] and [getAdSlotBidResponses] *)
Definition getAdSlotBidRequests (this : Auction) (adSlot : value) : list Bid :=
  filter (fun bid => strict_eq (bget bid "adUnitCode") adSlot) (bidReqs this).

Definition getAdSlotBidResponses (this : Auction) (adSlot : value) : list Bid :=
  filter (fun bid => strict_eq (bget bid "adUnitCode") adSlot) (bidObjs this).

(** An update of the object [this.adSlots[k]], where there is one. *)
Definition update_slot (k : string) (f : AdSlot -> AdSlot) (this : Auction)
  : Auction :=
  match oget k (adSlots this) with
  | Some slot => set_adSlots (oset k (f slot) (adSlots this)) this
  | None => this
  end.

(** [this.adSlots[adUnitCode] === undefined].  [adSlots] is a plain object:
    under a name it inherits from [Object.prototype] it is not [undefined],
    also when it has no slot of that name. *)
Definition slot_undefined (adUnitCode : string) (this : Auction) : bool :=
  negb (ohas adUnitCode (adSlots this)) && negb (inherited adUnitCode).

(** [auctions[id].addSlot({adUnitCode, ...})] *)
Definition addSlot (id : value) (adUnitCode : string)
    (supplyAdCode mediaTypes allMediaTypeSizes tmax adext context : value)
  : M unit :=
  a <- get_auction id "addSlot" ;;
  if truthy (VStr adUnitCode) && slot_undefined adUnitCode a then
    modify_auction id "adSlots"
      (fun a => set_adSlots
                  (oset adUnitCode (new_AdSlot tmax supplyAdCode context adext)
                        (adSlots a)) a) ;;;
    now <- Date_now_read ;;
    modify_auction id "addBidObj"
      (addBidObj true
         (new_Bid (VStr "-1") (VStr DUMMY_BIDDER) (VStr "client") now
                  (VStr adUnitCode) mediaTypes allMediaTypeSizes VUndef))
  else ret tt.


(** *** The event handlers *)

(** [arr.map(size => size.join('x'))] *)
Definition join_sizes (sizes : list value) : result (list string) :=
  rmap (fun size => rbind (as_array "join" size)
                          (fun l => Ok (join_values "x" l))) sizes.

(** [_getSizes]: the banner, native and video sizes, as [WxH] strings. *)
Definition _getSizes (mediaTypes sizes : value)
  : result (list string * list string * list string) :=
  let banner := or (or (Utils.deepAccess mediaTypes "banner.sizes") sizes) (VArr []) in
  let native := if truthy (Utils.deepAccess mediaTypes "native")
                then [VArr [num 1; num 1]] else [] in
  let playerSize := or (Utils.deepAccess mediaTypes "video.playerSize") (VArr []) in
  let video := if strict_eq (get playerSize "length") (num 2)
               then [playerSize] else [] in
  rbind (as_array "map" banner) (fun bannerSizes =>
  rbind (join_sizes bannerSizes) (fun b =>
  rbind (join_sizes native) (fun n =>
  rbind (join_sizes video) (fun v =>
  Ok (b, n, v))))).

(** Modelled from the spec: [groupBy] of src/utils.js, which is not among
    the sources: the elements of an array are collected, in order, under
    the string of their property [key], by
    [(rv[x[key]] = rv[x[key]] || []).push(x)] on a plain object [rv].  Under
    a name [rv] only inherits from [Object.prototype], what [rv[x[key]]]
    holds has no method [push]. *)
Fixpoint groupBy (xs : list value) (key : string) (rv : obj (list value))
  : result (obj (list value)) :=
  match xs with
  | [] => Ok rv
  | x :: tl =>
      match get_prop x key with
      | Throw e => Throw e
      | Ok k =>
          let k := ToString k in
          match oget k rv with
          | Some l => groupBy tl key (oset k (l ++ [x])%list rv)
          | None =>
              if inherited k then Throw (TypeError "push is not a function")
              else groupBy tl key (oset k [x] rv)
          end
      end
  end.

(** What the [adUnits.forEach] of [addAddSlots] accumulates over the ad
    units of one code. *)
Record slot_acc : Type := {
  acc_adext : obj value;
  acc_context : value;
  acc_mediaTypeMap : obj value;
  acc_banner : list string;
  acc_video : list string
}.

(** The callback of that [forEach]. *)
Definition addAddSlots_unit (acc : slot_acc) (adUnit : value) : result slot_acc :=
  let mediaTypes := or (get adUnit "mediaTypes") (VObj []) in
  let sizes := get adUnit "sizes" in
  let ext := get adUnit "ext" in
  let adext := oassign (acc_adext acc)
                 (own_props (or ext (Utils.deepAccess mediaTypes "banner.ext"))) in
  let context := or (Utils.deepAccess mediaTypes "video.context") (acc_context acc) in
  rbind (Object_keys mediaTypes) (fun keys =>
  let mediaTypeMap :=
    (* [mediaTypeMap.__proto__ = 1] goes to the setter of the prototype,
       which ignores a number: no property is stored *)
    fold_left (fun m mediaType =>
                 if String.eqb mediaType "__proto__" then m
                 else oset mediaType (num 1) m) keys
              (acc_mediaTypeMap acc) in
  rbind (_getSizes mediaTypes sizes) (fun sizeObject =>
  Ok {| acc_adext := adext;
        acc_context := context;
        acc_mediaTypeMap := mediaTypeMap;
        acc_banner := (acc_banner acc ++ fst (fst sizeObject))%list;
        acc_video := (acc_video acc ++ snd sizeObject)%list |})).

Fixpoint rfold {A B} (f : B -> A -> result B) (l : list A) (b : B) : result B :=
  match l with
  | [] => Ok b
  | x :: tl =>
      match f b x with
      | Ok b' => rfold f tl b'
      | Throw e => Throw e
      end
  end.

(** The callback of [Object.keys(groupedAdUnits).forEach] in
    [addAddSlots]. *)
Definition addAddSlots_code (auctionId tmax : value)
    (group : string * list value) : M unit :=
  let adUnitCode := fst group in
  let adUnits := snd group in
  let supplyAdCode :=
    or (Utils.deepAccess (VArr adUnits) "0.adUnitCode") (VStr adUnitCode) in
  acc <- lift (rfold addAddSlots_unit adUnits
                 {| acc_adext := []; acc_context := VStr "";
                    acc_mediaTypeMap := []; acc_banner := []; acc_video := [] |}) ;;
  let adext := if Utils.isEmpty (VObj (acc_adext acc)) then VUndef
               else VObj (acc_adext acc) in
  let banner := Utils.filter_uniques (acc_banner acc) in
  let video := Utils.filter_uniques (acc_video acc) in
  let native :=
    if strict_eq (get (VObj (acc_mediaTypeMap acc)) "native") (num 1)
    then ["1x1"] else [] in
  let allMediaTypeSizes := VArr (map VStr (banner ++ native ++ video)%list) in
  let mediaTypes := VStr (Str.join "|" (okeys (acc_mediaTypeMap acc))) in
  addSlot auctionId adUnitCode supplyAdCode mediaTypes allMediaTypeSizes tmax
          adext (acc_context acc).

(** [addAddSlots] *)
Definition addAddSlots (auctionId adUnits tmax : value) : M unit :=
  let adUnits := or adUnits (VArr []) in
  xs <- lift (as_array "reduce" adUnits) ;;
  groupedAdUnits <- lift (groupBy xs "code" []) ;;
  forEach groupedAdUnits (addAddSlots_code auctionId tmax).

(** [auctionInitHandler] *)
Definition auctionInitHandler (args : value) : M unit :=
  auctionId <- lift (get_prop args "auctionId") ;;
  let adUnits := get args "adUnits" in
  let timeout := get args "timeout" in
  let timestamp := get args "timestamp" in
  let bidderRequests := get args "bidderRequests" in
  undefined <- auction_undefined auctionId ;;
  (if truthy auctionId && undefined then
     modify (fun s =>
               set_auctions
                 (oset (ToString auctionId)
                       (set_auctionInitTime timestamp (new_Auction auctionId))
                       (auctions s)) s)
   else ret tt) ;;;
  addAddSlots auctionId adUnits timeout ;;;
  let floorData := Utils.deepAccess bidderRequests "0.bids.0.floorData" in
  if truthy floorData
  then write_auction auctionId "floorData" (set_floorData (VObj (spread floorData)))
  else ret tt.

(** The callback of [bids.forEach] in [bidRequestedHandler]. *)
Definition bidRequested_bid (auctionId start : value) (bid : value) : M unit :=
  adUnitCode <- lift (get_prop bid "adUnitCode") ;;
  let bidder := get bid "bidder" in
  let bidId := get bid "bidId" in
  let src := get bid "src" in
  let mediaTypes := get bid "mediaTypes" in
  let sizes := get bid "sizes" in
  sizeObject <- lift (_getSizes mediaTypes sizes) ;;
  let requestSizes :=
    (fst (fst sizeObject) ++ snd (fst sizeObject) ++ snd sizeObject)%list in
  mediaType <- lift (if truthy mediaTypes
                     then rbind (Object_keys mediaTypes)
                            (fun ks => Ok (VStr (Str.join "|" ks)))
                     else Ok mediaTypes) ;;
  let bidObj := new_Bid bidId bidder src start adUnitCode mediaType
                        (VArr (map VStr requestSizes)) VUndef in
  if strict_eq bidder (VStr MEDIANET_BIDDER_CODE) then
    let crid := Utils.deepAccess bid "params.crid" in
    modify_auction auctionId "addBid"
      (addBid (oset "pubcrid" crid (oset "crid" crid bidObj))) ;;;
    a <- get_auction auctionId "adSlots" ;;
    match oget (ToString adUnitCode) (adSlots a) with
    | Some _ =>
        modify_auction auctionId "adSlots"
          (update_slot (ToString adUnitCode) (set_medianetPresent (num 1)))
    | None =>
        (* under a name [adSlots] only inherits, the assignment sets a
           property of the built-in function of that name *)
        if inherited (ToString adUnitCode) then ret tt
        else throw (TypeError "Cannot set properties of undefined (setting 'medianetPresent')")
    end
  else modify_auction auctionId "addBid" (addBid bidObj).

(** [bidRequestedHandler] *)
Definition bidRequestedHandler (args : value) : M unit :=
  auctionId <- lift (get_prop args "auctionId") ;;
  let auctionStart := get args "auctionStart" in
  let start := get args "start" in
  let uspConsent_arg := get args "uspConsent" in
  let gdpr := get args "gdpr" in
  found <- find_auction auctionId ;;
  match found with
  | None => ret tt
  | Some _ =>
      modify_config "gdprApplies"
        (set_gdprApplies (VBool (truthy (and gdpr (get gdpr "gdprApplies"))))) ;;;
      c <- get_config "gdprApplies" ;;
      (if truthy (gdprApplies c)
       then modify_config "gdprConsent"
              (set_gdprConsent (or (get gdpr "consentString") (VStr "")))
       else ret tt) ;;;
      modify_config "uspConsent"
        (fun c => set_uspConsent (or (uspConsent c) uspConsent_arg) c) ;;;
      modify_auction auctionId "auctionStartTime" (set_auctionStartTime auctionStart) ;;;
      bids <- lift (as_array "forEach" (get args "bids")) ;;
      forEach bids (bidRequested_bid auctionId start)
  end.

(** [n.toFixed(4)] on the result of [convertCurrency]: only numbers have
    the method. *)
Definition toFixed_4 (v : value) : result value :=
  match v with
  | VNum n => Ok (VStr (toFixed4 n))
  | VUndef | VNull =>
      Throw (TypeError ("Cannot read properties of " ++ type_name v
                        ++ " (reading 'toFixed')"))
  | _ => Throw (TypeError "toFixed is not a function")
  end.

(** [exchangeCurrency] *)
Definition exchangeCurrency (price fromCurrency toCurrency : value) : M value :=
  try_catch
    (converted <- lift (convertCurrency price fromCurrency toCurrency) ;;
     lift (toFixed_4 converted))
    (fun _ =>
       logError ("Media.net Analytics Adapter: Could not convert "
                 ++ ToString fromCurrency ++ " to " ++ ToString toCurrency
                 ++ " for price " ++ ToString price) ;;;
       ret price).

(** [noBidResponseHandler] *)
Definition noBidResponseHandler (args : value) : M unit :=
  auctionId <- lift (get_prop args "auctionId") ;;
  let bidId := get args "bidId" in
  found <- find_auction auctionId ;;
  match found with
  | None => ret tt
  | Some a =>
      if hasEnded a then ret tt
      else
        match findReqBid a bidId with
        | None => ret tt
        | Some bidReq =>
            if truthy (bget bidReq "used") then ret tt
            else
              modify_auction auctionId "addBidObj"
                (addBidObj false (oset "status" BID_NOBID bidReq))
        end
  end.

(** The callback of [timedOutBids.map] in [bidTimeoutHandler]. *)
Definition bidTimeout_bid (timedOut : value) : M unit :=
  bidId <- lift (get_prop timedOut "bidId") ;;
  let auctionId := get timedOut "auctionId" in
  found <- find_auction auctionId ;;
  match found with
  | None => ret tt
  | Some a =>
      match findReqBid a bidId with
      | None => ret tt
      | Some bidReq =>
          if truthy (bget bidReq "used") then ret tt
          else
            modify_auction auctionId "addBidObj"
              (addBidObj false (oset "status" BID_TIMEOUT bidReq))
      end
  end.

(** [bidTimeoutHandler] *)
Definition bidTimeoutHandler (timedOutBids : value) : M unit :=
  bids <- lift (as_array "map" timedOutBids) ;;
  forEach bids bidTimeout_bid.

(** [auctionEndHandler] *)
Definition auctionEndHandler (args : value) : M unit :=
  auctionId <- lift (get_prop args "auctionId") ;;
  let auctionEnd := get args "auctionEnd" in
  found <- find_auction auctionId ;;
  match found with
  | None => ret tt
  | Some _ =>
      modify_auction auctionId "status" (set_status AUCTION_COMPLETED) ;;;
      modify_auction auctionId "auctionEndTime" (set_auctionEndTime auctionEnd)
  end.


(** [bidResponseHandler].  [target] is where the handler's [bidObj] lives:
    [Some i] when it is the bid object found at index [i] of [bidObjs] (a
    bid overridden in place), [None] when it is a fresh object added at the
    end. *)
Definition write_bidObj (auctionId : value) (target : option nat) (bidObj : Bid)
  : M unit :=
  match target with
  | Some i =>
      modify_auction auctionId "bidObjs"
        (fun a => set_bidObjs (update_nth i (fun _ => bidObj) (bidObjs a)) a)
  | None => ret tt
  end.

Definition bidResponseHandler (bid : value) : M unit :=
  width <- lift (get_prop bid "width") ;;
  let height := get bid "height" in
  let mediaType := get bid "mediaType" in
  let cpm := get bid "cpm" in
  let requestId := get bid "requestId" in
  let timeToRespond := get bid "timeToRespond" in
  let auctionId := get bid "auctionId" in
  let dealId := get bid "dealId" in
  let originalRequestId := get bid "originalRequestId" in
  let bidder := get bid "bidder" in
  let meta := get bid "meta" in
  let originalCpm := get bid "originalCpm" in
  let creativeId := get bid "creativeId" in
  let adId := get bid "adId" in
  found <- find_auction auctionId ;;
  match found with
  | None => ret tt
  | Some a =>
      let reqId := or originalRequestId requestId in
      match findReqBid a reqId with
      | None => ret tt
      | Some bidReq =>
          let is_override := fun b : Bid =>
            strict_eq (bget b "bidId") requestId
            && negb (strict_eq (bget b "status") BID_SUCCESS) in
          let target :=
            match findBidObj a "bidId" requestId with
            | Some b => if is_override b
                        then find_index (fun b => strict_eq (bget b "bidId") requestId)
                                        (bidObjs a)
                        else None
            | None => None
            end in
          let bidObj0 : Bid :=
            match target with
            | Some i => nth i (bidObjs a) []
            | None => []
            end in
          currency <- lift (if truthy (get bid "currency")
                            then toUpperCase (get bid "currency")
                            else Ok (VStr "")) ;;
          originalCurrency <- lift (if truthy (get bid "originalCurrency")
                                    then toUpperCase (get bid "originalCurrency")
                                    else Ok currency) ;;
          let bidObj1 :=
            oassign
              (oassign (oassign bidObj0 bidReq)
                 [("cpm", cpm); ("width", width); ("height", height);
                  ("mediaType", mediaType); ("timeToRespond", timeToRespond);
                  ("dealId", dealId); ("creativeId", creativeId);
                  ("originalRequestId", originalRequestId);
                  ("requestId", requestId)])
              [("adId", adId); ("currency", currency);
               ("originalCurrency", originalCurrency)] in
          let bidObj2 :=
            oset "originalCpm" (or originalCpm cpm)
              (oset "floorRule" (Utils.deepAccess bid "floorData.floorRule")
                 (oset "floorPrice" (Utils.deepAccess bid "floorData.floorValue")
                    bidObj1)) in
          write_bidObj auctionId target bidObj2 ;;;
          advUrl <- lift (if truthy (and meta (get meta "advertiserDomains"))
                          then rbind (as_array "join" (get meta "advertiserDomains"))
                                 (fun l => Ok (VStr (join_values "," l)))
                          else Ok (and meta (get meta "advertiserDomains"))) ;;
          let bidObj3 :=
            oset "inCurrMul" (num 1) (oset "currMul" (num 1)
              (oset "advUrl" advUrl bidObj2)) in
          bidObj4 <-
            (if negb (strict_eq (bget bidObj3 "originalCurrency") (VStr "USD")) then
               ocpm <- exchangeCurrency (bget bidObj3 "originalCpm")
                         (bget bidObj3 "originalCurrency") (VStr "USD") ;;
               imul <- exchangeCurrency (num 1) (VStr "USD")
                         (bget bidObj3 "originalCurrency") ;;
               ret (oset "inCurrMul" imul (oset "originalCpm" ocpm bidObj3))
             else ret bidObj3) ;;
          bidObj5 <-
            (if negb (strict_eq (bget bidObj4 "currency") (VStr "USD")) then
               ccpm <- exchangeCurrency (bget bidObj4 "cpm")
                         (bget bidObj4 "currency") (VStr "USD") ;;
               omul <- exchangeCurrency (num 1) (VStr "USD")
                         (bget bidObj4 "currency") ;;
               ret (oset "currMul" omul (oset "cpm" ccpm bidObj4))
             else ret bidObj4) ;;
          let dfpbd0 := Utils.deepAccess bid "adserverTargeting.hb_pb" in
          let dfpbd :=
            if truthy dfpbd0 then dfpbd0
            else
              let priceGranularity := getPriceGranularity bid in
              let priceGranularityKey :=
                match oget (ToString priceGranularity) PRICE_GRANULARITY with
                | Some k => VStr k
                | None => VUndef
                end in
              or (get bid (ToString priceGranularityKey)) cpm in
          let bidObj6 :=
            oset "status"
              (if strict_eq (get bid "status") (VStr BID_REJECTED)
               then BID_FLOOR_REJECTED else BID_SUCCESS)
              (oset "dfpbd" dfpbd bidObj5) in
          let bidObj7 :=
            if strict_eq bidder (VStr MEDIANET_BIDDER_CODE)
               && instanceof_Object (get bid "ext")
            then
              oassign
                (oassign (oassign bidObj6 [("ext", get bid "ext")])
                         [("mpvid", get (get bid "ext") "pvid")])
                (if truthy (get (get bid "ext") "crid")
                 then [("crid", get (get bid "ext") "crid")]
                 else own_props (get (get bid "ext") "crid"))
            else bidObj6 in
          let bidObj8 :=
            if negb (is_undefined (get bid "serverResponseTimeMs"))
            then oset "serverLatencyMillis" (get bid "serverResponseTimeMs") bidObj7
            else bidObj7 in
          let bidObj9 := oset "res_mtype" mediaType bidObj8 in
          match target with
          | Some _ => write_bidObj auctionId target bidObj9
          | None => modify_auction auctionId "addBidObj" (addBidObj false bidObj9)
          end
      end
  end.

(** [firePixel] *)
Definition firePixel (qs : string) : M unit :=
  modify (fun s => set_logsQueue (logsQueue s ++ [(ENDPOINT ++ "&" ++ qs)%string])%list s) ;;;
  triggerPixel (ENDPOINT ++ "&" ++ qs).

(** [isValidAuctionAdSlot] *)
Definition isValidAuctionAdSlot (acid adtag : value) : M bool :=
  found <- find_auction acid ;;
  ret (match found with
       | Some a => ohas (ToString adtag) (adSlots a)
       | None => false
       end).

(** [auctions[acid].adSlots[adtag]], for a method call on it. *)
Definition get_adSlot (acid adtag : value) (prop : string) : M AdSlot :=
  a <- get_auction acid "adSlots" ;;
  match oget (ToString adtag) (adSlots a) with
  | Some slot => ret slot
  | None => throw (undefined_read "adSlots[adtag]" prop)
  end.

(** [getCommonLoggingData] *)
Definition getCommonLoggingData (acid adtag : value) : M (obj value) :=
  pageParams <- PageDetail_getLoggingData ;;
  c <- get_config "getLoggingData" ;;
  let commonParams := oassign pageParams (Configure_getLoggingData c) in
  slot <- get_adSlot acid adtag "getLoggingData" ;;
  let adunitParams := AdSlot_getLoggingData slot in
  a <- get_auction acid "getLoggingData" ;;
  let auctionParams := Auction_getLoggingData a in
  ret (oassign (oassign commonParams adunitParams) auctionParams).

Fixpoint foldM {A B} (f : B -> A -> M B) (l : list A) (b : B) : M B :=
  match l with
  | [] => ret b
  | x :: tl => bind (f b x) (fun b' => foldM f tl b')
  end.

(** The bids of [bidObjs] for an ad slot, each with its index in
    [bidObjs]. *)
Definition indexed_responses (a : Auction) (adtag : value) : list (nat * Bid) :=
  filter (fun ib => strict_eq (bget (snd ib) "adUnitCode") adtag)
         (combine (seq 0 (List.length (bidObjs a))) (bidObjs a)).

Definition size_path (bid : Bid) (size : string) : string :=
  ToString (bget bid "bidId") ++ "." ++ size.

(** [getResponseSizeMap] *)
Definition getResponseSizeMap (acid adtag : value) : M value :=
  a <- get_auction acid "getAdSlotBidResponses" ;;
  let responses := indexed_responses a adtag in
  received <-
    lift (rfold (fun received ib =>
                   Utils.deepSetValue received
                     (size_path (snd ib) (Bid_size (snd ib))) (VBool true))
                (filter (fun ib => negb (String.eqb (Bid_size (snd ib)) "")) responses)
                (VObj [])) ;;
  foldM
    (fun received ib =>
       let bid := snd ib in
       sizes <- lift (as_array "filter" (bget bid "allMediaTypeSizes")) ;;
       let res_sizes :=
         filter (fun size =>
                   negb (truthy (Utils.deepAccess received
                                   (size_path bid (ToString size))))) sizes in
       modify_auction acid "bidObjs"
         (fun a => set_bidObjs
                     (update_nth (fst ib) (oset "res_sizes" (VArr res_sizes))
                                 (bidObjs a)) a) ;;;
       lift (rfold (fun received size =>
                      Utils.deepSetValue received
                        (size_path bid (ToString size)) (VBool true))
                   sizes received))
    (filter (fun ib => String.eqb (Bid_size (snd ib)) "") responses)
    received.

(** The callback of [forEach] in [getDummyBids]: the bids it pushes. *)
Definition getDummyBids_bid (receivedResponse : value) (bidReq : Bid)
  : result (list Bid) :=
  rbind (as_array "filter" (bget bidReq "allMediaTypeSizes")) (fun sizes =>
  let emptySizes :=
    filter (fun size =>
              negb (truthy (Utils.deepAccess receivedResponse
                              (size_path bidReq (ToString size))))) sizes in
  if negb (strict_eq (bget bidReq "bidder") (VStr DUMMY_BIDDER))
     && negb (Nat.eqb (List.length emptySizes) 0)
  then
    let bid := new_Bid (bget bidReq "bidId") (bget bidReq "bidder")
                       (bget bidReq "src") (bget bidReq "start")
                       (bget bidReq "adUnitCode") (bget bidReq "mediaType")
                       (bget bidReq "allMediaTypeSizes") (VArr emptySizes) in
    Ok [oset "status"
             (if strict_eq (bget bidReq "status") BID_SUCCESS
              then BID_NOBID else bget bidReq "status") bid]
  else Ok []).

(** [getDummyBids] *)
Definition getDummyBids (acid adtag receivedResponse : value) : M (list Bid) :=
  a <- get_auction acid "getAdSlotBidRequests" ;;
  pushed <- lift (rmap (getDummyBids_bid receivedResponse)
                       (getAdSlotBidRequests a adtag)) ;;
  ret (concat pushed).

(** [getLoggingBids] *)
Definition getLoggingBids (acid adtag : value) : M (list Bid) :=
  receivedResponse <- getResponseSizeMap acid adtag ;;
  dummyBids <- getDummyBids acid adtag receivedResponse ;;
  a <- get_auction acid "getAdSlotBidResponses" ;;
  ret (getAdSlotBidResponses a adtag ++ dummyBids)%list.

(** The telemetry of a log: the common parameters, the parameters of each
    bid, and the targeting. *)
Record telemetry : Type := {
  commonParams : obj value;
  bidParams : list (obj value);
  targ : value
}.

(** The query string [fireAuctionLog] builds of them. *)
Definition telemetry_qs (t : telemetry) : string :=
  fold_left (fun url bp => url ++ formatQS bp ++ "&")
            (bidParams t) (formatQS (commonParams t) ++ "&")
  ++ formatQS [("targ", targ t)].

(** [fireAuctionLog] up to the call of [firePixel]: the telemetry, or
    [None] where the function returns early. *)
Definition auctionLog_telemetry (acid adtag : value) (logType : string)
    (adId : value) : M (option telemetry) :=
  common <- getCommonLoggingData acid adtag ;;
  let common := oset "lgtp" (VStr logType) common in
  let targeting := Utils.deepAccess (VObj common) "targ" in
  let common := filter (fun kv => negb (is_nullish (snd kv))) common in
  let common := odelete "targ" common in
  r <-
    (if String.eqb logType LOG_TYPE_RA then
       a <- get_auction acid "findBidObj" ;;
       match findBidObj a "adId" adId with
       | None => ret None
       | Some winningBidObj =>
           winLogData <- lift (Bid_getLoggingData winningBidObj) ;;
           ret (Some (oset "lper" (num 1) common, [winLogData]))
       end
     else
       bids <- getLoggingBids acid adtag ;;
       params <- lift (rmap Bid_getLoggingData bids) ;;
       ret (Some (odelete "wts" common, params))) ;;
  match r with
  | None => ret None
  | Some (common, params) =>
      let mnetPresent :=
        existsb (fun b => strict_eq (get (VObj b) "pvnm") (VStr MEDIANET_BIDDER_CODE))
                params in
      let params :=
        if mnetPresent then params
        else map (fun b => odelete "pubcrid" (odelete "ext" (odelete "crid"
                             (odelete "mpvid" b)))) params in
      ret (Some {| commonParams := common; bidParams := params; targ := targeting |})
  end.

(** [fireAuctionLog] *)
Definition fireAuctionLog (acid adtag : value) (logType : string) (adId : value)
  : M unit :=
  t <- auctionLog_telemetry acid adtag logType adId ;;
  match t with
  | None => ret tt
  | Some t => firePixel (telemetry_qs t)
  end.

(** [fireApPrLog] *)
Definition fireApPrLog (auctionId adUnitName : value) (logType : string) : M unit :=
  adSlot <- get_adSlot auctionId adUnitName "getShouldBeLogged" ;;
  should <- getShouldBeLogged logType ;;
  if should && negb (match oget logType (logged adSlot) with
                     | Some b => b
                     | None => false
                     end)
  then
    fireAuctionLog auctionId adUnitName logType VUndef ;;;
    modify_auction auctionId "adSlots"
      (update_slot (ToString adUnitName)
         (fun slot => set_logged (oset logType true (logged slot)) slot))
  else ret tt.

(** [sendEvent] *)
Definition sendEvent (id adunit : value) (logType : string) (adId : value) : M unit :=
  valid <- isValidAuctionAdSlot id adunit ;;
  if negb valid then ret tt
  else if String.eqb logType LOG_TYPE_RA
       then fireAuctionLog id adunit logType adId
       else fireApPrLog id adunit logType.


(** The body of the inner loop of [setTargetingHandler], for an auction
    that has the ad slot. *)
Definition setTargeting_slot (params : value) (adunit auctionId : string)
  : M unit :=
  let targ := get params adunit in
  modify_auction (VStr auctionId) "adSlots"
    (update_slot adunit (set_targeting targ)) ;;;
  now <- Date_now_read ;;
  modify_auction (VStr auctionId) "setTargetingTime" (set_setTargetingTime now) ;;;
  keys <- lift (Object_keys targ) ;;
  let bidAdIds :=
    map (fun key => get targ key)
        (filter (fun key => Str.contains AD_ID key) keys) in
  let winnerAdId := get targ AD_ID in
  a <- get_auction (VStr auctionId) "bidWrapper" ;;
  let marked :=
    map (fun bid => if index_found bidAdIds (bget bid "adId")
                    then oset "iwb" (num 1) bid else bid) (bidObjs a) in
  let winningBid :=
    match rev (filter (fun bid => index_found bidAdIds (bget bid "adId")
                                  && strict_eq (bget bid "adId") winnerAdId)
                      marked) with
    | b :: _ => VObj b
    | [] => VUndef
    end in
  let updated :=
    map (fun bid =>
           if strict_eq (bget bid "bidder") (VStr DUMMY_BIDDER)
              && strict_eq (bget bid "adUnitCode") (VStr adunit)
           then
             oset "height" (Utils.deepAccess winningBid "height")
               (oset "width" (Utils.deepAccess winningBid "width")
                  (oset "iwb" (if Nat.eqb (List.length bidAdIds) 0
                               then num 0 else num 1) bid))
           else bid) marked in
  modify_auction (VStr auctionId) "bidObjs" (set_bidObjs updated) ;;;
  sendEvent (VStr auctionId) (VStr adunit) LOG_TYPE_APPR VUndef.

(** [setTargetingHandler] *)
Definition setTargetingHandler (params : value) : M unit :=
  adunits <- lift (Object_keys params) ;;
  forEach adunits (fun adunit =>
    auctionIds <- gets (fun s => okeys (auctions s)) ;;
    forEach auctionIds (fun auctionId =>
      a <- get_auction (VStr auctionId) "adSlots" ;;
      match oget adunit (adSlots a) with
      | None => ret tt
      | Some _ => setTargeting_slot params adunit auctionId
      end)).

(** [bidWonHandler] *)
Definition bidWonHandler (bid : value) : M unit :=
  auctionId <- lift (get_prop bid "auctionId") ;;
  let adUnitCode := get bid "adUnitCode" in
  let adId := get bid "adId" in
  let bidder := get bid "bidder" in
  let requestId := get bid "requestId" in
  let originalRequestId := get bid "originalRequestId" in
  let details :=
    VObj [("adId", adId); ("auctionId", auctionId); ("adUnitCode", adUnitCode);
          ("bidder", bidder); ("requestId", requestId);
          ("originalRequestId", originalRequestId)] in
  found <- find_auction auctionId ;;
  match found with
  | None =>
      logger <- ErrorLogger ERROR_WINNING_AUCTION_MISSING details ;;
      ErrorLogger_send logger
  | Some a =>
      match findBidObj a "adId" adId with
      | None =>
          logger <- ErrorLogger ERROR_WINNING_BID_ABSENT details ;;
          ErrorLogger_send logger
      | Some bidObj =>
          let is_it := fun b : Bid => strict_eq (bget b "adId") adId in
          modify_auction auctionId "bidObjs"
            (fun a => set_bidObjs
                        (update_first is_it
                           (oset "latestAcid" (get bid "latestTargetedAuctionId"))
                           (bidObjs a)) a) ;;;
          now <- Date_now_read ;;
          modify_auction auctionId "bidWonTime" (set_bidWonTime now) ;;;
          modify_auction auctionId "bidObjs"
            (fun a => set_bidObjs
                        (update_first is_it (oset "winner" (num 1)) (bidObjs a)) a) ;;;
          sendEvent auctionId adUnitCode LOG_TYPE_RA (bget bidObj "adId")
      end
  end.

(** *** The adapter object *)

(** [medianetAnalytics.clearlogsQueue] *)
Definition clearlogsQueue : M unit :=
  modify (fun s => set_auctions [] (set_errorQueue [] (set_logsQueue [] s))).

(** [medianetAnalytics.track] *)
Definition track (event : value) : M unit :=
  eventType <- lift (get_prop event "eventType") ;;
  let args := get event "args" in
  c <- get_config "debug" ;;
  (if debug c then logInfo eventType args else ret tt) ;;;
  if strict_eq eventType (VStr AUCTION_INIT) then auctionInitHandler args
  else if strict_eq eventType (VStr BID_REQUESTED) then bidRequestedHandler args
  else if strict_eq eventType (VStr BID_RESPONSE) then bidResponseHandler args
  else if strict_eq eventType (VStr EV_BID_TIMEOUT) then bidTimeoutHandler args
  else if strict_eq eventType (VStr NO_BID) then noBidResponseHandler args
  else if strict_eq eventType (VStr AUCTION_END) then auctionEndHandler args
  else if strict_eq eventType (VStr SET_TARGETING) then setTargetingHandler args
  else if strict_eq eventType (VStr BID_WON) then bidWonHandler args
  else ret tt.

(** [medianetAnalytics.enableAnalytics]; the inherited
    [originEnableAnalytics] is recorded with the configuration it is
    given. *)
Definition enableAnalytics (configuration : value) : M unit :=
  if negb (truthy configuration)
     || negb (truthy (get configuration "options"))
     || negb (truthy (get (get configuration "options") "cid"))
  then logError "Media.net Analytics adapter: cid is required."
  else
    let options := get configuration "options" in
    modify (set_analyticsEnabled true) ;;;
    pd <- lift new_PageDetail ;;
    modify (set_pageDetails (Some pd)) ;;;
    modify (set_config (Some (new_Configure (get options "cid")))) ;;;
    modify_config "pubLper" (set_pubLper (or (get options "sampling") (VStr ""))) ;;;
    Configure_init ;;;
    options' <- lift (set_prop options "sampling" (num 1)) ;;
    configuration' <- lift (set_prop configuration "options" options') ;;
    modify (fun s => set_origin_calls (origin_calls s ++ [configuration'])%list s).

End WithHost.
End Medianet.

(* ===================================================================== *)
(** ** A sample engine, browser and host

    Instances of the interfaces above, for running the adapters on examples.
    The engine answers for integers, for JSON text without escapes or
    fractions and for ASCII text, which is what the examples use. *)
(* ===================================================================== *)

Module Sample.
Import JS.

Definition SyntaxError : exn := Exn "SyntaxError" "Unexpected token in JSON".

Fixpoint skip_ws (s : string) : string :=
  match s with
  | String c tl =>
      if Ascii.eqb c " " || Nat.eqb (nat_of_ascii c) 10
         || Nat.eqb (nat_of_ascii c) 13 || Nat.eqb (nat_of_ascii c) 9
      then skip_ws tl else s
  | EmptyString => s
  end.

(** The characters up to the closing quote, and what follows it. *)
Fixpoint parse_string (s : string) (acc : string) : option (string * string) :=
  match s with
  | EmptyString => None
  | String c tl =>
      if Ascii.eqb c Str.dquote then Some (acc, tl)
      else if Ascii.eqb c "\" then None
      else parse_string tl (acc ++ String c "")
  end.

Fixpoint take_digits (s : string) (acc : string) : string * string :=
  match s with
  | String c tl => if Str.is_digit c then take_digits tl (acc ++ String c "")
                   else (acc, s)
  | EmptyString => (acc, s)
  end.

Definition parse_int (s : string) : option (value * string) :=
  let neg := String.prefix "-" s in
  let body := if neg then Str.drop 1 s else s in
  let ds := take_digits body "" in
  if String.eqb (fst ds) "" then None
  else
    let n := Z.of_N (Str.digits_value (fst ds) 0) in
    Some (num (if neg then (- n)%Z else n), snd ds).

Fixpoint parse_value (fuel : nat) (s : string) : option (value * string) :=
  match fuel with
  | O => None
  | S fuel' =>
      let s := skip_ws s in
      if String.prefix "null" s then Some (VNull, Str.drop 4 s)
      else if String.prefix "true" s then Some (VBool true, Str.drop 4 s)
      else if String.prefix "false" s then Some (VBool false, Str.drop 5 s)
      else
        match s with
        | EmptyString => None
        | String c tl =>
            if Ascii.eqb c Str.dquote then
              match parse_string tl "" with
              | Some (str, rest) => Some (VStr str, rest)
              | None => None
              end
            else if Ascii.eqb c "[" then
              let tl := skip_ws tl in
              if String.prefix "]" tl then Some (VArr [], Str.drop 1 tl)
              else
                match parse_elements fuel' tl with
                | Some (l, rest) => Some (VArr l, rest)
                | None => None
                end
            else if Ascii.eqb c "{" then
              let tl := skip_ws tl in
              if String.prefix "}" tl then Some (VObj [], Str.drop 1 tl)
              else
                match parse_members fuel' tl [] with
                | Some (fs, rest) => Some (VObj fs, rest)
                | None => None
                end
            else parse_int s
        end
  end
with parse_elements (fuel : nat) (s : string) : option (list value * string) :=
  match fuel with
  | O => None
  | S fuel' =>
      match parse_value fuel' s with
      | None => None
      | Some (v, rest) =>
          let rest := skip_ws rest in
          if String.prefix "," rest then
            match parse_elements fuel' (Str.drop 1 rest) with
            | Some (l, rest') => Some (v :: l, rest')
            | None => None
            end
          else if String.prefix "]" rest then Some ([v], Str.drop 1 rest)
          else None
      end
  end
with parse_members (fuel : nat) (s : string) (acc : obj value)
  : option (obj value * string) :=
  match fuel with
  | O => None
  | S fuel' =>
      match skip_ws s with
      | String c tl =>
          if Ascii.eqb c Str.dquote then
            match parse_string tl "" with
            | None => None
            | Some (k, rest) =>
                let rest := skip_ws rest in
                if String.prefix ":" rest then
                  match parse_value fuel' (Str.drop 1 rest) with
                  | None => None
                  | Some (v, rest) =>
                      let rest := skip_ws rest in
                      let acc := oset k v acc in
                      if String.prefix "," rest
                      then parse_members fuel' (Str.drop 1 rest) acc
                      else if String.prefix "}" rest
                           then Some (acc, Str.drop 1 rest)
                           else None
                  end
                else None
            end
          else None
      | EmptyString => None
      end
  end.

Definition json_parse (s : string) : result value :=
  match parse_value (S (String.length s)) s with
  | Some (v, rest) =>
      if String.eqb (skip_ws rest) "" then Ok v else Throw SyntaxError
  | None => Throw SyntaxError
  end.

(** The number a string of digits denotes, [NaN] for other strings. *)
Definition digits_to_number (s : string) : float :=
  match parse_int s with
  | Some (VNum n, EmptyString) => n
  | _ => nan
  end.

(** The number at the start of a string, [NaN] where there is none. *)
Definition leading_number (s : string) : float :=
  match parse_int (skip_ws s) with
  | Some (VNum n, _) => n
  | _ => nan
  end.

Definition has_percent (s : string) : bool := Str.contains "%" s.

#[export] Instance engine : Engine := {|
  Number_toString_other := fun _ => "0.5";
  StringToNumber := digits_to_number;
  parseInt10 := leading_number;
  parseFloat_str := leading_number;
  toFixed4 := fun n =>
    match float_to_Z n with
    | Some z => Str.of_Z z ++ ".0000"
    | None => "0.5000"
    end;
  Math_round := fun n => n;
  Math_floor := fun n => n;
  JSON_parse := json_parse;
  decodeURIComponent := fun s =>
    if has_percent s then Throw (Exn "URIError" "URI malformed") else Ok s;
  toUpperCase_other := Str.toUpperCase
|}.

#[export] Instance env : Smaato.Env := {|
  Smaato.location_hostname := "example.com";
  Smaato.location_href := "https://example.com/page";
  Smaato.navigator_language := "en-US";
  Smaato.navigator_userAgent := "Mozilla/5.0";
  Smaato.screen_height := num 768;
  Smaato.screen_width := num 1024;
  Smaato.getDNT := false;
  Smaato.getConfig_coppa := VUndef;
  Smaato.getAdUnitSizes := fun br => Utils.deepAccess br "mediaTypes.banner.sizes";
  Smaato.Date_now := float_of_Z 1487883186070
|}.

#[export] Instance host : Medianet.Host := {|
  Medianet.AUCTION_INIT := "auctionInit";
  Medianet.BID_REQUESTED := "bidRequested";
  Medianet.BID_RESPONSE := "bidResponse";
  Medianet.EV_BID_TIMEOUT := "bidTimeout";
  Medianet.NO_BID := "noBid";
  Medianet.AUCTION_END := "auctionEnd";
  Medianet.SET_TARGETING := "setTargeting";
  Medianet.BID_WON := "bidWon";
  Medianet.BID_REJECTED := "bidRejected";
  Medianet.AD_ID := "hb_adid";
  Medianet.AUCTION_COMPLETED := "completed";
  Medianet.AUCTION_IN_PROGRESS := "inProgress";
  Medianet.getPriceGranularity := fun _ => VStr "medium";
  Medianet.INSTREAM := "instream";
  Medianet.OUTSTREAM := "outstream";
  Medianet.ADPOD := "adpod";
  Medianet.convertCurrency := fun price from to =>
    if strict_eq from to then Ok price
    else if strict_eq from (VStr "EUR") || strict_eq to (VStr "EUR")
         then Ok (VNum (ToNumber price))
         else Throw (Exn "Error" "no conversion rate");
  Medianet.Date_now := fun n => float_of_Z (1487883186070 + Z.of_nat n);
  Medianet.Math_random := fun _ => zero;
  Medianet.getRefererInfo :=
    VObj [("domain", VStr "example.com");
          ("page", VStr "https://example.com/page");
          ("reachedTop", VBool true);
          ("ref", VStr "https://referrer.example/");
          ("canonicalUrl", VUndef);
          ("topmostLocation", VStr "https://example.com/page")];
  Medianet.document_referrer := VStr "";
  Medianet.querySelector := fun _ => Ok None;
  Medianet.anchor_href := fun v => Ok v;
  Medianet.window_innerWidth := num 1024;
  Medianet.documentElement_clientWidth := num 1024;
  Medianet.body_clientWidth := num 1024;
  Medianet.window_innerHeight := num 768;
  Medianet.documentElement_clientHeight := num 768;
  Medianet.body_clientHeight := num 768;
  Medianet.anchor_hostname := fun _ => VStr "example.com";
  Medianet.anchor_search := fun _ => VStr "";
  Medianet.anchor_host := fun _ => VStr "example.com";
  Medianet.location_host := VStr "example.com"
|}.

End Sample.

(* ===================================================================== *)
(** * Properties *)
(* ===================================================================== *)

Unset Implicit Arguments.

(** ** General lemmas *)

Lemma get_prop_ok (v : JS.value) (k : string) :
  JS.is_nullish v = false -> JS.get_prop v k = Ok (JS.get v k).
Proof. unfold JS.get_prop. intros ->. reflexivity. Qed.

Lemma get_prop_inv (v : JS.value) (k : string) (x : JS.value) :
  JS.get_prop v k = Ok x -> JS.is_nullish v = false /\ x = JS.get v k.
Proof.
  unfold JS.get_prop. destruct (JS.is_nullish v); [discriminate|].
  intros H. injection H as <-. split; reflexivity.
Qed.

Lemma rmap_ok_map {A B} (f : A -> result B) (g : A -> B) (l : list A) :
  Forall (fun x => f x = Ok (g x)) l -> rmap f l = Ok (map g l).
Proof.
  induction 1 as [|x tl Hx _ IH]; simpl.
  - reflexivity.
  - rewrite Hx, IH. reflexivity.
Qed.

Lemma rmap_ok_Forall2 {A B} (f : A -> result B) (l : list A) (l' : list B) :
  rmap f l = Ok l' -> Forall2 (fun x y => f x = Ok y) l l'.
Proof.
  revert l'. induction l as [|x tl IH]; simpl; intros l' H.
  - injection H as <-. constructor.
  - destruct (f x) as [y|e] eqn:Hx; [|discriminate].
    destruct (rmap f tl) as [ys|e] eqn:Htl; [|discriminate].
    injection H as <-. constructor; auto.
Qed.

Lemma rmap_ok_total {A B} (f : A -> result B) (l : list A) :
  Forall (fun x => exists y, f x = Ok y) l -> exists l', rmap f l = Ok l'.
Proof.
  induction 1 as [|x tl [y Hx] _ [ys IH]]; simpl.
  - eexists; reflexivity.
  - rewrite Hx, IH. eexists; reflexivity.
Qed.

Lemma append_assoc (a b c : string) : ((a ++ b) ++ c)%string = (a ++ b ++ c)%string.
Proof. induction a as [|x a IH]; simpl; [reflexivity|]. rewrite IH. reflexivity. Qed.

Lemma append_nil_r (a : string) : (a ++ "")%string = a.
Proof. induction a as [|x a IH]; simpl; [reflexivity|]. rewrite IH. reflexivity. Qed.

(** ** The Smaato bid adapter *)

Module SmaatoProofs.
Import JS Smaato.

Section WithEnv.
Context {E : Engine} {V : Env}.

(** The [{w, h}] object [parseSizes] makes of a size. *)
Definition size_format (size : value) : value :=
  VObj [("w", get size "0"); ("h", get size "1")].

(** A bid request has an ad-unit size when the host's [getAdUnitSizes]
    gives a non-empty array without [null] or [undefined] entries. *)
Definition has_ad_unit_size (br : value) : Prop :=
  exists s ss, getAdUnitSizes br = VArr (s :: ss)
               /\ Forall (fun x => is_nullish x = false) (s :: ss).

(** What the claim says of one [imp] entry. *)
Definition imp_matches (br imp : value) : Prop :=
  get imp "id" = get br "bidId"
  /\ exists sizes, getAdUnitSizes br = VArr sizes
                   /\ get (get imp "banner") "format" = VArr (map size_format sizes).

Lemma valid_not_nullish (br : value) :
  isBidRequestValid br = Ok true ->
  is_nullish br = false /\ is_nullish (get br "params") = false.
Proof.
  unfold isBidRequestValid. intros H.
  destruct (get_prop br "params") as [p|e] eqn:Hp; simpl in H; [|discriminate].
  apply get_prop_inv in Hp as [Hbr ->]. split; [exact Hbr|].
  destruct (typeof_object (get br "params")); [|discriminate].
  destruct (get_prop (get br "params") "publisherId") as [q|e] eqn:Hq;
    simpl in H; [|discriminate].
  apply get_prop_inv in Hq as [Hq _]. exact Hq.
Qed.

Lemma parseSizes_ok (sizes : list value) :
  Forall (fun x => is_nullish x = false) sizes ->
  parseSizes (VArr sizes) = Ok (map size_format sizes).
Proof.
  intros H. unfold parseSizes. simpl.
  apply rmap_ok_map. eapply Forall_impl; [|exact H].
  intros s Hs. simpl. rewrite !(get_prop_ok _ _ Hs). reflexivity.
Qed.

Lemma build_imp_ok (br : value) :
  isBidRequestValid br = Ok true -> has_ad_unit_size br ->
  exists imp, build_imp br = Ok imp /\ imp_matches br imp.
Proof.
  intros Hv (s & ss & Hsz & Hnn).
  apply valid_not_nullish in Hv as [Hbr _].
  unfold build_imp. rewrite Hsz, (parseSizes_ok _ Hnn). simpl.
  rewrite (get_prop_ok _ _ Hbr). simpl.
  eexists. split; [reflexivity|].
  split; [reflexivity|]. exists (s :: ss). split; [exact Hsz|reflexivity].
Qed.

Lemma rmap_build_imp (brs : list value) :
  Forall (fun br => isBidRequestValid br = Ok true) brs ->
  Forall has_ad_unit_size brs ->
  exists imps, rmap build_imp brs = Ok imps /\ Forall2 imp_matches brs imps.
Proof.
  induction brs as [|br tl IH]; intros Hv Hs.
  - exists []. split; [reflexivity|constructor].
  - inversion Hv as [|? ? Hv1 Hv2]; subst. inversion Hs as [|? ? Hs1 Hs2]; subst.
    destruct (build_imp_ok _ Hv1 Hs1) as (imp & Himp & Hm).
    destruct (IH Hv2 Hs2) as (imps & Himps & Hms).
    exists (imp :: imps). simpl. rewrite Himp, Himps.
    split; [reflexivity|constructor; assumption].
Qed.

Lemma buildOpenRtbBidRequest_ok (brs : list value) (bidderRequest : value) :
  Forall (fun br => isBidRequestValid br = Ok true) brs ->
  Forall has_ad_unit_size brs ->
  is_nullish bidderRequest = false ->
  is_nullish (get bidderRequest "refererInfo") = false ->
  exists fields imps,
    buildOpenRtbBidRequest brs bidderRequest = Ok (VObj fields)
    /\ get (VObj fields) "imp" = VArr imps
    /\ Forall2 imp_matches brs imps.
Proof.
  intros Hv Hs Hbr Href.
  destruct (rmap_build_imp _ Hv Hs) as (imps & Himps & Hm).
  unfold buildOpenRtbBidRequest. rewrite Himps. simpl.
  rewrite (get_prop_ok _ _ Hbr), (get_prop_ok _ _ Href). simpl.
  destruct (negb (is_undefined (get bidderRequest "uspConsent"))).
  - eexists _, imps. split; [reflexivity|]. split; [reflexivity|exact Hm].
  - eexists _, imps. split; [reflexivity|]. split; [reflexivity|exact Hm].
Qed.

(** C1: for a non-empty list of valid bid requests, each with at least one
    ad-unit size, and a bidder request of the host (an object with its
    [refererInfo]), [buildRequests] returns a POST request whose [data] is
    the JSON serialization of the request object, and that object has one
    [imp] entry per bid request, in order, whose [id] is the request's
    [bidId] and whose [banner.format] lists the request's sizes as [{w, h}]
    objects. *)
Theorem buildRequests_one_imp_per_bid_request
    (brs : list value) (bidderRequest : value) :
  brs <> [] ->
  Forall (fun br => isBidRequestValid br = Ok true) brs ->
  Forall has_ad_unit_size brs ->
  is_nullish bidderRequest = false ->
  is_nullish (get bidderRequest "refererInfo") = false ->
  exists (sr : ServerRequest) (request : value) (json : string) (imps : list value),
    buildRequests brs bidderRequest = Ok sr
    /\ method sr = "POST"
    /\ buildOpenRtbBidRequest brs bidderRequest = Ok request
    /\ JSON_stringify request = Some json
    /\ data sr = VStr json
    /\ get request "imp" = VArr imps
    /\ Forall2 imp_matches brs imps.
Proof.
  intros Hne Hv Hs Hbr Href.
  destruct (buildOpenRtbBidRequest_ok _ _ Hv Hs Hbr Href) as (fields & imps & Hreq & Himp & Hm).
  destruct brs as [|br0 tl]; [contradiction|].
  inversion Hv as [|? ? Hv0 _]; subst.
  apply valid_not_nullish in Hv0 as [Hbr0 Hp0].
  destruct (JSON_stringify (VObj fields)) as [json|] eqn:Hjson;
    [|simpl in Hjson; discriminate].
  eexists _, (VObj fields), json, imps.
  unfold buildRequests, buildOpenRtbBidRequestPayload.
  rewrite Hreq. cbn [nth rbind].
  rewrite (get_prop_ok _ _ Hbr0). cbn [rbind].
  rewrite (get_prop_ok _ _ Hp0). cbn [rbind].
  rewrite (get_prop_ok _ _ Hbr). cbn [rbind].
  unfold JSON_stringify_value. rewrite Hjson.
  repeat split; try reflexivity; assumption.
Qed.

(** *** C2: interpretResponse *)


(** The [ttl] of the bids of a response. *)
Definition ttl_of (resp : ServerResponse) : value :=
  if negb (is_undefined (headers_get resp "X-SMT-Expires"))
  then VNum (Math_floor ((ToNumber (headers_get resp "X-SMT-Expires") - Date_now)
                         / float_of_Z 1000)%float)
  else num 300.







End WithEnv.
End SmaatoProofs.

(** ** Objects used as maps *)

Module ObjFacts.
Import JS.

Section Facts.
Context {A : Type}.
Implicit Types (o : obj A) (k : string) (v : A).

Lemma ohas_true_iff o k : ohas k o = true <-> exists v, oget k o = Some v.
Proof.
  unfold ohas. destruct (oget k o) as [v|]; split; intros H; eauto; try discriminate.
  destruct H as [v H]; discriminate.
Qed.

Lemma ohas_false_iff o k : ohas k o = false <-> oget k o = None.
Proof. unfold ohas. destruct (oget k o); split; congruence. Qed.

Lemma oget_app o1 o2 k :
  oget k (o1 ++ o2)%list =
  match oget k o1 with
  | Some v => Some v
  | None => oget k o2
  end.
Proof.
  induction o1 as [|[k' v'] tl IH]; simpl; [reflexivity|].
  destruct (String.eqb k' k); [reflexivity|exact IH].
Qed.

Lemma oget_oreplace_same o k v :
  oget k o <> None -> oget k (oreplace k v o) = Some v.
Proof.
  induction o as [|[k' v'] tl IH]; simpl; intros H; [congruence|].
  destruct (String.eqb k' k) eqn:E; simpl; rewrite E; [reflexivity|auto].
Qed.

Lemma oget_oreplace_other o k k' v :
  k' <> k -> oget k' (oreplace k v o) = oget k' o.
Proof.
  intros Hne. induction o as [|[k1 v1] tl IH]; simpl; [reflexivity|].
  destruct (String.eqb k1 k) eqn:E; simpl.
  - apply String.eqb_eq in E. subst k1.
    destruct (String.eqb k k') eqn:E'; [|reflexivity].
    apply String.eqb_eq in E'. congruence.
  - destruct (String.eqb k1 k'); [reflexivity|exact IH].
Qed.

Lemma oget_oinsert_same o n k v :
  oget k o = None -> oget k (oinsert_index n k v o) = Some v.
Proof.
  induction o as [|[k' v'] tl IH]; simpl; intros H.
  - rewrite String.eqb_refl. reflexivity.
  - destruct (String.eqb k' k) eqn:E; [discriminate|].
    destruct (Str.array_index k') as [n'|].
    + destruct (n <? n')%N; simpl.
      * rewrite String.eqb_refl. reflexivity.
      * rewrite E. auto.
    + simpl. rewrite String.eqb_refl. reflexivity.
Qed.

Lemma oget_oinsert_other o n k k' v :
  k' <> k -> oget k' (oinsert_index n k v o) = oget k' o.
Proof.
  intros Hne.
  assert (Hk : String.eqb k k' = false) by (apply String.eqb_neq; congruence).
  induction o as [|[k1 v1] tl IH]; simpl.
  - rewrite Hk. reflexivity.
  - destruct (Str.array_index k1) as [n'|].
    + destruct (n <? n')%N; simpl.
      * rewrite Hk. reflexivity.
      * destruct (String.eqb k1 k'); [reflexivity|exact IH].
    + simpl. rewrite Hk. reflexivity.
Qed.

(** Reading back what was written. *)
Lemma oget_oset_same o k v : oget k (oset k v o) = Some v.
Proof.
  unfold oset. destruct (ohas k o) eqn:E.
  - apply oget_oreplace_same. apply ohas_true_iff in E as [x ->]. discriminate.
  - apply ohas_false_iff in E.
    destruct (Str.array_index k).
    + apply oget_oinsert_same. exact E.
    + rewrite oget_app, E. simpl. rewrite String.eqb_refl. reflexivity.
Qed.

(** Writing a key leaves the other keys alone. *)
Lemma oget_oset_other o k k' v : k' <> k -> oget k' (oset k v o) = oget k' o.
Proof.
  intros Hne. unfold oset. destruct (ohas k o).
  - apply oget_oreplace_other. exact Hne.
  - destruct (Str.array_index k).
    + apply oget_oinsert_other. exact Hne.
    + rewrite oget_app. destruct (oget k' o); [reflexivity|].
      simpl. destruct (String.eqb k k') eqn:E; [|reflexivity].
      apply String.eqb_eq in E. congruence.
Qed.

Lemma length_oreplace o k v : List.length (oreplace k v o) = List.length o.
Proof.
  induction o as [|[k' v'] tl IH]; simpl; [reflexivity|].
  destruct (String.eqb k' k); simpl; congruence.
Qed.

Lemma length_oinsert o n k v :
  List.length (oinsert_index n k v o) = S (List.length o).
Proof.
  induction o as [|[k' v'] tl IH]; simpl; [reflexivity|].
  destruct (Str.array_index k') as [n'|]; [destruct (n <? n')%N|]; simpl; congruence.
Qed.

(** Writing an existing key keeps the number of keys; a new key adds one. *)
Lemma length_oset o k v :
  List.length (oset k v o) =
  if ohas k o then List.length o else S (List.length o).
Proof.
  unfold oset. destruct (ohas k o).
  - apply length_oreplace.
  - destruct (Str.array_index k).
    + apply length_oinsert.
    + rewrite length_app. simpl. lia.
Qed.

End Facts.
End ObjFacts.

(** ** The Media.net analytics adapter *)

Module MedianetProofs.
Import JS Medianet ObjFacts.

(** *** Running monadic code *)

Lemma bind_ok {A B} (m : M A) (k : A -> M B) (s s' : state) (a : A) :
  m s = (Ok a, s') -> bind m k s = k a s'.
Proof. unfold bind. intros ->. reflexivity. Qed.

Lemma bind_throw {A B} (m : M A) (k : A -> M B) (s s' : state) (e : exn) :
  m s = (Throw e, s') -> bind m k s = (Throw e, s').
Proof. unfold bind. intros ->. reflexivity. Qed.




Section WithHost.
Context {E : Engine} {H : Host}.

(** *** C7: exchangeCurrency *)

(** The message [exchangeCurrency] logs. *)
Definition conversion_error (price fromCurrency toCurrency : value) : string :=
  "Media.net Analytics Adapter: Could not convert " ++ ToString fromCurrency
    ++ " to " ++ ToString toCurrency ++ " for price " ++ ToString price.

(** C7: when the call of [convertCurrency] throws, [exchangeCurrency]
    catches the exception, logs one error and returns the price it was
    given; when the call returns a number, the result is that number
    formatted by [toFixed(4)] and nothing is logged. *)
Theorem exchangeCurrency_catches_and_formats
    (price fromCurrency toCurrency : value) (st : state) :
  (forall e, convertCurrency price fromCurrency toCurrency = Throw e ->
     exchangeCurrency price fromCurrency toCurrency st =
       (Ok price,
        set_console_errors
          (console_errors st ++ [conversion_error price fromCurrency toCurrency])%list
          st))
  /\ (forall n, convertCurrency price fromCurrency toCurrency = Ok (VNum n) ->
        exchangeCurrency price fromCurrency toCurrency st =
          (Ok (VStr (toFixed4 n)), st)).
Proof.
  split.
  - intros e He. unfold exchangeCurrency, try_catch, bind, lift.
    rewrite He. reflexivity.
  - intros n Hn. unfold exchangeCurrency, try_catch, bind, lift.
    rewrite Hn. reflexivity.
Qed.

(** *** C3: track *)

(** The event types [track] has a case for. *)
Definition lifecycle_events : list string :=
  [AUCTION_INIT; BID_REQUESTED; BID_RESPONSE; EV_BID_TIMEOUT; NO_BID;
   AUCTION_END; SET_TARGETING; BID_WON].

Definition is_lifecycle_event (eventType : value) : bool :=
  existsb (fun t => strict_eq eventType (VStr t)) lifecycle_events.

(** C3: for an event whose type is none of the eight lifecycle event
    types, [track] runs no handler: the auctions, the two queues and the
    configuration are unchanged and no pixel is triggered. *)
Theorem track_ignores_other_events (event : value) (st : state) :
  is_lifecycle_event (get event "eventType") = false ->
  let st' := snd (track event st) in
  auctions st' = auctions st
  /\ logsQueue st' = logsQueue st
  /\ errorQueue st' = errorQueue st
  /\ pixels st' = pixels st
  /\ config st' = config st
  /\ ajax_requests st' = ajax_requests st.
Proof.
  unfold is_lifecycle_event, lifecycle_events. simpl.
  intros Hout.
  repeat (apply orb_false_iff in Hout; destruct Hout as [? Hout]).
  cbv zeta. unfold track, bind, lift, get_prop.
  destruct (is_nullish event); [simpl; tauto|].
  unfold get_config. destruct (config st) as [c|] eqn:Hc; [|simpl; tauto].
  repeat match goal with
         | Hx : strict_eq _ _ = false |- _ => rewrite Hx; clear Hx
         end.
  destruct (debug c); simpl; rewrite ?Hc; tauto.
Qed.

(** *** C8: enableAnalytics *)

(** The guard of [enableAnalytics]. *)
Definition cid_missing (configuration : value) : bool :=
  negb (truthy configuration)
  || negb (truthy (get configuration "options"))
  || negb (truthy (get (get configuration "options") "cid")).

(** The configuration after [configuration.options.sampling = 1]. *)
Definition with_sampling_1 (configuration : value) : value :=
  match configuration, get configuration "options" with
  | VObj fs, VObj opts =>
      VObj (oset "options" (VObj (oset "sampling" (num 1) opts)) fs)
  | _, _ => configuration
  end.

Lemma cid_present_shape (configuration : value) :
  cid_missing configuration = false ->
  exists fs opts, configuration = VObj fs /\ get configuration "options" = VObj opts.
Proof.
  unfold cid_missing. intros Hg.
  apply orb_false_iff in Hg as [Hg Hcid].
  apply orb_false_iff in Hg as [_ Hopt].
  apply negb_false_iff in Hopt. apply negb_false_iff in Hcid.
  destruct configuration as [| | | | |l|fs|]; try discriminate;
    try (exfalso; vm_compute in Hopt; discriminate).
  exists fs. destruct (get (VObj fs) "options") as [| | | | |l|opts|] eqn:Ho;
    try discriminate; try (exfalso; vm_compute in Hcid; discriminate); eauto.
Qed.

Lemma Configure_init_calls (s : state) :
  origin_calls (snd (Configure_init s)) = origin_calls s
  /\ (forall c pd urlObj,
        config s = Some c -> pageDetails s = Some pd ->
        URL_parseUrl (topmostLocation pd) = Ok urlObj ->
        fst (Configure_init s) = Ok tt).
Proof.
  unfold Configure_init, bind, get_pageDetails, lift.
  destruct (pageDetails s) as [pd|] eqn:Hpd.
  2:{ split; [reflexivity|]. intros; discriminate. }
  destruct (URL_parseUrl (topmostLocation pd)) as [urlObj|e] eqn:Hu.
  2:{ split; [reflexivity|]. intros c pd' u _ Hpd' Hu'.
      injection Hpd' as <-. congruence. }
  destruct (truthy (Utils.deepAccess urlObj "search.medianet_test")
            || strict_eq (get urlObj "hostname") (VStr "localhost")).
  - unfold modify_config.
    destruct (config s) as [c|] eqn:Hc; simpl; rewrite ?Hc; simpl;
      (split; [reflexivity|]); intros; try reflexivity; discriminate.
  - unfold _configURL, ajax, modify, bind, get_config, get_pageDetails, modify_config, ret.
    destruct (truthy (Utils.deepAccess urlObj "search.mnet_setconfig"));
      destruct (config s) as [c|] eqn:Hc; simpl; rewrite ?Hc, ?Hpd; simpl;
      (split; [reflexivity|]); intros; try reflexivity; discriminate.
Qed.

(** C8: when the configuration, its [options] or [options.cid] is
    missing, [enableAnalytics] logs one error and returns: [pageDetails]
    and [config] are not created, the global flag is not set and the
    inherited [enableAnalytics] is not called.  When the cid is present, the
    inherited [enableAnalytics] is called at most once, with
    [options.sampling] set to 1, and it is called when the page details and
    the page URL are read without an exception. *)
Theorem enableAnalytics_requires_cid (configuration : value) (st : state) :
  (cid_missing configuration = true ->
     fst (enableAnalytics configuration st) = Ok tt
     /\ console_errors (snd (enableAnalytics configuration st))
        = (console_errors st ++ ["Media.net Analytics adapter: cid is required."])%list
     /\ pageDetails (snd (enableAnalytics configuration st)) = pageDetails st
     /\ config (snd (enableAnalytics configuration st)) = config st
     /\ analyticsEnabled (snd (enableAnalytics configuration st)) = analyticsEnabled st
     /\ origin_calls (snd (enableAnalytics configuration st)) = origin_calls st)
  /\ (cid_missing configuration = false ->
       get (get (with_sampling_1 configuration) "options") "sampling" = num 1
       /\ (origin_calls (snd (enableAnalytics configuration st)) = origin_calls st
           \/ origin_calls (snd (enableAnalytics configuration st))
              = (origin_calls st ++ [with_sampling_1 configuration])%list)
       /\ (forall pd urlObj,
             new_PageDetail = Ok pd ->
             URL_parseUrl (topmostLocation pd) = Ok urlObj ->
             fst (enableAnalytics configuration st) = Ok tt
             /\ origin_calls (snd (enableAnalytics configuration st))
                = (origin_calls st ++ [with_sampling_1 configuration])%list)).
Proof.
  split.
  - intros Hg. unfold enableAnalytics. fold (cid_missing configuration).
    rewrite Hg. unfold logError, modify. simpl. repeat split; reflexivity.
  - intros Hg.
    destruct (cid_present_shape configuration Hg) as (fs & opts & -> & Hopts).
    assert (Hw : with_sampling_1 (VObj fs)
                 = VObj (oset "options" (VObj (oset "sampling" (num 1) opts)) fs)).
    { unfold with_sampling_1. rewrite Hopts. reflexivity. }
    split.
    { rewrite Hw. unfold get at 2. rewrite oget_oset_same.
      unfold get. rewrite oget_oset_same. reflexivity. }
    rewrite Hw.
    unfold enableAnalytics. fold (cid_missing (VObj fs)). rewrite Hg, Hopts.
    unfold bind, modify, lift, modify_config.
    destruct new_PageDetail as [pd|e] eqn:Hpd.
    2:{ cbn. split; [left; reflexivity|]. intros; discriminate. }
    cbn -[Configure_init oset num].
    match goal with |- context [Configure_init ?s] => set (s1 := s) end.
    assert (Hs1 : origin_calls s1 = origin_calls st) by reflexivity.
    assert (Hc1 : exists c, config s1 = Some c) by (eexists; reflexivity).
    assert (Hp1 : pageDetails s1 = Some pd) by reflexivity.
    clearbody s1.
    destruct (Configure_init_calls s1) as [Hcalls Hok].
    destruct (Configure_init s1) as [[[]|e] s2] eqn:Hinit; simpl in Hcalls.
    + cbn -[oset num]. split; [right|intros; split; [reflexivity|]]; congruence.
    + cbn -[oset num]. split; [left; congruence|].
      intros pd' u Hpd' Hu. injection Hpd' as <-.
      destruct Hc1 as [c Hc1].
      specialize (Hok c pd u Hc1 Hp1 Hu). simpl in Hok. discriminate.
Qed.

(** *** C6: Configure._parseResponse *)











(** *** Frames: what a piece of code leaves alone

    [steps R m] says that [m] takes every state to a state related to it
    by [R], whether it returns or throws.  For a reflexive and transitive
    [R] this composes along the structure of the code. *)

Class Frame (R : state -> state -> Prop) : Prop := {
  frame_refl : forall s, R s s;
  frame_trans : forall a b c, R a b -> R b c -> R a c
}.

Definition steps (R : state -> state -> Prop) {A} (m : M A) : Prop :=
  forall s, R s (snd (m s)).

Section Steps.
Context {R : state -> state -> Prop} {F : Frame R}.

Lemma steps_ret {A} (a : A) : steps R (ret a).
Proof. intros s. apply frame_refl. Qed.

Lemma steps_throw {A} (e : exn) : steps R (@throw A e).
Proof. intros s. apply frame_refl. Qed.

Lemma steps_lift {A} (r : result A) : steps R (lift r).
Proof. intros s. apply frame_refl. Qed.

Lemma steps_gets {A} (f : state -> A) : steps R (gets f).
Proof. intros s. apply frame_refl. Qed.

Lemma steps_get_config (prop : string) : steps R (get_config prop).
Proof. intros s. unfold get_config. destruct (config s); apply frame_refl. Qed.

Lemma steps_get_pageDetails (prop : string) : steps R (get_pageDetails prop).
Proof. intros s. unfold get_pageDetails. destruct (pageDetails s); apply frame_refl. Qed.

Lemma steps_find_auction (id : value) : steps R (find_auction id).
Proof. intros s. apply frame_refl. Qed.

Lemma steps_get_auction (id : value) (prop : string) : steps R (get_auction id prop).
Proof.
  intros s. unfold get_auction.
  destruct (oget (ToString id) (auctions s)); apply frame_refl.
Qed.

(** The state-wise rule for a sequence: the continuation only has to be
    followed from what the first part returned. *)
Lemma step_bind {A B} (m : M A) (k : A -> M B) (s : state) :
  R s (snd (m s)) ->
  (forall a s', m s = (Ok a, s') -> R s' (snd (k a s'))) ->
  R s (snd (bind m k s)).
Proof.
  intros Hm Hk. unfold bind. destruct (m s) as [[a|e] s'] eqn:Hms; simpl in *.
  - eapply frame_trans; [exact Hm|]. apply Hk. reflexivity.
  - exact Hm.
Qed.

Lemma steps_bind {A B} (m : M A) (k : A -> M B) :
  steps R m -> (forall a, steps R (k a)) -> steps R (bind m k).
Proof.
  intros Hm Hk s. apply step_bind; [apply Hm|]. intros a s' _. apply Hk.
Qed.

Lemma steps_try_catch {A} (m : M A) (h : exn -> M A) :
  steps R m -> (forall e, steps R (h e)) -> steps R (try_catch m h).
Proof.
  intros Hm Hh s. unfold try_catch. specialize (Hm s).
  destruct (m s) as [[a|e] s']; simpl in *; [exact Hm|].
  eapply frame_trans; [exact Hm|apply Hh].
Qed.

Lemma steps_forEach {A} (l : list A) (f : A -> M unit) :
  (forall x, steps R (f x)) -> steps R (forEach l f).
Proof.
  intros Hf. induction l as [|x tl IH]; simpl.
  - apply steps_ret.
  - apply steps_bind; [apply Hf|intros _; exact IH].
Qed.

Lemma steps_foldM {A B} (f : B -> A -> M B) (l : list A) (b : B) :
  (forall b x, steps R (f b x)) -> steps R (foldM f l b).
Proof.
  intros Hf. revert b. induction l as [|x tl IH]; intros b; simpl.
  - apply steps_ret.
  - apply steps_bind; [apply Hf|intros b'; apply IH].
Qed.

Lemma steps_modify (f : state -> state) :
  (forall s, R s (f s)) -> steps R (modify f).
Proof. intros Hf s. apply Hf. Qed.

Lemma steps_modify_config (prop : string) (f : Configure -> Configure) :
  (forall s c, config s = Some c -> R s (set_config (Some (f c)) s)) ->
  steps R (modify_config prop f).
Proof.
  intros Hf s. unfold modify_config. destruct (config s) as [c|] eqn:Hc; simpl.
  - apply Hf. exact Hc.
  - apply frame_refl.
Qed.

Lemma steps_modify_auction (id : value) (prop : string) (f : Auction -> Auction) :
  (forall s a, oget (ToString id) (auctions s) = Some a ->
               R s (set_auctions (oset (ToString id) (f a) (auctions s)) s)) ->
  steps R (modify_auction id prop f).
Proof.
  intros Hf s. unfold modify_auction.
  destruct (oget (ToString id) (auctions s)) as [a|] eqn:Ha; simpl.
  - apply Hf. exact Ha.
  - apply frame_refl.
Qed.

End Steps.

(** Decomposes a goal [steps R m] along the structure of [m], down to
    the calls of functions and the writes. *)
Ltac steps_structure :=
  repeat match goal with
    | |- steps _ (ret _) => apply steps_ret
    | |- steps _ (throw _) => apply steps_throw
    | |- steps _ (lift _) => apply steps_lift
    | |- steps _ (gets _) => apply steps_gets
    | |- steps _ (get_config _) => apply steps_get_config
    | |- steps _ (get_pageDetails _) => apply steps_get_pageDetails
    | |- steps _ (find_auction _) => apply steps_find_auction
    | |- steps _ (get_auction _ _) => apply steps_get_auction
    | |- steps _ (auction_undefined _) => unfold auction_undefined
    | |- steps _ (write_auction _ _ _) => unfold write_auction
    | |- steps _ (bind _ _) => apply steps_bind; [|intros ?]
    | |- steps _ (try_catch _ _) => apply steps_try_catch; [|intros ?]
    | |- steps _ (forEach _ _) => apply steps_forEach; intros ?
    | |- steps _ (foldM _ _ _) => apply steps_foldM; intros ? ?
    | |- steps _ (if ?b then _ else _) => destruct b
    | |- steps _ (match ?x with _ => _ end) => destruct x
    | |- steps _ (let _ := _ in _) => cbv zeta
    end.

(** *** C5: fireAuctionLog and formatQS *)

(** The two queues and the pixels are as before. *)
Definition queues_same (s s' : state) : Prop :=
  logsQueue s' = logsQueue s /\ errorQueue s' = errorQueue s /\ pixels s' = pixels s.

#[local] Instance queues_same_frame : Frame queues_same.
Proof.
  split.
  - intros s. repeat split.
  - intros a b c (H1 & H2 & H3) (H4 & H5 & H6). repeat split; congruence.
Qed.

Lemma queues_modify_auction (id : value) (prop : string) (f : Auction -> Auction) :
  steps queues_same (modify_auction id prop f).
Proof. apply steps_modify_auction. intros s a _. repeat split. Qed.

Lemma queues_modify_config (prop : string) (f : Configure -> Configure) :
  steps queues_same (modify_config prop f).
Proof. apply steps_modify_config. intros s a _. repeat split. Qed.

Lemma queues_get_adSlot (acid adtag : value) (prop : string) :
  steps queues_same (get_adSlot acid adtag prop).
Proof. unfold get_adSlot. steps_structure. Qed.

Lemma queues_getCommonLoggingData (acid adtag : value) :
  steps queues_same (getCommonLoggingData acid adtag).
Proof.
  unfold getCommonLoggingData, PageDetail_getLoggingData.
  steps_structure; apply queues_get_adSlot.
Qed.

Lemma queues_getLoggingBids (acid adtag : value) :
  steps queues_same (getLoggingBids acid adtag).
Proof.
  unfold getLoggingBids, getResponseSizeMap, getDummyBids.
  steps_structure; apply queues_modify_auction.
Qed.

Lemma queues_auctionLog_telemetry (acid adtag : value) (logType : string) (adId : value) :
  steps queues_same (auctionLog_telemetry acid adtag logType adId).
Proof.
  unfold auctionLog_telemetry.
  steps_structure;
    first [apply queues_getCommonLoggingData | apply queues_getLoggingBids].
Qed.

Lemma telemetry_qs_formula (t : telemetry) :
  telemetry_qs t =
  formatQS (commonParams t) ++ "&"
    ++ String.concat "" (map (fun bp => formatQS bp ++ "&") (bidParams t))
    ++ formatQS [("targ", targ t)].
Proof.
  unfold telemetry_qs.
  assert (Hfold : forall l init,
             fold_left (fun url bp => url ++ formatQS bp ++ "&") l init
             = init ++ String.concat "" (map (fun bp => formatQS bp ++ "&") l)).
  { induction l as [|bp tl IH]; intros init.
    - simpl. rewrite append_nil_r. reflexivity.
    - cbn [fold_left map]. rewrite IH.
      destruct tl as [|bp' tl'].
      + simpl. rewrite append_nil_r. reflexivity.
      + cbn [String.concat map]. rewrite !append_assoc. reflexivity. }
  rewrite Hfold, !append_assoc. reflexivity.
Qed.

(** [getCommonLoggingData] reads: it leaves the state as it is, and it
    returns when [config], [pageDetails], the auction and the ad slot are
    there. *)
Definition unchanged (s s' : state) : Prop := s' = s.

#[local] Instance unchanged_frame : Frame unchanged.
Proof. split; unfold unchanged; intros; congruence. Qed.

Lemma getCommonLoggingData_reads (acid adtag : value) (s : state) :
  snd (getCommonLoggingData acid adtag s) = s.
Proof.
  revert s. change (steps unchanged (getCommonLoggingData acid adtag)).
  unfold getCommonLoggingData, PageDetail_getLoggingData, get_adSlot.
  steps_structure.
Qed.

Lemma getCommonLoggingData_returns (acid adtag : value) (s : state)
    (c : Configure) (pd : PageDetail) (a : Auction) (slot : AdSlot) :
  config s = Some c -> pageDetails s = Some pd ->
  oget (ToString acid) (auctions s) = Some a ->
  oget (ToString adtag) (adSlots a) = Some slot ->
  exists common, getCommonLoggingData acid adtag s = (Ok common, s).
Proof.
  intros Hc Hpd Ha Hslot.
  unfold getCommonLoggingData, PageDetail_getLoggingData, get_adSlot, bind,
    get_pageDetails, get_config, get_auction, ret.
  rewrite Hpd. cbv beta iota. rewrite Hc. cbv beta iota. rewrite Hc. cbv beta iota.
  rewrite Ha. cbv beta iota. rewrite Hslot. cbv beta iota. rewrite Ha.
  eexists. reflexivity.
Qed.

(** The winning bid of an RA log: the bid object with the ad id. *)
Definition winning_bid (s : state) (acid adId : value) : option Bid :=
  match oget (ToString acid) (auctions s) with
  | Some a => findBidObj a "adId" adId
  | None => None
  end.

(** [fireAuctionLog] returns early, with no telemetry, only for an RA log
    whose ad id has no bid object. *)
Lemma auctionLog_telemetry_early
    (acid adtag : value) (logType : string) (adId : value) (st s1 : state) :
  auctionLog_telemetry acid adtag logType adId st = (Ok None, s1) ->
  String.eqb logType LOG_TYPE_RA = true /\ winning_bid st acid adId = None.
Proof.
  unfold auctionLog_telemetry. unfold bind at 1.
  pose proof (getCommonLoggingData_reads acid adtag st) as Hs.
  destruct (getCommonLoggingData acid adtag st) as [[common|e] s0];
    cbn [snd] in Hs; subst s0; [|discriminate].
  cbv zeta. unfold bind at 1.
  destruct (String.eqb logType LOG_TYPE_RA).
  - unfold bind at 1. unfold get_auction, winning_bid.
    destruct (oget (ToString acid) (auctions st)) as [a|]; [|discriminate].
    destruct (findBidObj a "adId" adId) as [w|]; [|auto].
    unfold bind, lift. destruct (Bid_getLoggingData w); discriminate.
  - unfold bind at 1.
    destruct (getLoggingBids acid adtag st) as [[bids|e] s2]; [|discriminate].
    unfold bind at 1. unfold lift.
    destruct (rmap Bid_getLoggingData bids); discriminate.
Qed.

(** An RA log whose ad id has no bid object has no telemetry. *)
Lemma auctionLog_telemetry_no_winner
    (acid adtag : value) (logType : string) (adId : value) (st : state)
    (t : telemetry) :
  String.eqb logType LOG_TYPE_RA = true -> winning_bid st acid adId = None ->
  fst (auctionLog_telemetry acid adtag logType adId st) <> Ok (Some t).
Proof.
  intros Hra Hnone. unfold auctionLog_telemetry. unfold bind at 1.
  pose proof (getCommonLoggingData_reads acid adtag st) as Hs.
  destruct (getCommonLoggingData acid adtag st) as [[common|e] s0];
    cbn [snd] in Hs; subst s0; [|discriminate].
  cbv zeta. unfold bind at 1. rewrite Hra.
  unfold bind at 1. unfold get_auction. unfold winning_bid in Hnone.
  destruct (oget (ToString acid) (auctions st)) as [a|]; [|discriminate].
  rewrite Hnone. discriminate.
Qed.

(** [fireAuctionLog] returns when the data it logs is there: for an RA
    log the winning bid and its logging data, for another log the bids of
    [getLoggingBids] and their logging data. *)
Lemma fireAuctionLog_returns
    (acid adtag : value) (logType : string) (adId : value) (st : state)
    (c : Configure) (pd : PageDetail) (a : Auction) (slot : AdSlot) :
  config st = Some c -> pageDetails st = Some pd ->
  oget (ToString acid) (auctions st) = Some a ->
  oget (ToString adtag) (adSlots a) = Some slot ->
  (String.eqb logType LOG_TYPE_RA = true
   /\ exists w params, findBidObj a "adId" adId = Some w
                       /\ Bid_getLoggingData w = Ok params)
  \/ (String.eqb logType LOG_TYPE_RA = false
      /\ exists bids s1 params,
           getLoggingBids acid adtag st = (Ok bids, s1)
           /\ rmap Bid_getLoggingData bids = Ok params) ->
  fst (fireAuctionLog acid adtag logType adId st) = Ok tt.
Proof.
  intros Hc Hpd Ha Hslot Hdata.
  destruct (getCommonLoggingData_returns acid adtag st c pd a slot Hc Hpd Ha Hslot)
    as [common Hcommon].
  unfold fireAuctionLog. unfold bind at 1. unfold auctionLog_telemetry.
  unfold bind at 1. rewrite Hcommon. cbv zeta. unfold bind at 1.
  destruct Hdata as [(Hra & w & params & Hw & Hparams)
                    |(Hra & bids & s1 & params & Hbids & Hparams)]; rewrite Hra.
  - unfold bind at 1. unfold get_auction. rewrite Ha, Hw.
    unfold bind at 1. unfold lift. rewrite Hparams. reflexivity.
  - unfold bind at 1. rewrite Hbids. unfold bind at 1. unfold lift.
    rewrite Hparams. reflexivity.
Qed.

(** What [fireAuctionLog] does to the queues, by its telemetry. *)
Lemma fireAuctionLog_by_telemetry
    (acid adtag : value) (logType : string) (adId : value) (st : state) :
  match fst (auctionLog_telemetry acid adtag logType adId st) with
  | Ok (Some t) =>
      fst (fireAuctionLog acid adtag logType adId st) = Ok tt
      /\ logsQueue (snd (fireAuctionLog acid adtag logType adId st))
         = (logsQueue st ++ [(ENDPOINT ++ "&" ++ telemetry_qs t)%string])%list
      /\ pixels (snd (fireAuctionLog acid adtag logType adId st))
         = (pixels st ++ [(ENDPOINT ++ "&" ++ telemetry_qs t)%string])%list
  | Ok None =>
      fst (fireAuctionLog acid adtag logType adId st) = Ok tt
      /\ logsQueue (snd (fireAuctionLog acid adtag logType adId st)) = logsQueue st
      /\ pixels (snd (fireAuctionLog acid adtag logType adId st)) = pixels st
  | Throw e =>
      fst (fireAuctionLog acid adtag logType adId st) = Throw e
      /\ logsQueue (snd (fireAuctionLog acid adtag logType adId st)) = logsQueue st
      /\ pixels (snd (fireAuctionLog acid adtag logType adId st)) = pixels st
  end
  /\ errorQueue (snd (fireAuctionLog acid adtag logType adId st)) = errorQueue st.
Proof.
  pose proof (queues_auctionLog_telemetry acid adtag logType adId st)
    as (Hl & He & Hp).
  unfold fireAuctionLog, bind.
  destruct (auctionLog_telemetry acid adtag logType adId st) as [[[t|]|e] s1];
    cbn [fst snd] in *.
  - unfold firePixel, bind, modify, triggerPixel. cbn. rewrite Hl, Hp. auto.
  - auto.
  - auto.
Qed.

(** What [fireAuctionLog] does to the queues. *)
Lemma fireAuctionLog_queues
    (acid adtag : value) (logType : string) (adId : value) (st : state) :
  ((logsQueue (snd (fireAuctionLog acid adtag logType adId st)) = logsQueue st
    /\ pixels (snd (fireAuctionLog acid adtag logType adId st)) = pixels st)
   \/ (exists t : telemetry,
         fst (auctionLog_telemetry acid adtag logType adId st) = Ok (Some t)
         /\ fst (fireAuctionLog acid adtag logType adId st) = Ok tt
         /\ logsQueue (snd (fireAuctionLog acid adtag logType adId st))
            = (logsQueue st ++ [(ENDPOINT ++ "&" ++ telemetry_qs t)%string])%list
         /\ pixels (snd (fireAuctionLog acid adtag logType adId st))
            = (pixels st ++ [(ENDPOINT ++ "&" ++ telemetry_qs t)%string])%list))
  /\ errorQueue (snd (fireAuctionLog acid adtag logType adId st)) = errorQueue st.
Proof.
  pose proof (queues_auctionLog_telemetry acid adtag logType adId st)
    as (Hl & He & Hp).
  unfold fireAuctionLog, bind.
  destruct (auctionLog_telemetry acid adtag logType adId st) as [[[t|]|e] s1];
    simpl in Hl, He, Hp.
  - split; [right; exists t|].
    + unfold firePixel, bind, modify, triggerPixel. simpl.
      rewrite Hl, Hp. auto.
    + unfold firePixel, bind, modify, triggerPixel. simpl. exact He.
  - split; [left; simpl; auto|simpl; exact He].
  - split; [left; simpl; auto|simpl; exact He].
Qed.

(** C5: a run of [fireAuctionLog] fires an auction log exactly when it
    returns and is not a winning-bid (RA) log for an ad id without a bid
    object; and it returns when [config], [pageDetails], the auction and
    the ad slot are there and the logging data of the bids is made without
    an exception.  A log fired appends exactly one URL to [logsQueue], and
    triggers it as a pixel; a run that throws, or that returns early, leaves
    [logsQueue] and the pixels as they were; [errorQueue] is untouched in
    every case.  The URL is [ENDPOINT], an ampersand, and the telemetry
    serialized by [formatQS]: the common parameters, each bid's parameters
    and the targeting, each followed by an ampersand but the last.
    [formatQS] joins with ampersands one [key=value] per key: nothing after
    the [=] for [undefined], the URI-encoded [JSON.stringify] of a plain
    object, the URI-encoded string of any other value. *)
Theorem fireAuctionLog_appends_one_url
    (acid adtag : value) (logType : string) (adId : value) (st : state) :
  let run := fireAuctionLog acid adtag logType adId st in
  (forall c pd a slot,
     config st = Some c -> pageDetails st = Some pd ->
     oget (ToString acid) (auctions st) = Some a ->
     oget (ToString adtag) (adSlots a) = Some slot ->
     (String.eqb logType LOG_TYPE_RA = true
      /\ exists w params, findBidObj a "adId" adId = Some w
                          /\ Bid_getLoggingData w = Ok params)
     \/ (String.eqb logType LOG_TYPE_RA = false
         /\ exists bids s1 params,
              getLoggingBids acid adtag st = (Ok bids, s1)
              /\ rmap Bid_getLoggingData bids = Ok params) ->
     fst run = Ok tt)
  /\ (fst run = Ok tt ->
      String.eqb logType LOG_TYPE_RA = false
      \/ (exists w, winning_bid st acid adId = Some w) ->
      exists t : telemetry,
        fst (auctionLog_telemetry acid adtag logType adId st) = Ok (Some t)
        /\ logsQueue (snd run)
           = (logsQueue st ++ [(ENDPOINT ++ "&" ++ telemetry_qs t)%string])%list
        /\ pixels (snd run)
           = (pixels st ++ [(ENDPOINT ++ "&" ++ telemetry_qs t)%string])%list)
  /\ ((exists e, fst run = Throw e)
      \/ (String.eqb logType LOG_TYPE_RA = true /\ winning_bid st acid adId = None) ->
      logsQueue (snd run) = logsQueue st /\ pixels (snd run) = pixels st)
  /\ errorQueue (snd run) = errorQueue st
  /\ (forall t, telemetry_qs t =
                formatQS (commonParams t) ++ "&"
                  ++ String.concat "" (map (fun bp => formatQS bp ++ "&") (bidParams t))
                  ++ formatQS [("targ", targ t)])
  /\ (forall data,
        formatQS data
        = Str.join "&" (map (fun kv => formatQS_pair (snd kv) (fst kv)) data))
  /\ (forall key, formatQS_pair VUndef key = key ++ "=")
  /\ (forall key fields,
        formatQS_pair (VObj fields) key
        = key ++ "=" ++ Str.encodeURIComponent
                          (ToString (JSON_stringify_value (VObj fields))))
  /\ (forall key v,
        is_undefined v = false -> Utils.isPlainObject v = false ->
        formatQS_pair v key = key ++ "=" ++ Str.encodeURIComponent (ToString v)).
Proof.
  intros run. subst run.
  destruct (fireAuctionLog_by_telemetry acid adtag logType adId st) as [Hq He].
  split; [intros c pd a slot; apply fireAuctionLog_returns|].
  split.
  { intros Hret Hfires.
    destruct (auctionLog_telemetry acid adtag logType adId st) as [[[t|]|e] s1] eqn:Ht;
      cbn [fst] in Hq.
    - exists t. split; [reflexivity|]. destruct Hq as (_ & Hl & Hp). auto.
    - apply auctionLog_telemetry_early in Ht as [Hra Hnone].
      destruct Hfires as [Hnot|[w Hw]]; congruence.
    - destruct Hq as (Hthrow & _). congruence. }
  split.
  { intros Hnot.
    destruct (auctionLog_telemetry acid adtag logType adId st) as [[[t|]|e] s1] eqn:Ht;
      cbn [fst] in Hq.
    - exfalso. destruct Hnot as [[e Hthrow]|[Hra Hnone]].
      + destruct Hq as (Hret & _). congruence.
      + apply (auctionLog_telemetry_no_winner acid adtag logType adId st t Hra Hnone).
        rewrite Ht. reflexivity.
    - destruct Hq as (_ & Hl & Hp). auto.
    - destruct Hq as (_ & Hl & Hp). auto. }
  split; [exact He|].
  split; [apply telemetry_qs_formula|].
  split; [reflexivity|]. split; [reflexivity|]. split; [reflexivity|].
  intros key v Hu Hpl. unfold formatQS_pair. rewrite Hu, Hpl. reflexivity.
Qed.

(** *** C4: auctionInitHandler *)

(** What identifies an auction entry: its id, status and init time. *)
Definition core_same (a a' : Auction) : Prop :=
  acid a' = acid a /\ status a' = status a
  /\ auctionInitTime a' = auctionInitTime a.

(** The entry under [key] is kept, with its id, status and init time,
    there is no entry where there was none, and the other entries are
    untouched. *)
Definition entry_kept (key : string) (s s' : state) : Prop :=
  List.length (auctions s') = List.length (auctions s)
  /\ (forall k, k <> key -> oget k (auctions s') = oget k (auctions s))
  /\ match oget key (auctions s), oget key (auctions s') with
     | Some a, Some a' => core_same a a'
     | None, None => True
     | _, _ => False
     end.

#[local] Instance entry_kept_frame (key : string) : Frame (entry_kept key).
Proof.
  split.
  - intros s. split; [reflexivity|]. split; [reflexivity|].
    destruct (oget key (auctions s)); [repeat split|exact I].
  - intros a b c (Hl1 & Ho1 & Hk1) (Hl2 & Ho2 & Hk2).
    split; [congruence|]. split.
    + intros k Hk. rewrite (Ho2 k Hk). apply Ho1. exact Hk.
    + destruct (oget key (auctions a)), (oget key (auctions b)),
        (oget key (auctions c)); try contradiction; try exact I.
      destruct Hk1 as (? & ? & ?), Hk2 as (? & ? & ?). repeat split; congruence.
Qed.








(** *** What no event undoes

    Along the events the adapter tracks, an auction and its ad slots stay,
    a log type a slot has logged stays logged, a bid request stays at its
    place with its [bidId] and, once used, stays used, and a sampling
    decision cached in [config.shouldBeLogged] stays as it is. *)

Definition is_logged (slot : AdSlot) (t : string) : bool :=
  match oget t (logged slot) with
  | Some b => b
  | None => false
  end.

Definition slot_mono (s s' : AdSlot) : Prop :=
  forall t, is_logged s t = true -> is_logged s' t = true.

Definition slots_mono (o o' : obj AdSlot) : Prop :=
  forall k s, oget k o = Some s -> exists s', oget k o' = Some s' /\ slot_mono s s'.

Definition req_mono (b b' : Bid) : Prop :=
  bget b' "bidId" = bget b "bidId"
  /\ (truthy (bget b "used") = true -> truthy (bget b' "used") = true).

Definition reqs_mono (l l' : list Bid) : Prop :=
  exists l1 ext, l' = (l1 ++ ext)%list /\ Forall2 req_mono l l1.

Definition auction_mono (a a' : Auction) : Prop :=
  slots_mono (adSlots a) (adSlots a') /\ reqs_mono (bidReqs a) (bidReqs a').

Definition auctions_mono (o o' : obj Auction) : Prop :=
  forall k a, oget k o = Some a -> exists a', oget k o' = Some a' /\ auction_mono a a'.

Definition cache_mono (c c' : option Configure) : Prop :=
  forall x, c = Some x ->
  exists x', c' = Some x'
             /\ forall t b, oget t (shouldBeLogged x) = Some b ->
                            oget t (shouldBeLogged x') = Some b.

Definition grows (s s' : state) : Prop :=
  auctions_mono (auctions s) (auctions s') /\ cache_mono (config s) (config s').

Lemma Forall2_same {A} (R : A -> A -> Prop) (l : list A) :
  (forall x, R x x) -> Forall2 R l l.
Proof. intros HR. induction l; constructor; auto. Qed.

Lemma Forall2_compose {A} (R : A -> A -> Prop) (l1 l2 l3 : list A) :
  (forall x y z, R x y -> R y z -> R x z) ->
  Forall2 R l1 l2 -> Forall2 R l2 l3 -> Forall2 R l1 l3.
Proof.
  intros HR H12. revert l3. induction H12 as [|x y l1 l2 Hxy _ IH]; intros l3 H23.
  - inversion H23. constructor.
  - inversion H23 as [|? z ? l3' Hyz H23']; subst. constructor; eauto.
Qed.

Lemma slot_mono_refl (s : AdSlot) : slot_mono s s.
Proof. intros t Ht. exact Ht. Qed.

Lemma slots_mono_refl (o : obj AdSlot) : slots_mono o o.
Proof. intros k s Hs. exists s. split; [exact Hs|apply slot_mono_refl]. Qed.

Lemma slots_mono_trans (a b c : obj AdSlot) :
  slots_mono a b -> slots_mono b c -> slots_mono a c.
Proof.
  intros Hab Hbc k s Hs.
  destruct (Hab k s Hs) as (s1 & Hs1 & Hm1).
  destruct (Hbc k s1 Hs1) as (s2 & Hs2 & Hm2).
  exists s2. split; [exact Hs2|]. intros t Ht. apply Hm2, Hm1, Ht.
Qed.

Lemma req_mono_refl (b : Bid) : req_mono b b.
Proof. split; auto. Qed.

Lemma req_mono_trans (a b c : Bid) : req_mono a b -> req_mono b c -> req_mono a c.
Proof. intros [H1 H2] [H3 H4]. split; [congruence|auto]. Qed.

Lemma reqs_mono_refl (l : list Bid) : reqs_mono l l.
Proof.
  exists l, []. split; [rewrite app_nil_r; reflexivity|].
  apply Forall2_same, req_mono_refl.
Qed.

Lemma reqs_mono_trans (a b c : list Bid) :
  reqs_mono a b -> reqs_mono b c -> reqs_mono a c.
Proof.
  intros (l1 & e1 & -> & H1) (l2 & e2 & -> & H2).
  apply Forall2_app_inv_l in H2 as (l2a & l2b & H2a & H2b & ->).
  exists l2a, (l2b ++ e2)%list. split; [rewrite app_assoc; reflexivity|].
  eapply Forall2_compose; [apply req_mono_trans|exact H1|exact H2a].
Qed.

Lemma auction_mono_refl (a : Auction) : auction_mono a a.
Proof. split; [apply slots_mono_refl|apply reqs_mono_refl]. Qed.

Lemma auction_mono_trans (a b c : Auction) :
  auction_mono a b -> auction_mono b c -> auction_mono a c.
Proof.
  intros [H1 H2] [H3 H4].
  split; [eapply slots_mono_trans|eapply reqs_mono_trans]; eassumption.
Qed.

#[local] Instance grows_frame : Frame grows.
Proof.
  split.
  - intros s. split.
    + intros k a Ha. exists a. split; [exact Ha|apply auction_mono_refl].
    + intros x Hx. exists x. split; [exact Hx|auto].
  - intros a b c [Ha1 Hc1] [Ha2 Hc2]. split.
    + intros k x Hx. destruct (Ha1 k x Hx) as (y & Hy & Hxy).
      destruct (Ha2 k y Hy) as (z & Hz & Hyz).
      exists z. split; [exact Hz|eapply auction_mono_trans; eassumption].
    + intros x Hx. destruct (Hc1 x Hx) as (y & Hy & Hxy).
      destruct (Hc2 y Hy) as (z & Hz & Hyz).
      exists z. split; [exact Hz|auto].
Qed.

(** A write that touches neither [auctions] nor [config]. *)
Lemma grows_untouched (s s' : state) :
  auctions s' = auctions s -> config s' = config s -> grows s s'.
Proof. intros Ha Hc. unfold grows. rewrite Ha, Hc. apply (frame_refl (R := grows)). Qed.

Lemma grows_modify_auction (id : value) (prop : string) (f : Auction -> Auction) :
  (forall a, auction_mono a (f a)) -> steps grows (modify_auction id prop f).
Proof.
  intros Hf. apply steps_modify_auction. intros s a Ha. split.
  - cbn [auctions set_auctions]. intros k x Hx.
    destruct (String.eqb_spec k (ToString id)) as [->|Hne].
    + rewrite oget_oset_same. exists (f a). split; [reflexivity|].
      rewrite Ha in Hx. injection Hx as <-. apply Hf.
    + rewrite (oget_oset_other _ _ _ _ Hne). exists x.
      split; [exact Hx|apply auction_mono_refl].
  - cbn [config set_auctions]. intros x Hx. exists x. split; [exact Hx|auto].
Qed.

Lemma grows_modify_config (prop : string) (f : Configure -> Configure) :
  (forall c, shouldBeLogged (f c) = shouldBeLogged c) ->
  steps grows (modify_config prop f).
Proof.
  intros Hf. apply steps_modify_config. intros s c Hc. split.
  - cbn [auctions set_config]. intros k a Ha. exists a.
    split; [exact Ha|apply auction_mono_refl].
  - cbn [config set_config]. intros x Hx. exists (f c). split; [reflexivity|].
    rewrite Hf. rewrite Hc in Hx. injection Hx as <-. auto.
Qed.

(** The updates of an auction the handlers make. *)
Lemma auction_mono_same_parts (a a' : Auction) :
  adSlots a' = adSlots a -> bidReqs a' = bidReqs a -> auction_mono a a'.
Proof. intros H1 H2. unfold auction_mono. rewrite H1, H2. apply auction_mono_refl. Qed.

Lemma auction_mono_addBid (b : Bid) (a : Auction) : auction_mono a (addBid b a).
Proof.
  split; [apply slots_mono_refl|].
  exists (bidReqs a), [b]. split; [reflexivity|].
  apply Forall2_same, req_mono_refl.
Qed.

Lemma req_mono_used (b : Bid) : req_mono b (oset "used" (VBool true) b).
Proof.
  unfold req_mono, bget, get. split.
  - rewrite oget_oset_other; [reflexivity|discriminate].
  - intros _. rewrite oget_oset_same. reflexivity.
Qed.

Lemma Forall2_update_first {A} (R : A -> A -> Prop) (p : A -> bool) (f : A -> A)
    (l : list A) :
  (forall x, R x x) -> (forall x, R x (f x)) -> Forall2 R l (update_first p f l).
Proof.
  intros Hrefl Hf. induction l as [|x tl IH]; simpl; [constructor|].
  destruct (p x); constructor; auto. apply Forall2_same, Hrefl.
Qed.

Lemma auction_mono_addBidObj (instance : bool) (b : obj value) (a : Auction) :
  auction_mono a (addBidObj instance b a).
Proof.
  split; [apply slots_mono_refl|].
  unfold addBidObj. cbn [bidReqs set_bidObjs set_bidReqs].
  eexists _, []. split; [rewrite app_nil_r; reflexivity|].
  apply Forall2_update_first; [apply req_mono_refl|apply req_mono_used].
Qed.

Lemma auction_mono_update_slot (k : string) (f : AdSlot -> AdSlot) (a : Auction) :
  (forall slot, slot_mono slot (f slot)) -> auction_mono a (update_slot k f a).
Proof.
  intros Hf. unfold update_slot.
  destruct (oget k (adSlots a)) as [slot|] eqn:Hslot; [|apply auction_mono_refl].
  split; [|apply reqs_mono_refl]. cbn [adSlots set_adSlots].
  intros k' x Hx. destruct (String.eqb_spec k' k) as [->|Hne].
  - rewrite oget_oset_same. exists (f slot). split; [reflexivity|].
    rewrite Hslot in Hx. injection Hx as <-. apply Hf.
  - rewrite (oget_oset_other _ _ _ _ Hne). exists x.
    split; [exact Hx|apply slot_mono_refl].
Qed.

Lemma slot_mono_set_logged (t : string) (slot : AdSlot) :
  slot_mono slot (set_logged (oset t true (logged slot)) slot).
Proof.
  intros t' Ht'. unfold is_logged in *. cbn [logged set_logged].
  destruct (String.eqb_spec t' t) as [->|Hne].
  - rewrite oget_oset_same. reflexivity.
  - rewrite (oget_oset_other _ _ _ _ Hne). exact Ht'.
Qed.

Create HintDb grows discriminated.

#[local] Hint Resolve auction_mono_addBid auction_mono_addBidObj
  slot_mono_set_logged : grows.
#[local] Hint Extern 1 (steps grows (modify_auction _ _ _)) =>
  apply grows_modify_auction; intros : grows.
#[local] Hint Extern 1 (auction_mono _ (update_slot _ _ _)) =>
  apply auction_mono_update_slot; intros : grows.
#[local] Hint Extern 3 (auction_mono _ _) =>
  apply auction_mono_same_parts; reflexivity : grows.
#[local] Hint Extern 3 (slot_mono _ _) => (intros ? ?; assumption) : grows.
#[local] Hint Extern 1 (steps grows (modify_config _ _)) =>
  apply grows_modify_config; intros; reflexivity : grows.
#[local] Hint Extern 1 (steps grows (modify _)) =>
  apply steps_modify; intros; apply grows_untouched; reflexivity : grows.

(** Decomposes the code and closes what remains with the lemmas on the
    writes and on the functions called. *)
Ltac grows_steps := steps_structure; auto with grows.

Lemma grows_Date_now : steps grows Date_now_read.
Proof. intros s. apply grows_untouched; reflexivity. Qed.

Lemma grows_Math_random : steps grows Math_random_draw.
Proof. intros s. apply grows_untouched; reflexivity. Qed.

Lemma grows_logError (msg : string) : steps grows (logError msg).
Proof. unfold logError. grows_steps. Qed.

Lemma grows_logInfo (a b : value) : steps grows (logInfo a b).
Proof. unfold logInfo. grows_steps. Qed.

Lemma grows_triggerPixel (url : string) : steps grows (triggerPixel url).
Proof. unfold triggerPixel. grows_steps. Qed.

#[local] Hint Resolve grows_Date_now grows_Math_random grows_logError
  grows_logInfo grows_triggerPixel : grows.

Lemma grows_firePixel (qs : string) : steps grows (firePixel qs).
Proof. unfold firePixel. grows_steps. Qed.

Lemma grows_ErrorLogger (event : string) (data : value) :
  steps grows (ErrorLogger event data).
Proof. unfold ErrorLogger. grows_steps. Qed.

Lemma grows_ErrorLogger_send (this : obj value) : steps grows (ErrorLogger_send this).
Proof. unfold ErrorLogger_send. grows_steps. Qed.

Lemma grows_exchangeCurrency (price fromCurrency toCurrency : value) :
  steps grows (exchangeCurrency price fromCurrency toCurrency).
Proof. unfold exchangeCurrency. grows_steps. Qed.

#[local] Hint Resolve grows_firePixel grows_ErrorLogger grows_ErrorLogger_send
  grows_exchangeCurrency : grows.

(** A key that is new to a map takes nothing from it. *)
Lemma slots_mono_new (k : string) (slot : AdSlot) (o : obj AdSlot) :
  oget k o = None -> slots_mono o (oset k slot o).
Proof.
  intros Hnone k' x Hx. destruct (String.eqb_spec k' k) as [->|Hne].
  - congruence.
  - rewrite (oget_oset_other _ _ _ _ Hne). exists x.
    split; [exact Hx|apply slot_mono_refl].
Qed.

Lemma grows_new_auction (key : string) (a : Auction) (s : state) :
  oget key (auctions s) = None ->
  grows s (set_auctions (oset key a (auctions s)) s).
Proof.
  intros Hnone. split.
  - cbn [auctions set_auctions]. intros k x Hx.
    destruct (String.eqb_spec k key) as [->|Hne]; [congruence|].
    rewrite (oget_oset_other _ _ _ _ Hne). exists x.
    split; [exact Hx|apply auction_mono_refl].
  - cbn [config set_auctions]. intros x Hx. exists x. split; [exact Hx|auto].
Qed.

(** The state-wise rule for an update of [auctions[id]]. *)
Lemma grows_modify_auction_at (id : value) (prop : string) (f : Auction -> Auction)
    (s : state) :
  (forall a, oget (ToString id) (auctions s) = Some a -> auction_mono a (f a)) ->
  grows s (snd (modify_auction id prop f s)).
Proof.
  intros Hf. unfold modify_auction.
  destruct (oget (ToString id) (auctions s)) as [a|] eqn:Ha;
    [|apply (frame_refl (R := grows))].
  cbn [snd]. split.
  - cbn [auctions set_auctions]. intros k x Hx.
    destruct (String.eqb_spec k (ToString id)) as [->|Hne].
    + rewrite oget_oset_same. exists (f a). split; [reflexivity|].
      rewrite Ha in Hx. injection Hx as <-. apply Hf. reflexivity.
    + rewrite (oget_oset_other _ _ _ _ Hne). exists x.
      split; [exact Hx|apply auction_mono_refl].
  - cbn [config set_auctions]. intros x Hx. exists x. split; [exact Hx|auto].
Qed.

Lemma get_auction_inv (id : value) (prop : string) (s s' : state) (a : Auction) :
  get_auction id prop s = (Ok a, s') ->
  s' = s /\ oget (ToString id) (auctions s) = Some a.
Proof.
  unfold get_auction. destruct (oget (ToString id) (auctions s)) as [a'|];
    intros Hg; inversion Hg; subst; auto.
Qed.

Lemma grows_addSlot (id : value) (adUnitCode : string)
    (supplyAdCode mediaTypes allMediaTypeSizes tmax adext context : value) :
  steps grows (addSlot id adUnitCode supplyAdCode mediaTypes allMediaTypeSizes
                       tmax adext context).
Proof.
  intros s. unfold addSlot.
  apply step_bind; [apply steps_get_auction|].
  intros a s' Hget. apply get_auction_inv in Hget as [-> Ha].
  destruct (truthy (VStr adUnitCode) && slot_undefined adUnitCode a) eqn:Hnew;
    [|apply (frame_refl (R := grows))].
  apply andb_true_iff in Hnew as [_ Habsent].
  apply andb_true_iff in Habsent as [Habsent _].
  apply negb_true_iff, ohas_false_iff in Habsent.
  apply step_bind.
  - apply grows_modify_auction_at. intros a' Ha'.
    assert (a' = a) by congruence. subst a'.
    split; [|apply reqs_mono_refl]. cbn [adSlots set_adSlots].
    apply slots_mono_new. exact Habsent.
  - intros _ s1 _. revert s1.
    change (steps grows
              (bind Date_now_read (fun now =>
                 modify_auction id "addBidObj"
                   (addBidObj true
                      (new_Bid (VStr "-1") (VStr DUMMY_BIDDER) (VStr "client") now
                               (VStr adUnitCode) mediaTypes allMediaTypeSizes VUndef))))).
    grows_steps.
Qed.

#[local] Hint Resolve grows_addSlot : grows.

Lemma grows_addAddSlots (id adUnits tmax : value) :
  steps grows (addAddSlots id adUnits tmax).
Proof. unfold addAddSlots, addAddSlots_code. grows_steps. Qed.

#[local] Hint Resolve grows_addAddSlots : grows.

Lemma grows_auctionInitHandler (args : value) : steps grows (auctionInitHandler args).
Proof.
  intros s. unfold auctionInitHandler. cbv zeta.
  apply step_bind; [apply steps_lift|]. intros id s0 Hid.
  unfold lift in Hid. injection Hid as _ <-.
  apply step_bind; [apply (frame_refl (R := grows))|].
  intros found s0 Hfound.
  unfold auction_undefined, gets in Hfound. injection Hfound as <- <-.
  apply step_bind.
  - destruct (ohas (ToString id) (auctions s)) eqn:Hsome;
      [rewrite andb_false_r; apply (frame_refl (R := grows))|].
    destruct (truthy id && (negb false && negb (inherited (ToString id))));
      [|apply (frame_refl (R := grows))].
    unfold modify. cbn [snd]. apply grows_new_auction.
    apply ohas_false_iff. exact Hsome.
  - intros _ s1 _. revert s1.
    match goal with |- forall s1, grows s1 (snd (?m s1)) => change (steps grows m) end.
    grows_steps.
Qed.

Lemma grows_bidRequestedHandler (args : value) : steps grows (bidRequestedHandler args).
Proof. unfold bidRequestedHandler, bidRequested_bid. grows_steps. Qed.

Lemma grows_write_bidObj (id : value) (target : option nat) (b : Bid) :
  steps grows (write_bidObj id target b).
Proof. unfold write_bidObj. grows_steps. Qed.

#[local] Hint Resolve grows_write_bidObj : grows.

Lemma grows_bidResponseHandler (bid : value) : steps grows (bidResponseHandler bid).
Proof. unfold bidResponseHandler. grows_steps. Qed.

Lemma grows_noBidResponseHandler (args : value) :
  steps grows (noBidResponseHandler args).
Proof. unfold noBidResponseHandler. grows_steps. Qed.

Lemma grows_bidTimeoutHandler (timedOutBids : value) :
  steps grows (bidTimeoutHandler timedOutBids).
Proof. unfold bidTimeoutHandler, bidTimeout_bid. grows_steps. Qed.

Lemma grows_auctionEndHandler (args : value) : steps grows (auctionEndHandler args).
Proof. unfold auctionEndHandler. grows_steps. Qed.

Lemma grows_get_adSlot (acid adtag : value) (prop : string) :
  steps grows (get_adSlot acid adtag prop).
Proof. unfold get_adSlot. grows_steps. Qed.

#[local] Hint Resolve grows_get_adSlot : grows.

Lemma grows_auctionLog_telemetry (acid adtag : value) (logType : string) (adId : value) :
  steps grows (auctionLog_telemetry acid adtag logType adId).
Proof.
  unfold auctionLog_telemetry, getCommonLoggingData, PageDetail_getLoggingData,
    getLoggingBids, getResponseSizeMap, getDummyBids.
  grows_steps.
Qed.

#[local] Hint Resolve grows_auctionLog_telemetry : grows.

Lemma grows_fireAuctionLog (acid adtag : value) (logType : string) (adId : value) :
  steps grows (fireAuctionLog acid adtag logType adId).
Proof. unfold fireAuctionLog. grows_steps. Qed.

#[local] Hint Resolve grows_fireAuctionLog : grows.

Lemma get_config_inv (prop : string) (s s' : state) (c : Configure) :
  get_config prop s = (Ok c, s') -> s' = s /\ config s = Some c.
Proof.
  unfold get_config. destruct (config s) as [c'|]; intros Hg; inversion Hg; subst; auto.
Qed.

(** Filling the sampling cache: the decision is drawn only for a log type
    that has none, so no cached decision changes. *)
Lemma grows_getShouldBeLogged (logType : string) :
  steps grows (getShouldBeLogged logType).
Proof.
  intros s. unfold getShouldBeLogged.
  apply step_bind; [apply steps_get_config|].
  intros c s0 Hc. apply get_config_inv in Hc as [-> Hc].
  apply step_bind; [|intros; apply steps_bind; [apply steps_get_config|intros; apply steps_ret]].
  destruct (negb (ohas logType (shouldBeLogged c))) eqn:Habsent;
    [|apply (frame_refl (R := grows))].
  apply negb_true_iff, ohas_false_iff in Habsent.
  unfold isSampled, bind, Math_random_draw, get_config, modify_config, ret.
  cbn [config set_random_draws]. rewrite Hc. cbn [snd config set_random_draws].
  rewrite Hc. cbn [snd]. split.
  - cbn [auctions set_config set_random_draws]. intros k a Ha. exists a.
    split; [exact Ha|apply auction_mono_refl].
  - cbn [config set_config]. intros x Hx. eexists. split; [reflexivity|].
    cbn [shouldBeLogged set_shouldBeLogged]. intros t b Hb.
    rewrite Hc in Hx. injection Hx as <-.
    destruct (String.eqb_spec t logType) as [->|Hne]; [congruence|].
    rewrite (oget_oset_other _ _ _ _ Hne). exact Hb.
Qed.

#[local] Hint Resolve grows_getShouldBeLogged : grows.

Lemma grows_fireApPrLog (auctionId adUnitName : value) (logType : string) :
  steps grows (fireApPrLog auctionId adUnitName logType).
Proof. unfold fireApPrLog. grows_steps. Qed.

#[local] Hint Resolve grows_fireApPrLog : grows.

Lemma grows_sendEvent (id adunit : value) (logType : string) (adId : value) :
  steps grows (sendEvent id adunit logType adId).
Proof. unfold sendEvent, isValidAuctionAdSlot. grows_steps. Qed.

#[local] Hint Resolve grows_sendEvent : grows.

Lemma grows_setTargetingHandler (params : value) :
  steps grows (setTargetingHandler params).
Proof. unfold setTargetingHandler, setTargeting_slot. grows_steps. Qed.

Lemma grows_bidWonHandler (bid : value) : steps grows (bidWonHandler bid).
Proof. unfold bidWonHandler. grows_steps. Qed.

#[local] Hint Resolve grows_auctionInitHandler grows_bidRequestedHandler
  grows_bidResponseHandler grows_noBidResponseHandler grows_bidTimeoutHandler
  grows_auctionEndHandler grows_setTargetingHandler grows_bidWonHandler : grows.

(** Every tracked event, whatever it is and whether its handler returns
    or throws, leaves a state that has grown. *)
Lemma grows_track (event : value) : steps grows (track event).
Proof. unfold track. grows_steps. Qed.

(** The adapter after a sequence of events, each tracked from the state
    the one before left. *)
Definition run_events (events : list value) (s : state) : state :=
  fold_left (fun s event => snd (track event s)) events s.

Lemma grows_run_events (events : list value) (s : state) :
  grows s (run_events events s).
Proof.
  revert s. induction events as [|e tl IH]; intros s; cbn [run_events fold_left].
  - apply (frame_refl (R := grows)).
  - eapply (frame_trans (R := grows)); [apply grows_track|apply IH].
Qed.

(** *** C10: noBidResponseHandler and bidTimeoutHandler *)

(** The bid objects recorded for the auction under [key]. *)
Definition bidObjs_of (s : state) (key : string) : list Bid :=
  match oget key (auctions s) with
  | Some a => bidObjs a
  | None => []
  end.














(** *** C9: fireApPrLog and the sampling cache *)

Lemma queues_getShouldBeLogged (logType : string) :
  steps queues_same (getShouldBeLogged logType).
Proof.
  unfold getShouldBeLogged, isSampled. steps_structure;
    try apply queues_modify_config.
  intros s. repeat split.
Qed.

(** The sampling decision for a state and a configuration: the next
    random number against the logging percentage. *)
Definition sampling_decision (s : state) (c : Configure) : bool :=
  PrimFloat.ltb (Math_random (random_draws s) * float_of_Z 100)%float
                (parseFloat (loggingPercent c)).

Lemma getShouldBeLogged_cached (logType : string) (s : state) (c : Configure) (b : bool) :
  config s = Some c -> oget logType (shouldBeLogged c) = Some b ->
  getShouldBeLogged logType s = (Ok b, s).
Proof.
  intros Hc Hb. unfold getShouldBeLogged, get_config, ret, ohas, bind.
  rewrite Hc, Hb. cbn [negb]. rewrite Hc, Hb. reflexivity.
Qed.

Lemma getShouldBeLogged_fresh (logType : string) (s : state) (c : Configure) :
  config s = Some c -> oget logType (shouldBeLogged c) = None ->
  getShouldBeLogged logType s =
  (Ok (sampling_decision s c),
   set_config
     (Some (set_shouldBeLogged
              (oset logType (sampling_decision s c) (shouldBeLogged c)) c))
     (set_random_draws (S (random_draws s)) s)).
Proof.
  intros Hc Hb.
  unfold getShouldBeLogged, isSampled, Math_random_draw, get_config,
    modify_config, ret, ohas, bind.
  repeat (progress (rewrite ?Hc, ?Hb;
                    cbn [negb config set_random_draws set_config shouldBeLogged
                         set_shouldBeLogged fst snd])).
  rewrite oget_oset_same. reflexivity.
Qed.

Lemma get_adSlot_inv (acid adtag : value) (prop : string) (s s' : state) (slot : AdSlot) :
  get_adSlot acid adtag prop s = (Ok slot, s') ->
  s' = s
  /\ exists a, oget (ToString acid) (auctions s) = Some a
               /\ oget (ToString adtag) (adSlots a) = Some slot.
Proof.
  unfold get_adSlot, bind, get_auction, ret, throw.
  destruct (oget (ToString acid) (auctions s)) as [a|]; [|discriminate].
  destruct (oget (ToString adtag) (adSlots a)) as [x|] eqn:Hx; [|discriminate].
  intros Hg. injection Hg as <- <-. split; [reflexivity|]. exists a. auto.
Qed.

Lemma get_adSlot_throws (acid adtag : value) (prop : string) (s : state) :
  snd (get_adSlot acid adtag prop s) = s.
Proof.
  unfold get_adSlot, bind, get_auction, ret, throw.
  destruct (oget (ToString acid) (auctions s)) as [a|]; [|reflexivity].
  destruct (oget (ToString adtag) (adSlots a)); reflexivity.
Qed.

(** A slot that has logged a type fires no second log of it. *)
Lemma fireApPrLog_logged (auctionId adUnitName : value) (logType : string)
    (s : state) (a : Auction) (slot : AdSlot) :
  oget (ToString auctionId) (auctions s) = Some a ->
  oget (ToString adUnitName) (adSlots a) = Some slot ->
  is_logged slot logType = true ->
  logsQueue (snd (fireApPrLog auctionId adUnitName logType s)) = logsQueue s
  /\ pixels (snd (fireApPrLog auctionId adUnitName logType s)) = pixels s.
Proof.
  intros Ha Hslot Hlogged.
  assert (Hget : get_adSlot auctionId adUnitName "getShouldBeLogged" s = (Ok slot, s)).
  { unfold get_adSlot, bind, get_auction, ret. rewrite Ha, Hslot. reflexivity. }
  pose proof (queues_getShouldBeLogged logType s) as (Hl & _ & Hp).
  destruct (fireApPrLog auctionId adUnitName logType s) as [r sf] eqn:Hrun.
  unfold fireApPrLog, bind in Hrun. rewrite Hget in Hrun.
  destruct (getShouldBeLogged logType s) as [[should|e] s1]; cbn [snd] in *.
  - fold (is_logged slot logType) in Hrun. rewrite Hlogged, andb_false_r in Hrun.
    unfold ret in Hrun. injection Hrun as _ <-. auto.
  - injection Hrun as _ <-. auto.
Qed.

(** A call of [fireApPrLog] that fires a log appends one URL, returns,
    and leaves the slot flagged. *)
Lemma fireApPrLog_fires (auctionId adUnitName : value) (logType : string) (s : state) :
  logsQueue (snd (fireApPrLog auctionId adUnitName logType s)) <> logsQueue s ->
  fst (fireApPrLog auctionId adUnitName logType s) = Ok tt
  /\ (exists url,
        logsQueue (snd (fireApPrLog auctionId adUnitName logType s))
        = (logsQueue s ++ [url])%list
        /\ pixels (snd (fireApPrLog auctionId adUnitName logType s))
           = (pixels s ++ [url])%list)
  /\ (exists a slot,
        oget (ToString auctionId)
             (auctions (snd (fireApPrLog auctionId adUnitName logType s))) = Some a
        /\ oget (ToString adUnitName) (adSlots a) = Some slot
        /\ is_logged slot logType = true).
Proof.
  destruct (fireApPrLog auctionId adUnitName logType s) as [r sf] eqn:Hrun.
  cbn [fst snd]. unfold fireApPrLog, bind in Hrun.
  destruct (get_adSlot auctionId adUnitName "getShouldBeLogged" s)
    as [[slot|e] s0] eqn:Hget.
  2:{ pose proof (get_adSlot_throws auctionId adUnitName "getShouldBeLogged" s) as Hs.
      rewrite Hget in Hs. cbn [snd] in *. subst s0.
      injection Hrun as _ <-. intros Hne. congruence. }
  apply get_adSlot_inv in Hget as (-> & a & Ha & Hslot).
  pose proof (queues_getShouldBeLogged logType s) as (Hl1 & _ & Hp1).
  pose proof (grows_getShouldBeLogged logType s) as [Hg1 _].
  destruct (getShouldBeLogged logType s) as [[should|e] s1]; cbn [fst snd] in *.
  2:{ injection Hrun as _ <-. intros Hne. congruence. }
  destruct (should && negb match oget logType (logged slot) with
                           | Some b => b
                           | None => false
                           end).
  2:{ unfold ret in Hrun. injection Hrun as _ <-. intros Hne. congruence. }
  destruct (fireAuctionLog_queues auctionId adUnitName logType VUndef s1) as [Hq _].
  pose proof (grows_fireAuctionLog auctionId adUnitName logType VUndef s1) as [Hg2 _].
  destruct (fireAuctionLog auctionId adUnitName logType VUndef s1) as [[[]|e] s2];
    cbn [fst snd] in *.
  2:{ injection Hrun as _ <-. intros Hne.
      destruct Hq as [[Hl2 _]|(t & _ & Hok & _)]; [congruence|discriminate]. }
  destruct (Hg1 _ _ Ha) as (a1 & Ha1 & Hslots1 & _).
  destruct (Hg2 _ _ Ha1) as (a2 & Ha2 & Hslots2 & _).
  destruct (Hslots1 _ _ Hslot) as (slot1 & Hslot1 & _).
  destruct (Hslots2 _ _ Hslot1) as (slot2 & Hslot2 & _).
  unfold modify_auction in Hrun. rewrite Ha2 in Hrun. injection Hrun as <- <-.
  cbn [logsQueue pixels auctions set_auctions].
  intros Hne. split; [reflexivity|]. split.
  - destruct Hq as [[Hl2 _]|(t & _ & _ & Hl2 & Hp2)]; [congruence|].
    eexists. rewrite Hl2, Hp2, Hl1, Hp1. split; reflexivity.
  - rewrite oget_oset_same. unfold update_slot. rewrite Hslot2.
    eexists _, _. split; [reflexivity|]. cbn [adSlots set_adSlots].
    rewrite oget_oset_same. split; [reflexivity|].
    unfold is_logged. cbn [logged set_logged]. rewrite oget_oset_same. reflexivity.
Qed.

(** C9: a call of [fireApPrLog] that fires a log appends exactly one
    URL and sets the slot's [logged] flag for the log type; a slot whose
    flag is set stays flagged through any sequence of tracked events, and
    [fireApPrLog] then fires nothing for it.  The sampling decision is
    drawn by [getShouldBeLogged] only for a log type that has none in
    [config.shouldBeLogged], once, and cached there; a cached decision
    stays through any sequence of tracked events and is returned to every
    slot without another draw. *)
Theorem fireApPrLog_at_most_once :
  (forall (auctionId adUnitName : value) (logType : string) (s : state),
     logsQueue (snd (fireApPrLog auctionId adUnitName logType s)) <> logsQueue s ->
     fst (fireApPrLog auctionId adUnitName logType s) = Ok tt
     /\ (exists url,
           logsQueue (snd (fireApPrLog auctionId adUnitName logType s))
           = (logsQueue s ++ [url])%list
           /\ pixels (snd (fireApPrLog auctionId adUnitName logType s))
              = (pixels s ++ [url])%list)
     /\ (exists a slot,
           oget (ToString auctionId)
                (auctions (snd (fireApPrLog auctionId adUnitName logType s))) = Some a
           /\ oget (ToString adUnitName) (adSlots a) = Some slot
           /\ is_logged slot logType = true))
  /\ (forall (events : list value) (auctionId adUnitName : value) (logType : string)
             (s : state) (a : Auction) (slot : AdSlot),
       oget (ToString auctionId) (auctions s) = Some a ->
       oget (ToString adUnitName) (adSlots a) = Some slot ->
       is_logged slot logType = true ->
       logsQueue (snd (fireApPrLog auctionId adUnitName logType (run_events events s)))
       = logsQueue (run_events events s)
       /\ pixels (snd (fireApPrLog auctionId adUnitName logType (run_events events s)))
          = pixels (run_events events s))
  /\ (forall (logType : string) (s : state) (c : Configure),
       config s = Some c -> oget logType (shouldBeLogged c) = None ->
       exists c',
         fst (getShouldBeLogged logType s) = Ok (sampling_decision s c)
         /\ random_draws (snd (getShouldBeLogged logType s)) = S (random_draws s)
         /\ config (snd (getShouldBeLogged logType s)) = Some c'
         /\ oget logType (shouldBeLogged c') = Some (sampling_decision s c))
  /\ (forall (events : list value) (logType : string) (s : state) (c : Configure)
             (b : bool),
       config s = Some c -> oget logType (shouldBeLogged c) = Some b ->
       getShouldBeLogged logType (run_events events s) = (Ok b, run_events events s)).
Proof.
  split; [|split; [|split]].
  - apply fireApPrLog_fires.
  - intros events auctionId adUnitName logType s a slot Ha Hslot Hlogged.
    destruct (grows_run_events events s) as [Hauctions _].
    destruct (Hauctions _ _ Ha) as (a' & Ha' & Hslots & _).
    destruct (Hslots _ _ Hslot) as (slot' & Hslot' & Hmono).
    eapply fireApPrLog_logged; eauto.
  - intros logType s c Hc Hnone.
    rewrite (getShouldBeLogged_fresh logType s c Hc Hnone). cbn [fst snd].
    eexists. split; [reflexivity|]. split; [reflexivity|].
    split; [reflexivity|]. cbn [shouldBeLogged set_shouldBeLogged].
    apply oget_oset_same.
  - intros events logType s c b Hc Hb.
    destruct (grows_run_events events s) as [_ Hcache].
    destruct (Hcache c Hc) as (c' & Hc' & Hkeep).
    apply (getShouldBeLogged_cached logType _ c' b Hc'). apply Hkeep. exact Hb.
Qed.

End WithHost.
End MedianetProofs.

(* ===================================================================== *)
(** * Further properties of the two adapters *)
(* ===================================================================== *)

(** ** The Smaato bid adapter: validation, endpoints and edge cases *)

Module SmaatoEdges.
Import JS Smaato SmaatoProofs.

Lemma rmap_throws {A B} (f : A -> result B) (l : list A) (x : A) (e : exn) :
  In x l -> f x = Throw e -> exists e', rmap f l = Throw e'.
Proof.
  induction l as [|y tl IH]; intros Hin Hx; [contradiction|].
  simpl. destruct Hin as [->|Hin].
  - rewrite Hx. eauto.
  - destruct (f y) as [b|e0]; [|eauto].
    destruct (IH Hin Hx) as [e' ->]. eauto.
Qed.

Lemma rmap_ok_Forall {A B} (f : A -> result B) (P : B -> Prop) (l : list A)
    (l' : list B) :
  (forall x y, f x = Ok y -> P y) -> rmap f l = Ok l' -> Forall P l'.
Proof.
  intros Hf. revert l'. induction l as [|x tl IH]; simpl; intros l' Hl.
  - injection Hl as <-. constructor.
  - destruct (f x) as [y|e] eqn:Hx; [|discriminate].
    destruct (rmap f tl) as [ys|e]; [|discriminate].
    injection Hl as <-. constructor; eauto.
Qed.

Lemma Forall_concat {A} (P : A -> Prop) (ll : list (list A)) :
  Forall (Forall P) ll -> Forall P (concat ll).
Proof.
  induction 1 as [|l tl Hl _ IH]; simpl; [constructor|].
  apply Forall_app. split; assumption.
Qed.

Lemma prefix_app (p a b : string) :
  String.prefix p a = true -> String.prefix p (a ++ b) = true.
Proof.
  revert a. induction p as [|c p IH]; intros a Hp; [destruct (a ++ b); reflexivity|].
  destruct a as [|c' a]; [discriminate|]. simpl in *.
  destruct (Ascii.ascii_dec c c'); [|discriminate]. apply IH. exact Hp.
Qed.

Section WithEnv.
Context {E : Engine} {V : Env}.

(** X1: [isBidRequestValid] answers [true] exactly when [params] is an object
    whose [publisherId] and [adspaceId] are strings, and [false] for any
    other [params] but [null]: [typeof null] is ['object'], so the test
    goes on to read [null.publisherId] and throws.  A bid that is itself
    [undefined] or [null] throws at [bid.params]. *)
Theorem isBidRequestValid_checks_params (bid : value) :
  (is_nullish bid = false -> get bid "params" <> VNull ->
     isBidRequestValid bid
     = Ok (typeof_object (get bid "params")
           && typeof_string (get (get bid "params") "publisherId")
           && typeof_string (get (get bid "params") "adspaceId")))
  /\ (is_nullish bid = false -> get bid "params" = VNull ->
        isBidRequestValid bid
        = Throw (TypeError "Cannot read properties of null (reading 'publisherId')"))
  /\ (is_nullish bid = true ->
        isBidRequestValid bid
        = Throw (TypeError ("Cannot read properties of " ++ type_name bid
                            ++ " (reading 'params')"))).
Proof.
  split; [|split].
  - intros Hbid Hp. unfold isBidRequestValid.
    rewrite (get_prop_ok _ _ Hbid). cbn [rbind].
    destruct (get bid "params") as [| | | | | | |] eqn:Hparams;
      try reflexivity; try congruence;
      cbn [typeof_object andb get_prop is_nullish rbind];
      match goal with
      | |- (if ?b then _ else _) = _ => destruct b; reflexivity
      end.
  - intros Hbid Hp. unfold isBidRequestValid.
    rewrite (get_prop_ok _ _ Hbid), Hp. reflexivity.
  - intros Hbid. unfold isBidRequestValid, get_prop. rewrite Hbid. reflexivity.
Qed.

(** X2: [buildRequests] cannot work on an empty list of bid requests, whose
    first element it reads, nor on a list with a bid request for which the
    host finds no ad-unit size, whose first size it reads: it throws. *)
Theorem buildRequests_throws_without_request_or_size
    (brs : list value) (bidderRequest : value) :
  (brs = [] ->
     buildRequests brs bidderRequest
     = Throw (TypeError "Cannot read properties of undefined (reading 'params')"))
  /\ (forall br, In br brs -> getAdUnitSizes br = VArr [] ->
        exists e, buildRequests brs bidderRequest = Throw e).
Proof.
  split.
  - intros ->. reflexivity.
  - intros br Hin Hsizes.
    assert (Himp : exists e, build_imp br = Throw e).
    { unfold build_imp, parseSizes. rewrite Hsizes. cbn [as_array rmap rbind nth].
      destruct (get_prop br "bidId"); cbn [rbind get_prop is_nullish]; eauto. }
    destruct Himp as [e He].
    destruct (rmap_throws build_imp brs br e Hin He) as [e' Hmap].
    unfold buildRequests, buildOpenRtbBidRequestPayload, buildOpenRtbBidRequest.
    rewrite Hmap. cbn [rbind].
    destruct (get_prop (nth 0 brs VUndef) "params") as [p|]; cbn [rbind]; [|eauto].
    destruct (get_prop p "endpoint"); cbn [rbind]; eauto.
Qed.

(** X3: The request goes to the [endpoint] parameter of the first bid request
    when it has one, and to the Smaato endpoint otherwise, with the client
    version and the auction id as custom headers. *)
Theorem buildRequests_endpoint_and_headers
    (brs : list value) (bidderRequest : value) :
  brs <> [] ->
  Forall (fun br => isBidRequestValid br = Ok true) brs ->
  Forall has_ad_unit_size brs ->
  is_nullish bidderRequest = false ->
  is_nullish (get bidderRequest "refererInfo") = false ->
  exists sr : ServerRequest,
    buildRequests brs bidderRequest = Ok sr
    /\ url sr
       = (if truthy (get (get (nth 0 brs VUndef) "params") "endpoint")
          then get (get (nth 0 brs VUndef) "params") "endpoint"
          else VStr SMAATO_ENDPOINT)
    /\ customHeaders sr
       = [("X-SMT-Client", VStr CLIENT);
          ("X-SMT-SessionId", get bidderRequest "auctionId")].
Proof.
  intros Hne Hv Hs Hbr Href.
  destruct (buildOpenRtbBidRequest_ok _ _ Hv Hs Hbr Href)
    as (fields & imps & Hreq & _ & _).
  destruct brs as [|br0 tl]; [contradiction|].
  inversion Hv as [|? ? Hv0 _]; subst.
  apply valid_not_nullish in Hv0 as [Hbr0 Hp0].
  unfold buildRequests, buildOpenRtbBidRequestPayload.
  rewrite Hreq. cbn [nth rbind].
  rewrite (get_prop_ok _ _ Hbr0). cbn [rbind].
  rewrite (get_prop_ok _ _ Hp0). cbn [rbind].
  rewrite (get_prop_ok _ _ Hbr). cbn [rbind].
  eexists. split; [reflexivity|]. split; reflexivity.
Qed.

(** X4: The privacy signals of the request: [regs.coppa] is 1 exactly when
    the host's [coppa] setting is [true], [regs.ext.gdpr] is 1 exactly when
    the bidder request has a consent object that applies, and
    [regs.ext.us_privacy] is there, with the bidder request's [uspConsent],
    exactly when that is not [undefined]. *)
Theorem buildOpenRtbBidRequest_privacy
    (brs : list value) (bidderRequest : value) :
  Forall (fun br => isBidRequestValid br = Ok true) brs ->
  Forall has_ad_unit_size brs ->
  is_nullish bidderRequest = false ->
  is_nullish (get bidderRequest "refererInfo") = false ->
  exists request : value,
    buildOpenRtbBidRequest brs bidderRequest = Ok request
    /\ get (get request "regs") "coppa"
       = (if strict_eq getConfig_coppa (VBool true) then num 1 else num 0)
    /\ get (get (get request "regs") "ext") "gdpr"
       = (if truthy (and (get bidderRequest "gdprConsent")
                         (get (get bidderRequest "gdprConsent") "gdprApplies"))
          then num 1 else num 0)
    /\ get (get (get request "regs") "ext") "us_privacy"
       = get bidderRequest "uspConsent"
    /\ Object_keys (get (get request "regs") "ext")
       = Ok (if is_undefined (get bidderRequest "uspConsent")
             then ["gdpr"] else ["gdpr"; "us_privacy"]).
Proof.
  intros Hv Hs Hbr Href.
  destruct (rmap_build_imp _ Hv Hs) as (imps & Himps & _).
  unfold buildOpenRtbBidRequest. rewrite Himps. cbn [rbind].
  rewrite (get_prop_ok _ _ Hbr), (get_prop_ok _ _ Href). cbn [rbind].
  destruct (is_undefined (get bidderRequest "uspConsent")) eqn:Husp.
  - cbn [negb]. eexists. split; [reflexivity|].
    destruct (get bidderRequest "uspConsent"); try discriminate.
    repeat split; reflexivity.
  - cbn [negb]. eexists. split; [vm_compute; reflexivity|].
    repeat split; reflexivity.
Qed.

(** X5: Whatever the response, each bid [interpretResponse] returns carries a
    markup that is not the empty string, made for an image or a rich-media
    ad, is not net revenue, is in the currency of the response body, and
    lives for 300 seconds when the response has no [X-SMT-Expires] header. *)
Theorem interpretResponse_bid_invariants
    (resp : ServerResponse) (bids : list PrebidBid) :
  interpretResponse resp = Ok bids ->
  Forall (fun b =>
            strict_eq (ad b) (VStr "") = false
            /\ (strict_eq (headers_get resp "X-SMT-ADTYPE") (VStr "Img") = true
                \/ strict_eq (headers_get resp "X-SMT-ADTYPE") (VStr "Richmedia") = true)
            /\ netRevenue b = false
            /\ currency b = get (body resp) "cur"
            /\ ttl b = ttl_of resp
            /\ (headers_get resp "X-SMT-Expires" = VUndef -> ttl b = num 300))
         bids.
Proof.
  unfold interpretResponse. fold (ttl_of resp).
  destruct (truthy (body resp)); [|intros Hb; injection Hb as <-; constructor].
  destruct (as_array "forEach" (get (body resp) "seatbid")) as [sbs|]; [|discriminate].
  cbn [rbind].
  destruct (rmap _ sbs) as [pushed|] eqn:Hmap; [|discriminate].
  cbn [rbind]. intros Hb. injection Hb as <-.
  apply Forall_concat.
  eapply rmap_ok_Forall; [|exact Hmap].
  intros sb l. unfold interpretSeatbid.
  destruct (get_prop sb "bid") as [bid|]; [|discriminate]. cbn [rbind].
  destruct (as_array "forEach" bid) as [bs|]; [|discriminate]. cbn [rbind].
  destruct (rmap _ bs) as [pushed'|] eqn:Hmap'; [|discriminate].
  cbn [rbind]. intros Hl. injection Hl as <-.
  apply Forall_concat.
  eapply rmap_ok_Forall; [|exact Hmap'].
  intros b l. unfold interpretBid.
  destruct (createAd (headers_get resp "X-SMT-ADTYPE") b) as [adv|] eqn:Had;
    [|discriminate].
  cbn [rbind].
  destruct (strict_eq adv (VStr "")) eqn:Hempty; cbn [negb];
    intros Hl; injection Hl as <-; constructor; [|constructor].
  cbn [ad netRevenue currency ttl].
  split; [exact Hempty|]. split.
  - unfold createAd in Had.
    destruct (strict_eq (headers_get resp "X-SMT-ADTYPE") (VStr "Img"));
      [left; reflexivity|].
    destruct (strict_eq (headers_get resp "X-SMT-ADTYPE") (VStr "Richmedia"));
      [right; reflexivity|].
    injection Had as <-. discriminate.
  - split; [reflexivity|]. split; [reflexivity|]. split; [reflexivity|].
    intros Hexp. unfold ttl_of. rewrite Hexp. reflexivity.
Qed.

(** X6: For an ad type other than [Img] and [Richmedia] ([Video] among them)
    no markup is made, so a body whose seatbid entries have their arrays of
    bids gives no bid at all, and no exception. *)
Theorem interpretResponse_other_ad_types
    (resp : ServerResponse) (seatbids : list value) :
  strict_eq (headers_get resp "X-SMT-ADTYPE") (VStr "Img") = false ->
  strict_eq (headers_get resp "X-SMT-ADTYPE") (VStr "Richmedia") = false ->
  truthy (body resp) = true ->
  get (body resp) "seatbid" = VArr seatbids ->
  Forall (fun sb => is_nullish sb = false /\ exists bs, get sb "bid" = VArr bs)
         seatbids ->
  interpretResponse resp = Ok [].
Proof.
  intros Himg Hrich Hbody Hsb Hshape.
  unfold interpretResponse. rewrite Hbody, Hsb. cbn [as_array rbind].
  match goal with |- rbind (rmap ?f _) _ = _ =>
    rewrite (rmap_ok_map f (fun _ => []))
  end.
  - cbn [rbind]. f_equal. clear. induction seatbids; simpl; congruence.
  - eapply Forall_impl; [|exact Hshape].
    intros sb [Hnn [bs Hbs]]. unfold interpretSeatbid.
    rewrite (get_prop_ok _ _ Hnn), Hbs. cbn [as_array rbind].
    match goal with |- rbind (rmap ?f _) _ = _ =>
      rewrite (rmap_ok_map f (fun _ => []))
    end.
    + cbn [rbind]. f_equal. clear. induction bs; simpl; congruence.
    + apply Forall_forall. intros b _. unfold interpretBid, createAd.
      rewrite Himg, Hrich. reflexivity.
Qed.

(** X7: The markup of an image ad starts with its [div], so it is never
    empty: an image bid whose markup is made is always returned. *)
Theorem createImgAd_markup_not_empty (adm ad : value) :
  createImgAd adm = Ok ad ->
  strict_eq ad (VStr "") = false
  /\ exists markup,
       ad = VStr markup /\ String.prefix "<div onclick=" markup = true.
Proof.
  unfold createImgAd. intros Hrun.
  repeat match type of Hrun with
         | rbind ?r _ = Ok _ => destruct r; cbn [rbind] in Hrun; [|discriminate]
         end.
  injection Hrun as <-.
  match goal with
  | |- context [fold_left ?f ?l ?init] =>
      assert (Hp : String.prefix "<div onclick=" (fold_left f l init) = true)
  end.
  { match goal with |- String.prefix _ (fold_left ?f ?l ?init) = true =>
      assert (Hinit : String.prefix "<div onclick=" init = true) by reflexivity;
      generalize dependent init
    end.
    match goal with |- forall init, _ -> String.prefix _ (fold_left ?f ?l init) = true =>
      induction l as [|x tl IH]; intros init Hinit; [exact Hinit|]
    end.
    cbn [fold_left]. apply IH. apply prefix_app. exact Hinit. }
  split.
  - cbn [strict_eq].
    match goal with |- String.eqb ?s "" = false => destruct s; [discriminate|reflexivity] end.
  - eexists. split; [reflexivity|exact Hp].
Qed.

End WithEnv.
End SmaatoEdges.

(** ** The Media.net analytics adapter: what holds along every event *)

Module TrackFrames.
Import JS Medianet ObjFacts MedianetProofs.

(** The writes event handlers make to the configuration: the consent
    fields and the sampling cache.  The settings stay, and a consent string
    for the US privacy law, once there, stays. *)
Definition event_write (f : Configure -> Configure) : Prop :=
  forall c,
    cid (f c) = cid c
    /\ pubLper (f c) = pubLper c
    /\ ajaxState (f c) = ajaxState c
    /\ loggingPercent (f c) = loggingPercent c
    /\ urlToConsume (f c) = urlToConsume c
    /\ debug (f c) = debug c
    /\ mnetDebugConfig (f c) = mnetDebugConfig c
    /\ (truthy (uspConsent c) = true -> uspConsent (f c) = uspConsent c).

Lemma length_update_first {A} (p : A -> bool) (f : A -> A) (l : list A) :
  List.length (update_first p f l) = List.length l.
Proof.
  induction l as [|x tl IH]; simpl; [reflexivity|].
  destruct (p x); simpl; congruence.
Qed.

Lemma length_update_nth {A} (n : nat) (f : A -> A) (l : list A) :
  List.length (update_nth n f l) = List.length l.
Proof.
  revert n. induction l as [|x tl IH]; intros n; destruct n; simpl; congruence.
Qed.

Lemma ohas_oset_mono {A} (k k' : string) (v : A) (o : obj A) :
  ohas k o = true -> ohas k (oset k' v o) = true.
Proof.
  unfold ohas. destruct (String.eqb_spec k k') as [->|Hne].
  - rewrite oget_oset_same. reflexivity.
  - rewrite (oget_oset_other _ _ _ _ Hne). auto.
Qed.

(** Follows the structure of a piece of code down to its calls and
    writes. *)
Ltac walk :=
  repeat match goal with
    | |- steps _ (ret _) => apply steps_ret
    | |- steps _ (throw _) => apply steps_throw
    | |- steps _ (lift _) => apply steps_lift
    | |- steps _ (gets _) => apply steps_gets
    | |- steps _ (get_config _) => apply steps_get_config
    | |- steps _ (get_pageDetails _) => apply steps_get_pageDetails
    | |- steps _ (find_auction _) => apply steps_find_auction
    | |- steps _ (get_auction _ _) => apply steps_get_auction
    | |- steps _ (auction_undefined _) => unfold auction_undefined
    | |- steps _ (write_auction _ _ _) => unfold write_auction
    | |- steps _ (bind _ _) => apply steps_bind; [|intros ?]
    | |- steps _ (try_catch _ _) => apply steps_try_catch; [|intros ?]
    | |- steps _ (forEach _ _) => apply steps_forEach; intros ?
    | |- steps _ (foldM _ _ _) => apply steps_foldM; intros ? ?
    | |- steps _ (if ?b then _ else _) => destruct b
    | |- steps _ (match ?x with _ => _ end) => destruct x
    | |- steps _ (let _ := _ in _) => cbv zeta
    end.

Section WithHost.
Context {E : Engine} {H : Host}.

(** What a handler's update makes of an auction: the id and the time of
    its start stay, a completed auction stays completed, no bid request, bid
    object or ad slot is removed. *)
Definition auction_step (a a' : Auction) : Prop :=
  acid a' = acid a
  /\ auctionInitTime a' = auctionInitTime a
  /\ (hasEnded a = true -> hasEnded a' = true)
  /\ List.length (bidReqs a) <= List.length (bidReqs a')
  /\ List.length (bidObjs a) <= List.length (bidObjs a')
  /\ (forall k, ohas k (adSlots a) = true -> ohas k (adSlots a') = true).

Lemma auction_step_refl (a : Auction) : auction_step a a.
Proof. repeat split; auto. Qed.

Lemma auction_step_trans (a b c : Auction) :
  auction_step a b -> auction_step b c -> auction_step a c.
Proof.
  intros (A1 & A2 & A3 & A4 & A5 & A6) (B1 & B2 & B3 & B4 & B5 & B6).
  repeat split; try congruence; auto; lia.
Qed.

Lemma auction_step_fields (a a' : Auction) :
  acid a' = acid a -> auctionInitTime a' = auctionInitTime a ->
  status a' = status a \/ status a' = AUCTION_COMPLETED ->
  List.length (bidReqs a') = List.length (bidReqs a) ->
  List.length (bidObjs a') = List.length (bidObjs a) ->
  adSlots a' = adSlots a ->
  auction_step a a'.
Proof.
  intros H1 H2 H3 H4 H5 H6. unfold auction_step, hasEnded.
  rewrite H1, H2, H4, H5, H6. repeat split; auto.
  destruct H3 as [->| ->]; [auto|]. intros _. apply String.eqb_refl.
Qed.

Lemma auction_step_addBid (b : Bid) (a : Auction) : auction_step a (addBid b a).
Proof.
  unfold auction_step, addBid, hasEnded. cbn. rewrite length_app. cbn.
  repeat split; auto; lia.
Qed.

Lemma auction_step_addBidObj (instance : bool) (b : obj value) (a : Auction) :
  auction_step a (addBidObj instance b a).
Proof.
  unfold auction_step, addBidObj, hasEnded. cbn.
  rewrite length_app, length_update_first. cbn.
  repeat split; auto; lia.
Qed.

Lemma auction_step_update_slot (k : string) (f : AdSlot -> AdSlot) (a : Auction) :
  auction_step a (update_slot k f a).
Proof.
  unfold update_slot. destruct (oget k (adSlots a)); [|apply auction_step_refl].
  unfold auction_step, hasEnded. cbn. repeat split; auto.
  intros k'. apply ohas_oset_mono.
Qed.

Lemma auction_step_new_slot (k : string) (slot : AdSlot) (a : Auction) :
  auction_step a (set_adSlots (oset k slot (adSlots a)) a).
Proof.
  unfold auction_step, hasEnded. cbn. repeat split; auto.
  intros k'. apply ohas_oset_mono.
Qed.

Lemma auction_step_bidObjs (l : list Bid) (a : Auction) :
  List.length l = List.length (bidObjs a) -> auction_step a (set_bidObjs l a).
Proof. intros Hl. apply auction_step_fields; auto. Qed.

(** *** The frame rule of [track]

    A reflexive and transitive relation that the elementary writes of the
    handlers respect is respected by [track], for every event, whether the
    handler returns or throws. *)
Section Rule.
Context {R : state -> state -> Prop} {F : Frame R}.
Hypothesis R_new_auction :
  forall key a s, oget key (auctions s) = None ->
                  R s (set_auctions (oset key a (auctions s)) s).
Hypothesis R_auction :
  forall id prop f s,
    (forall a, oget (ToString id) (auctions s) = Some a -> auction_step a (f a)) ->
    R s (snd (modify_auction id prop f s)).
Hypothesis R_clock : steps R Date_now_read.
Hypothesis R_random : steps R Math_random_draw.
Hypothesis R_console_error : forall msg, steps R (logError msg).
Hypothesis R_console_info : forall a b, steps R (logInfo a b).
Hypothesis R_config :
  forall prop f, event_write f -> steps R (modify_config prop f).
Hypothesis R_log : forall qs, steps R (firePixel qs).
Hypothesis R_error : forall this, steps R (ErrorLogger_send this).

Lemma rule_modify_auction (id : value) (prop : string) (f : Auction -> Auction) :
  (forall a, auction_step a (f a)) -> steps R (modify_auction id prop f).
Proof. intros Hf s. apply R_auction. intros a _. apply Hf. Qed.

Lemma event_write_consent (g : Configure -> Configure) :
  (forall c, cid (g c) = cid c /\ pubLper (g c) = pubLper c
             /\ ajaxState (g c) = ajaxState c
             /\ loggingPercent (g c) = loggingPercent c
             /\ urlToConsume (g c) = urlToConsume c /\ debug (g c) = debug c
             /\ mnetDebugConfig (g c) = mnetDebugConfig c
             /\ uspConsent (g c) = uspConsent c) ->
  event_write g.
Proof.
  intros Hg c. destruct (Hg c) as (? & ? & ? & ? & ? & ? & ? & ?).
  repeat split; auto.
Qed.

Lemma event_write_usp (arg : value) :
  event_write (fun c => set_uspConsent (or (uspConsent c) arg) c).
Proof.
  intros c. repeat split. cbn [uspConsent set_uspConsent]. unfold or.
  intros ->. reflexivity.
Qed.

Ltac auction_write :=
  intros;
  first [ apply auction_step_addBid
        | apply auction_step_addBidObj
        | apply auction_step_update_slot
        | apply auction_step_new_slot
        | apply auction_step_bidObjs;
          first [ apply length_update_nth | apply length_update_first ]
        | apply auction_step_fields; auto ].

Ltac rule_steps :=
  walk;
  first [ apply rule_modify_auction; auction_write
        | apply R_clock
        | apply R_random
        | apply R_console_error
        | apply R_console_info
        | apply R_log
        | apply R_error
        | apply R_config; first [ apply event_write_usp
                                | apply event_write_consent; intros;
                                  repeat split ]
        | assumption
        | idtac ].

Lemma rule_addAddSlots (id adUnits tmax : value) :
  steps R (addAddSlots id adUnits tmax).
Proof. unfold addAddSlots, addAddSlots_code, addSlot. rule_steps. Qed.

Lemma rule_auctionInitHandler (args : value) : steps R (auctionInitHandler args).
Proof.
  intros s. unfold auctionInitHandler. cbv zeta.
  apply step_bind; [apply steps_lift|]. intros id s0 Hid.
  unfold lift in Hid. injection Hid as _ <-.
  apply step_bind; [apply frame_refl|]. intros found s0 Hfound.
  unfold auction_undefined, gets in Hfound. injection Hfound as <- <-.
  apply step_bind.
  - destruct (ohas (ToString id) (auctions s)) eqn:Hsome;
      [rewrite andb_false_r; apply frame_refl|].
    destruct (truthy id && (negb false && negb (inherited (ToString id))));
      [|apply frame_refl].
    unfold modify. cbn [snd]. apply R_new_auction.
    apply ohas_false_iff. exact Hsome.
  - intros _ s1 _. revert s1.
    match goal with |- forall s1, R s1 (snd (?m s1)) => change (steps R m) end.
    walk; first [apply rule_addAddSlots | rule_steps].
Qed.

Lemma rule_bidRequestedHandler (args : value) : steps R (bidRequestedHandler args).
Proof. unfold bidRequestedHandler, bidRequested_bid. rule_steps. Qed.

Lemma rule_exchangeCurrency (price fromCurrency toCurrency : value) :
  steps R (exchangeCurrency price fromCurrency toCurrency).
Proof. unfold exchangeCurrency. rule_steps. Qed.

Lemma rule_bidResponseHandler (bid : value) : steps R (bidResponseHandler bid).
Proof.
  unfold bidResponseHandler, write_bidObj.
  walk; first [apply rule_exchangeCurrency | rule_steps].
Qed.

Lemma rule_noBidResponseHandler (args : value) : steps R (noBidResponseHandler args).
Proof. unfold noBidResponseHandler. rule_steps. Qed.

Lemma rule_bidTimeoutHandler (timedOutBids : value) :
  steps R (bidTimeoutHandler timedOutBids).
Proof. unfold bidTimeoutHandler, bidTimeout_bid. rule_steps. Qed.

Lemma rule_auctionEndHandler (args : value) : steps R (auctionEndHandler args).
Proof. unfold auctionEndHandler. rule_steps. Qed.

Lemma rule_fireAuctionLog (acid adtag : value) (logType : string) (adId : value) :
  steps R (fireAuctionLog acid adtag logType adId).
Proof.
  unfold fireAuctionLog, auctionLog_telemetry, getCommonLoggingData,
    PageDetail_getLoggingData, get_adSlot, getLoggingBids, getResponseSizeMap,
    getDummyBids.
  rule_steps.
Qed.

Lemma rule_sendEvent (id adunit : value) (logType : string) (adId : value) :
  steps R (sendEvent id adunit logType adId).
Proof.
  unfold sendEvent, isValidAuctionAdSlot, fireApPrLog, getShouldBeLogged,
    isSampled, get_adSlot.
  walk; first [apply rule_fireAuctionLog | rule_steps].
Qed.

(** The marks [setTargetingHandler] puts on the bid objects: the array
    written is the array read, with some of its bids changed. *)
Lemma rule_setTargeting_marks (params : value) (adunit auctionId : string)
    (keys : list string) :
  steps R
    (bind (get_auction (VStr auctionId) "bidWrapper") (fun a =>
       let targ := get params adunit in
       let bidAdIds :=
         map (fun key => get targ key)
             (filter (fun key => Str.contains AD_ID key) keys) in
       let winnerAdId := get targ AD_ID in
       let marked :=
         map (fun bid => if index_found bidAdIds (bget bid "adId")
                         then oset "iwb" (num 1) bid else bid) (bidObjs a) in
       let winningBid :=
         match rev (filter (fun bid => index_found bidAdIds (bget bid "adId")
                                       && strict_eq (bget bid "adId") winnerAdId)
                           marked) with
         | b :: _ => VObj b
         | [] => VUndef
         end in
       let updated :=
         map (fun bid =>
                if strict_eq (bget bid "bidder") (VStr DUMMY_BIDDER)
                   && strict_eq (bget bid "adUnitCode") (VStr adunit)
                then
                  oset "height" (Utils.deepAccess winningBid "height")
                    (oset "width" (Utils.deepAccess winningBid "width")
                       (oset "iwb" (if Nat.eqb (List.length bidAdIds) 0
                                    then num 0 else num 1) bid))
                else bid) marked in
       bind (modify_auction (VStr auctionId) "bidObjs" (set_bidObjs updated))
            (fun _ => sendEvent (VStr auctionId) (VStr adunit) LOG_TYPE_APPR VUndef))).
Proof.
  intros s. apply step_bind; [apply steps_get_auction|].
  intros a s' Hget. apply get_auction_inv in Hget as [-> Ha]. cbv zeta.
  apply step_bind.
  - apply R_auction. intros a0 Ha0.
    assert (a0 = a) by congruence. subst a0.
    apply auction_step_bidObjs. rewrite !length_map. reflexivity.
  - intros _ s1 _. apply rule_sendEvent.
Qed.

Lemma rule_setTargetingHandler (params : value) :
  steps R (setTargetingHandler params).
Proof.
  unfold setTargetingHandler, setTargeting_slot.
  apply steps_bind; [apply steps_lift|]. intros adunits.
  apply steps_forEach. intros adunit.
  apply steps_bind; [apply steps_gets|]. intros auctionIds.
  apply steps_forEach. intros auctionId.
  apply steps_bind; [apply steps_get_auction|]. intros a.
  destruct (oget adunit (adSlots a)); [|apply steps_ret].
  cbv zeta.
  apply steps_bind; [apply rule_modify_auction; auction_write|]. intros _.
  apply steps_bind; [apply R_clock|]. intros now.
  apply steps_bind; [apply rule_modify_auction; auction_write|]. intros _.
  apply steps_bind; [apply steps_lift|]. intros keys.
  apply rule_setTargeting_marks.
Qed.

Lemma rule_bidWonHandler (bid : value) : steps R (bidWonHandler bid).
Proof.
  unfold bidWonHandler, ErrorLogger.
  walk; first [apply rule_sendEvent | rule_steps].
Qed.

Lemma rule_track (event : value) : steps R (track event).
Proof.
  unfold track.
  walk;
    first [ apply rule_auctionInitHandler | apply rule_bidRequestedHandler
          | apply rule_bidResponseHandler | apply rule_bidTimeoutHandler
          | apply rule_noBidResponseHandler | apply rule_auctionEndHandler
          | apply rule_setTargetingHandler | apply rule_bidWonHandler
          | rule_steps ].
Qed.

Lemma rule_run_events (events : list value) (s : state) :
  R s (run_events events s).
Proof.
  revert s. induction events as [|e tl IH]; intros s; cbn [run_events fold_left].
  - apply frame_refl.
  - eapply frame_trans; [apply rule_track|apply IH].
Qed.

End Rule.

End WithHost.
End TrackFrames.

(** ** The Media.net analytics adapter: settings, consent and queues *)

Module AdapterInvariants.
Import JS Medianet ObjFacts MedianetProofs TrackFrames.

(** An invariant, as a frame: where it held it holds. *)
Lemma preserved_frame (P : state -> Prop) : Frame (fun s s' => P s -> P s').
Proof. split; auto. Qed.

Lemma prefix_self_app (p x : string) : String.prefix p (p ++ x) = true.
Proof.
  induction p as [|c p IH]; simpl; [destruct x; reflexivity|].
  destruct (Ascii.ascii_dec c c); [exact IH|contradiction].
Qed.

Lemma includes_In (l : list string) (k : string) :
  Utils.includes l (VStr k) = true -> In k l.
Proof.
  unfold Utils.includes. intros Hin. apply existsb_exists in Hin as (x & Hx & Heq).
  simpl in Heq. apply String.eqb_eq in Heq. subst. exact Hx.
Qed.

(** What the environment may call of the adapter: its three methods and
    the two callbacks [Configure.init] hands to [ajax]. *)
Inductive call : Type :=
| EnableAnalytics (configuration : value)
| ConfigResponse (response : string)
| ConfigFetchError
| Track (event : value)
| ClearLogsQueue.

Section WithHost.
Context {E : Engine} {H : Host}.

Definition run_call (c : call) : M unit :=
  match c with
  | EnableAnalytics configuration => enableAnalytics configuration
  | ConfigResponse response => _parseResponse response
  | ConfigFetchError => _errorFetch
  | Track event => track event
  | ClearLogsQueue => clearlogsQueue
  end.

(** The adapter after a sequence of calls, each made in the state the one
    before left, whether it returned or threw. *)
Definition run_calls (calls : list call) (s : state) : state :=
  fold_left (fun s c => snd (run_call c s)) calls s.

Lemma run_calls_invariant (P : state -> Prop) :
  (forall c s, P s -> P (snd (run_call c s))) ->
  forall calls s, P s -> P (run_calls calls s).
Proof.
  intros Hstep calls. induction calls as [|c tl IH]; intros s Hs; [exact Hs|].
  cbn [run_calls fold_left]. apply IH. apply Hstep. exact Hs.
Qed.

(** *** Settings and consent along the events *)

Definition settings_same (c c' : Configure) : Prop :=
  cid c' = cid c
  /\ pubLper c' = pubLper c
  /\ ajaxState c' = ajaxState c
  /\ loggingPercent c' = loggingPercent c
  /\ urlToConsume c' = urlToConsume c
  /\ debug c' = debug c
  /\ mnetDebugConfig c' = mnetDebugConfig c
  /\ (truthy (uspConsent c) = true -> uspConsent c' = uspConsent c).

Definition settings_kept (s s' : state) : Prop :=
  pageDetails s' = pageDetails s
  /\ ajax_requests s' = ajax_requests s
  /\ origin_calls s' = origin_calls s
  /\ analyticsEnabled s' = analyticsEnabled s
  /\ match config s, config s' with
     | Some c, Some c' => settings_same c c'
     | None, None => True
     | _, _ => False
     end.

Lemma settings_same_refl (c : Configure) : settings_same c c.
Proof. repeat split. Qed.

Lemma settings_same_trans (a b c : Configure) :
  settings_same a b -> settings_same b c -> settings_same a c.
Proof.
  intros (A1 & A2 & A3 & A4 & A5 & A6 & A7 & A8)
         (B1 & B2 & B3 & B4 & B5 & B6 & B7 & B8).
  repeat split; try congruence.
  intros Hu. rewrite B8; [apply A8; exact Hu|]. rewrite (A8 Hu). exact Hu.
Qed.

#[local] Instance settings_kept_frame : Frame settings_kept.
Proof.
  split.
  - intros s. repeat split. destruct (config s); [apply settings_same_refl|exact I].
  - intros a b c (A1 & A2 & A3 & A4 & A5) (B1 & B2 & B3 & B4 & B5).
    repeat split; try congruence.
    destruct (config a), (config b), (config c); try contradiction; try exact I.
    eapply settings_same_trans; eassumption.
Qed.

Lemma settings_kept_untouched (s s' : state) :
  pageDetails s' = pageDetails s -> ajax_requests s' = ajax_requests s ->
  origin_calls s' = origin_calls s -> analyticsEnabled s' = analyticsEnabled s ->
  config s' = config s -> settings_kept s s'.
Proof.
  intros H1 H2 H3 H4 H5. repeat split; try assumption.
  rewrite H5. destruct (config s); [apply settings_same_refl|exact I].
Qed.

Lemma settings_kept_track (event : value) : steps settings_kept (track event).
Proof.
  apply rule_track.
  - intros key a s _. apply settings_kept_untouched; reflexivity.
  - intros id prop f s _. unfold modify_auction.
    destruct (oget (ToString id) (auctions s));
      apply settings_kept_untouched; reflexivity.
  - intros s. apply settings_kept_untouched; reflexivity.
  - intros s. apply settings_kept_untouched; reflexivity.
  - intros msg s. apply settings_kept_untouched; reflexivity.
  - intros a b s. apply settings_kept_untouched; reflexivity.
  - intros prop f Hf. apply steps_modify_config. intros s c Hc.
    repeat split. cbn [config set_config]. rewrite Hc. apply Hf.
  - intros qs s. apply settings_kept_untouched; reflexivity.
  - intros this s. apply settings_kept_untouched; reflexivity.
Qed.

Lemma settings_kept_run_events (events : list value) (s : state) :
  settings_kept s (run_events events s).
Proof.
  revert s. induction events as [|e tl IH]; intros s; cbn [run_events fold_left].
  - apply (frame_refl (R := settings_kept)).
  - eapply (frame_trans (R := settings_kept)); [apply settings_kept_track|apply IH].
Qed.

(** X8: Whatever events are tracked, and whether their handlers return or
    throw, the settings of the adapter stay: the page details, the customer
    id, the publisher's sampling, the state of the remote configuration, the
    logging percentage, the URL key, the debug flag and the debug
    configuration.  No event sends a configuration request or calls the
    inherited [enableAnalytics], and an event never creates or removes
    [config]. *)
Theorem track_keeps_settings (events : list value) (s : state) :
  pageDetails (run_events events s) = pageDetails s
  /\ ajax_requests (run_events events s) = ajax_requests s
  /\ origin_calls (run_events events s) = origin_calls s
  /\ analyticsEnabled (run_events events s) = analyticsEnabled s
  /\ (config s = None -> config (run_events events s) = None)
  /\ (forall c, config s = Some c ->
        exists c', config (run_events events s) = Some c'
                   /\ cid c' = cid c
                   /\ pubLper c' = pubLper c
                   /\ ajaxState c' = ajaxState c
                   /\ loggingPercent c' = loggingPercent c
                   /\ urlToConsume c' = urlToConsume c
                   /\ debug c' = debug c
                   /\ mnetDebugConfig c' = mnetDebugConfig c).
Proof.
  destruct (settings_kept_run_events events s) as (H1 & H2 & H3 & H4 & H5).
  repeat (split; [assumption|]). split.
  - intros Hc. rewrite Hc in H5. destruct (config (run_events events s)); tauto.
  - intros c Hc. rewrite Hc in H5.
    destruct (config (run_events events s)) as [c'|]; [|contradiction].
    destruct H5 as (? & ? & ? & ? & ? & ? & ? & _).
    exists c'. repeat split; assumption.
Qed.

(** X9: The consent string for the US privacy law is written once: when
    [config.uspConsent] is truthy, no event changes it, whatever
    [uspConsent] later BID_REQUESTED events carry. *)
Theorem uspConsent_is_kept (events : list value) (s : state) (c : Configure) :
  config s = Some c ->
  truthy (uspConsent c) = true ->
  exists c', config (run_events events s) = Some c'
             /\ uspConsent c' = uspConsent c.
Proof.
  intros Hc Hu.
  destruct (settings_kept_run_events events s) as (_ & _ & _ & _ & H5).
  rewrite Hc in H5.
  destruct (config (run_events events s)) as [c'|]; [|contradiction].
  exists c'. split; [reflexivity|]. apply H5. exact Hu.
Qed.

(** *** The configuration over every call *)

(** [config] and [pageDetails] are there together, and the URL key is the
    default key or one of the three valid keys. *)
Definition config_ok (s : state) : Prop :=
  match config s, pageDetails s with
  | Some c, Some _ => In (urlToConsume c) (DEFAULT_URL_KEY :: VALID_URL_KEY)
  | None, None => True
  | _, _ => False
  end.

(** Code that leaves [pageDetails] alone and [config] with its URL key. *)
Definition url_key_kept (s s' : state) : Prop :=
  pageDetails s' = pageDetails s
  /\ match config s, config s' with
     | Some c, Some c' => urlToConsume c' = urlToConsume c
     | None, None => True
     | _, _ => False
     end.

#[local] Instance url_key_kept_frame : Frame url_key_kept.
Proof.
  split.
  - intros s. split; [reflexivity|]. destruct (config s); auto.
  - intros a b c [A1 A2] [B1 B2]. split; [congruence|].
    destruct (config a), (config b), (config c); try contradiction; try exact I.
    congruence.
Qed.

Lemma url_key_kept_ok (s s' : state) : url_key_kept s s' -> config_ok s -> config_ok s'.
Proof.
  intros [Hpd Hc]. unfold config_ok. rewrite Hpd.
  destruct (config s), (config s'); try contradiction; auto.
  rewrite Hc. auto.
Qed.

Lemma url_key_kept_modify (f : state -> state) :
  (forall s, pageDetails (f s) = pageDetails s) ->
  (forall s, config (f s) = config s) ->
  steps url_key_kept (modify f).
Proof.
  intros Hpd Hc. apply steps_modify. intros s. split; [apply Hpd|].
  rewrite Hc. destruct (config s); auto.
Qed.

Lemma url_key_kept_modify_config (prop : string) (f : Configure -> Configure) :
  (forall c, urlToConsume (f c) = urlToConsume c) ->
  steps url_key_kept (modify_config prop f).
Proof.
  intros Hf. apply steps_modify_config. intros s c Hc. split; [reflexivity|].
  cbn [config set_config]. rewrite Hc. apply Hf.
Qed.

Ltac url_key_steps :=
  walk;
  first [ apply url_key_kept_modify_config; intros; reflexivity
        | apply url_key_kept_modify; intros; reflexivity
        | idtac ].

Lemma url_key_kept_ErrorLogger (event : string) (data : value) :
  steps url_key_kept (ErrorLogger event data).
Proof. unfold ErrorLogger. url_key_steps. Qed.

Lemma url_key_kept_ErrorLogger_send (this : obj value) :
  steps url_key_kept (ErrorLogger_send this).
Proof. unfold ErrorLogger_send, triggerPixel. url_key_steps. Qed.

Lemma url_key_kept_setDataFromResponse (r : value) :
  steps url_key_kept (setDataFromResponse r).
Proof. unfold setDataFromResponse. url_key_steps. Qed.

Lemma url_key_kept_Configure_init : steps url_key_kept Configure_init.
Proof. unfold Configure_init, _configURL, ajax. url_key_steps. Qed.

Lemma url_key_kept_track (event : value) : steps url_key_kept (track event).
Proof.
  intros s. destruct (settings_kept_track event s) as (Hpd & _ & _ & _ & Hc).
  split; [exact Hpd|].
  destruct (config s), (config (snd (track event s))); try contradiction; auto.
  apply Hc.
Qed.

(** Where the invariant holds, it holds after the code, which may change
    the URL key to a valid one. *)
Definition config_ok_kept (s s' : state) : Prop := config_ok s -> config_ok s'.

#[local] Instance config_ok_kept_frame : Frame config_ok_kept.
Proof. apply preserved_frame. Qed.

Lemma config_ok_kept_of {A} (m : M A) : steps url_key_kept m -> steps config_ok_kept m.
Proof. intros Hm s Hs. eapply url_key_kept_ok; [apply Hm|exact Hs]. Qed.

(** The write of the URL key in [_parseResponse]. *)
Lemma config_ok_urlKey (urlKey : value) :
  steps config_ok_kept
    (modify_config "urlToConsume"
       (fun c => set_urlToConsume
                   (match urlKey with
                    | VStr k => if Utils.includes VALID_URL_KEY urlKey then k
                                else urlToConsume c
                    | _ => urlToConsume c
                    end) c)).
Proof.
  apply steps_modify_config. intros s c Hc. unfold config_ok_kept, config_ok.
  cbn [config pageDetails set_config urlToConsume set_urlToConsume].
  rewrite Hc. destruct (pageDetails s); auto.
  destruct urlKey as [| | | |k| | |]; auto.
  destruct (Utils.includes VALID_URL_KEY (VStr k)) eqn:Hin; auto.
  intros _. right. apply includes_In. exact Hin.
Qed.

Lemma config_ok_parseResponse (response : string) :
  steps config_ok_kept (_parseResponse response).
Proof.
  unfold _parseResponse, _parseResponse_try, overrideDomainLevelData, overrideToDebug.
  walk;
    first [ apply config_ok_urlKey
          | apply config_ok_kept_of;
            first [ apply url_key_kept_setDataFromResponse
                  | apply url_key_kept_modify_config; intros; reflexivity
                  | apply url_key_kept_ErrorLogger
                  | apply url_key_kept_ErrorLogger_send ] ].
Qed.

Lemma config_ok_enableAnalytics (configuration : value) :
  steps config_ok_kept (enableAnalytics configuration).
Proof.
  intros s Hs. unfold enableAnalytics.
  destruct (negb (truthy configuration)
            || negb (truthy (get configuration "options"))
            || negb (truthy (get (get configuration "options") "cid"))).
  { exact Hs. }
  cbv zeta. unfold bind at 1. unfold modify at 1.
  unfold bind at 1. unfold lift at 1.
  destruct new_PageDetail as [pd|e]; [|exact Hs].
  unfold bind at 1. unfold modify at 1.
  unfold bind at 1. unfold modify at 1.
  match goal with |- config_ok (snd (?m ?s1)) =>
    assert (Hrest : steps url_key_kept m);
    [|apply (url_key_kept_ok s1 _ (Hrest s1)); unfold config_ok; cbn; auto]
  end.
  unfold set_prop. url_key_steps. apply url_key_kept_Configure_init.
Qed.

Lemma config_ok_call (c : call) (s : state) :
  config_ok s -> config_ok (snd (run_call c s)).
Proof.
  destruct c as [configuration|response| |event|]; cbn [run_call].
  - apply config_ok_enableAnalytics.
  - apply config_ok_parseResponse.
  - apply config_ok_kept_of. unfold _errorFetch.
    walk; first [ apply url_key_kept_modify_config; intros; reflexivity
                | apply url_key_kept_ErrorLogger
                | apply url_key_kept_ErrorLogger_send ].
  - apply config_ok_kept_of. apply url_key_kept_track.
  - apply config_ok_kept_of. unfold clearlogsQueue.
    apply url_key_kept_modify; intros; reflexivity.
Qed.

(** X10: From the loading of the module on, whatever is called of the adapter
    and whatever it is given: [pageDetails] and [config] are there together
    or not at all, since [enableAnalytics] creates both and nothing removes
    them; and [config.urlToConsume] names the default [topmostLocation] or
    one of the three valid URL keys, so a remote configuration cannot make
    the adapter report another property of the page details as the page
    URL. *)
Theorem config_is_well_formed (calls : list call) :
  (config (run_calls calls initial_state) = None
   /\ pageDetails (run_calls calls initial_state) = None)
  \/ (exists c pd,
        config (run_calls calls initial_state) = Some c
        /\ pageDetails (run_calls calls initial_state) = Some pd
        /\ In (urlToConsume c)
              ["topmostLocation"; "canonical_url"; "og_url"; "twitter_url"]).
Proof.
  assert (Hok : config_ok (run_calls calls initial_state)).
  { apply run_calls_invariant; [apply config_ok_call|exact I]. }
  unfold config_ok in Hok.
  destruct (config (run_calls calls initial_state)) as [c|],
           (pageDetails (run_calls calls initial_state)) as [pd|];
    try contradiction; [right; eauto|left; auto].
Qed.

(** *** The queues and the pixels *)

Definition log_url (u : string) : Prop := String.prefix (ENDPOINT ++ "&") u = true.
Definition error_url (u : string) : Prop := String.prefix (EVENT_PIXEL_URL ++ "?") u = true.

(** The queues have grown at their ends, by log URLs and by error URLs,
    and the pixels triggered meanwhile are those URLs. *)
Definition queued (s s' : state) : Prop :=
  exists l e p,
    logsQueue s' = (logsQueue s ++ l)%list
    /\ errorQueue s' = (errorQueue s ++ e)%list
    /\ pixels s' = (pixels s ++ p)%list
    /\ Permutation p (l ++ e)
    /\ Forall log_url l
    /\ Forall error_url e.

#[local] Instance queued_frame : Frame queued.
Proof.
  split.
  - intros s. exists [], [], []. rewrite !app_nil_r. repeat split; constructor.
  - intros a b c (l1 & e1 & p1 & A1 & A2 & A3 & A4 & A5 & A6)
                 (l2 & e2 & p2 & B1 & B2 & B3 & B4 & B5 & B6).
    exists (l1 ++ l2)%list, (e1 ++ e2)%list, (p1 ++ p2)%list.
    rewrite B1, B2, B3, A1, A2, A3, <- !app_assoc.
    repeat (split; [reflexivity|]). split; [|split; apply Forall_app; auto].
    eapply Permutation_trans; [apply Permutation_app; eassumption|].
    rewrite <- !app_assoc. apply Permutation_app_head.
    rewrite !app_assoc. apply Permutation_app_tail. apply Permutation_app_comm.
Qed.

Lemma queued_untouched (s s' : state) :
  logsQueue s' = logsQueue s -> errorQueue s' = errorQueue s ->
  pixels s' = pixels s -> queued s s'.
Proof.
  intros H1 H2 H3. exists [], [], []. rewrite !app_nil_r.
  repeat split; try assumption; constructor.
Qed.

Lemma queued_firePixel (qs : string) : steps queued (firePixel qs).
Proof.
  intros s. exists [(ENDPOINT ++ "&" ++ qs)%string], [], [(ENDPOINT ++ "&" ++ qs)%string].
  split; [reflexivity|]. split; [symmetry; apply app_nil_r|].
  split; [reflexivity|]. split; [apply Permutation_refl|].
  split; [|constructor]. repeat constructor.
  apply (prefix_self_app (ENDPOINT ++ "&") qs).
Qed.

Lemma queued_ErrorLogger_send (this : obj value) : steps queued (ErrorLogger_send this).
Proof.
  intros s.
  exists [], [(EVENT_PIXEL_URL ++ "?" ++ formatQS this)%string],
         [(EVENT_PIXEL_URL ++ "?" ++ formatQS this)%string].
  split; [symmetry; apply app_nil_r|]. split; [reflexivity|].
  split; [reflexivity|]. split; [apply Permutation_refl|].
  split; [constructor|]. repeat constructor.
  apply (prefix_self_app (EVENT_PIXEL_URL ++ "?") (formatQS this)).
Qed.

Lemma queued_modify_config (prop : string) (f : Configure -> Configure) :
  steps queued (modify_config prop f).
Proof. apply steps_modify_config. intros s c _. apply queued_untouched; reflexivity. Qed.

Lemma queued_track (event : value) : steps queued (track event).
Proof.
  apply rule_track.
  - intros key a s _. apply queued_untouched; reflexivity.
  - intros id prop f s _. unfold modify_auction.
    destruct (oget (ToString id) (auctions s)); apply queued_untouched; reflexivity.
  - intros s. apply queued_untouched; reflexivity.
  - intros s. apply queued_untouched; reflexivity.
  - intros msg s. apply queued_untouched; reflexivity.
  - intros a b s. apply queued_untouched; reflexivity.
  - intros prop f _. apply queued_modify_config.
  - apply queued_firePixel.
  - apply queued_ErrorLogger_send.
Qed.

(** X11: Along any events, whether their handlers return or throw, the two
    queues only grow at their ends: [logsQueue] by URLs of the log endpoint,
    [errorQueue] by URLs of the event pixel.  The pixels triggered meanwhile
    are those URLs, each once: nothing is queued without being sent and
    nothing is sent without being queued. *)
Theorem events_queue_what_they_send (events : list value) (s : state) :
  exists l e p,
    logsQueue (run_events events s) = (logsQueue s ++ l)%list
    /\ errorQueue (run_events events s) = (errorQueue s ++ e)%list
    /\ pixels (run_events events s) = (pixels s ++ p)%list
    /\ Permutation p (l ++ e)
    /\ Forall (fun u => String.prefix (ENDPOINT ++ "&") u = true) l
    /\ Forall (fun u => String.prefix (EVENT_PIXEL_URL ++ "?") u = true) e.
Proof.
  revert s. induction events as [|ev tl IH]; intros s; cbn [run_events fold_left].
  - apply (frame_refl (R := queued)).
  - eapply (frame_trans (R := queued)); [apply queued_track|apply IH].
Qed.


Lemma queued_modify (f : state -> state) :
  (forall s, logsQueue (f s) = logsQueue s) ->
  (forall s, errorQueue (f s) = errorQueue s) ->
  (forall s, pixels (f s) = pixels s) ->
  steps queued (modify f).
Proof. intros H1 H2 H3. apply steps_modify. intros s. apply queued_untouched; auto. Qed.

Ltac queued_steps :=
  walk;
  first [ apply queued_modify_config
        | apply queued_ErrorLogger_send
        | apply queued_modify; intros; reflexivity
        | idtac ].

Lemma queued_setDataFromResponse (r : value) : steps queued (setDataFromResponse r).
Proof. unfold setDataFromResponse. queued_steps. Qed.

Lemma queued_parseResponse (response : string) : steps queued (_parseResponse response).
Proof.
  unfold _parseResponse, _parseResponse_try, overrideDomainLevelData, overrideToDebug,
    ErrorLogger.
  walk; first [apply queued_setDataFromResponse | queued_steps].
Qed.

Lemma queued_errorFetch : steps queued _errorFetch.
Proof. unfold _errorFetch, ErrorLogger. queued_steps. Qed.

Lemma queued_enableAnalytics (configuration : value) :
  steps queued (enableAnalytics configuration).
Proof.
  unfold enableAnalytics, logError, Configure_init, _configURL, ajax. queued_steps.
Qed.

(** Every URL of [logsQueue] is a URL of the log endpoint, every URL of
    [errorQueue] is a URL of the event pixel, and each of them has been
    triggered as a pixel. *)
Definition queues_ok (s : state) : Prop :=
  Forall log_url (logsQueue s)
  /\ Forall error_url (errorQueue s)
  /\ incl (logsQueue s) (pixels s)
  /\ incl (errorQueue s) (pixels s).

Lemma queued_ok (s s' : state) : queued s s' -> queues_ok s -> queues_ok s'.
Proof.
  intros (l & e & p & Hq1 & Hq2 & Hq3 & Hp & Hl & He) (H1 & H2 & H3 & H4).
  unfold queues_ok. rewrite Hq1, Hq2, Hq3.
  split; [apply Forall_app; auto|]. split; [apply Forall_app; auto|].
  split; intros u Hu; apply in_app_or in Hu as [Hu|Hu]; apply in_or_app.
  - left. apply H3. exact Hu.
  - right. apply (Permutation_in _ (Permutation_sym Hp)). apply in_or_app. auto.
  - left. apply H4. exact Hu.
  - right. apply (Permutation_in _ (Permutation_sym Hp)). apply in_or_app. auto.
Qed.

Lemma queues_ok_call (c : call) (s : state) :
  queues_ok s -> queues_ok (snd (run_call c s)).
Proof.
  destruct c as [configuration|response| |event|]; cbn [run_call].
  - apply queued_ok, queued_enableAnalytics.
  - apply queued_ok, queued_parseResponse.
  - apply queued_ok, queued_errorFetch.
  - apply queued_ok, queued_track.
  - intros (_ & _ & _ & _). unfold clearlogsQueue, modify. cbn.
    repeat split; try constructor; intros u Hu; contradiction.
Qed.

(** X12: From the loading of the module on, whatever is called of the adapter:
    [getlogsQueue] holds only URLs of the log endpoint, [getErrorQueue] only
    URLs of the event pixel, and every URL in either queue has been
    triggered as a pixel. *)
Theorem queues_hold_what_was_sent (calls : list call) :
  Forall (fun u => String.prefix (ENDPOINT ++ "&") u = true)
         (logsQueue (run_calls calls initial_state))
  /\ Forall (fun u => String.prefix (EVENT_PIXEL_URL ++ "?") u = true)
            (errorQueue (run_calls calls initial_state))
  /\ incl (logsQueue (run_calls calls initial_state))
          (pixels (run_calls calls initial_state))
  /\ incl (errorQueue (run_calls calls initial_state))
          (pixels (run_calls calls initial_state)).
Proof.
  apply (run_calls_invariant queues_ok queues_ok_call).
  repeat split; try constructor; intros u Hu; contradiction.
Qed.

(** *** The auctions along the events *)

Definition auctions_kept (s s' : state) : Prop :=
  forall k a, oget k (auctions s) = Some a ->
    exists a', oget k (auctions s') = Some a' /\ auction_step a a'.

#[local] Instance auctions_kept_frame : Frame auctions_kept.
Proof.
  split.
  - intros s k a Ha. exists a. split; [exact Ha|apply auction_step_refl].
  - intros a b c Hab Hbc k x Hx.
    destruct (Hab k x Hx) as (y & Hy & Hxy).
    destruct (Hbc k y Hy) as (z & Hz & Hyz).
    exists z. split; [exact Hz|eapply auction_step_trans; eassumption].
Qed.

Lemma auctions_kept_untouched (s s' : state) :
  auctions s' = auctions s -> auctions_kept s s'.
Proof. intros Ha k a Hk. rewrite Ha. exists a. split; [exact Hk|apply auction_step_refl]. Qed.

Lemma auctions_kept_track (event : value) : steps auctions_kept (track event).
Proof.
  apply rule_track.
  - intros key a s Hnone k x Hx. cbn [auctions set_auctions].
    destruct (String.eqb_spec k key) as [->|Hne]; [congruence|].
    rewrite (oget_oset_other _ _ _ _ Hne). exists x.
    split; [exact Hx|apply auction_step_refl].
  - intros id prop f s Hf. unfold modify_auction.
    destruct (oget (ToString id) (auctions s)) as [a|] eqn:Ha;
      [|apply (frame_refl (R := auctions_kept))].
    cbn [snd]. intros k x Hx. cbn [auctions set_auctions].
    destruct (String.eqb_spec k (ToString id)) as [->|Hne].
    + rewrite oget_oset_same. exists (f a). split; [reflexivity|].
      rewrite Ha in Hx. injection Hx as <-. apply Hf. reflexivity.
    + rewrite (oget_oset_other _ _ _ _ Hne). exists x.
      split; [exact Hx|apply auction_step_refl].
  - intros s. apply auctions_kept_untouched; reflexivity.
  - intros s. apply auctions_kept_untouched; reflexivity.
  - intros msg s. apply auctions_kept_untouched; reflexivity.
  - intros a b s. apply auctions_kept_untouched; reflexivity.
  - intros prop f _. apply steps_modify_config. intros s c _.
    apply auctions_kept_untouched; reflexivity.
  - intros qs s. apply auctions_kept_untouched; reflexivity.
  - intros this s. apply auctions_kept_untouched; reflexivity.
Qed.

Lemma auctions_kept_run_events (events : list value) (s : state) :
  auctions_kept s (run_events events s).
Proof.
  revert s. induction events as [|ev tl IH]; intros s; cbn [run_events fold_left].
  - apply (frame_refl (R := auctions_kept)).
  - eapply (frame_trans (R := auctions_kept)); [apply auctions_kept_track|apply IH].
Qed.


(** X14: Once the auction has ended, a NO_BID event for it is dropped, whatever
    events came in between: after [auctionEndHandler] and any further
    events, [noBidResponseHandler] changes nothing. *)
Theorem noBid_after_auctionEnd_is_dropped
    (args nobid : value) (events : list value) (s : state) (a : Auction) :
  is_nullish args = false ->
  is_nullish nobid = false ->
  oget (ToString (get args "auctionId")) (auctions s) = Some a ->
  ToString (get nobid "auctionId") = ToString (get args "auctionId") ->
  noBidResponseHandler nobid (run_events events (snd (auctionEndHandler args s)))
  = (Ok tt, run_events events (snd (auctionEndHandler args s))).
Proof.
  intros Hargs Hnobid Ha Hkey.
  assert (Hend : exists a1,
             oget (ToString (get args "auctionId"))
                  (auctions (snd (auctionEndHandler args s))) = Some a1
             /\ hasEnded a1 = true).
  { unfold auctionEndHandler, bind, lift, find_auction, gets, modify_auction.
    rewrite (get_prop_ok _ _ Hargs). cbn [fst snd]. rewrite !Ha.
    cbn [fst snd auctions set_auctions]. rewrite oget_oset_same.
    cbn [fst snd auctions set_auctions]. rewrite oget_oset_same.
    eexists. split; [reflexivity|]. unfold hasEnded. cbn. apply String.eqb_refl. }
  destruct Hend as (a1 & Ha1 & Hended).
  destruct (auctions_kept_run_events events _ _ _ Ha1)
    as (a2 & Ha2 & _ & _ & Hstays & _).
  unfold noBidResponseHandler, bind, lift, find_auction, gets.
  rewrite (get_prop_ok _ _ Hnobid). cbn [fst snd]. rewrite Hkey, Ha2.
  rewrite (Hstays Hended). reflexivity.
Qed.

End WithHost.
End AdapterInvariants.

(** ** The Media.net analytics adapter: the remote configuration *)

Module ConfigureProofs.
Import JS Medianet ObjFacts MedianetProofs.

Section WithHost.
Context {E : Engine} {H : Host}.

(** The test of [Configure.init] for the test mode. *)
Definition test_mode (urlObj : value) : bool :=
  truthy (Utils.deepAccess urlObj "search.medianet_test")
  || strict_eq (get urlObj "hostname") (VStr "localhost").

Lemma Configure_init_run
    (s : state) (c : Configure) (pd : PageDetail) (urlObj : value) :
  config s = Some c ->
  pageDetails s = Some pd ->
  URL_parseUrl (topmostLocation pd) = Ok urlObj ->
  exists c' s',
    Configure_init s = (Ok tt, s')
    /\ config s' = Some c'
    /\ pageDetails s' = pageDetails s
    /\ analyticsEnabled s' = analyticsEnabled s
    /\ origin_calls s' = origin_calls s
    /\ cid c' = cid c
    /\ pubLper c' = pubLper c
    /\ urlToConsume c' = urlToConsume c
    /\ (test_mode urlObj = true ->
          loggingPercent c' = num 100
          /\ ajaxState c' = CONFIG_PASS
          /\ debug c' = true
          /\ mnetDebugConfig c' = mnetDebugConfig c
          /\ ajax_requests s' = ajax_requests s)
    /\ (test_mode urlObj = false ->
          loggingPercent c' = loggingPercent c
          /\ ajaxState c' = ajaxState c
          /\ debug c' = debug c
          /\ mnetDebugConfig c'
             = (if truthy (Utils.deepAccess urlObj "search.mnet_setconfig")
                then Utils.deepAccess urlObj "search.mnet_setconfig"
                else mnetDebugConfig c)
          /\ ajax_requests s'
             = (ajax_requests s
                ++ [(CONFIG_URL ++ "?cid=" ++ Str.encodeURIComponent (ToString (cid c))
                       ++ "&dn=" ++ Str.encodeURIComponent (ToString (domain pd)))%string])%list).
Proof.
  intros Hc Hpd Hurl.
  unfold Configure_init, bind, get_pageDetails, lift. rewrite Hpd, Hurl.
  fold (test_mode urlObj). destruct (test_mode urlObj).
  - unfold modify_config. rewrite Hc. cbn.
    eexists _, _. repeat (split; [first [reflexivity|exact Hpd]|]).
    split; [intros _; repeat split|intros Hx; discriminate Hx].
  - unfold _configURL, ajax, modify, bind, get_config, get_pageDetails, modify_config, ret.
    generalize (Utils.deepAccess urlObj "search.mnet_setconfig"). intros sc.
    destruct (truthy sc);
      rewrite ?Hc; cbn; rewrite ?Hc, ?Hpd; cbn;
      eexists _, _; repeat (split; [first [reflexivity|exact Hc|exact Hpd]|]);
      (split; [intros Hx; discriminate Hx|intros _; repeat split]).
Qed.

(** X15: [Configure.init], once [enableAnalytics] has created [config] and
    [pageDetails] and the page URL parses.  On a page whose URL has a
    [medianet_test] parameter, or on [localhost], the logging percentage is
    forced to 100, the configuration counts as fetched, the debug flag is set
    and no request is sent.  Otherwise the percentage, the state and the flag
    stay, the [mnet_setconfig] parameter of the URL, if any, becomes the
    debug configuration, and one request goes to the configuration URL with
    the customer id and the domain. *)
Theorem Configure_init_test_mode_or_fetch
    (s : state) (c : Configure) (pd : PageDetail) (urlObj : value) :
  config s = Some c ->
  pageDetails s = Some pd ->
  URL_parseUrl (topmostLocation pd) = Ok urlObj ->
  exists c' s',
    Configure_init s = (Ok tt, s')
    /\ config s' = Some c'
    /\ cid c' = cid c
    /\ urlToConsume c' = urlToConsume c
    /\ (test_mode urlObj = true ->
          loggingPercent c' = num 100
          /\ ajaxState c' = CONFIG_PASS
          /\ debug c' = true
          /\ mnetDebugConfig c' = mnetDebugConfig c
          /\ ajax_requests s' = ajax_requests s)
    /\ (test_mode urlObj = false ->
          loggingPercent c' = loggingPercent c
          /\ ajaxState c' = ajaxState c
          /\ debug c' = debug c
          /\ mnetDebugConfig c'
             = (if truthy (Utils.deepAccess urlObj "search.mnet_setconfig")
                then Utils.deepAccess urlObj "search.mnet_setconfig"
                else mnetDebugConfig c)
          /\ ajax_requests s'
             = (ajax_requests s
                ++ [(CONFIG_URL ++ "?cid=" ++ Str.encodeURIComponent (ToString (cid c))
                       ++ "&dn=" ++ Str.encodeURIComponent (ToString (domain pd)))%string])%list).
Proof.
  intros Hc Hpd Hurl.
  destruct (Configure_init_run s c pd urlObj Hc Hpd Hurl)
    as (c' & s' & Hrun & Hc' & _ & _ & _ & Hcid & _ & Hkey & Htest & Hfetch).
  exists c', s'. repeat (split; [assumption|]). assumption.
Qed.

(** X16: [enableAnalytics] with a customer id, on a page whose details and URL
    are read without an exception: it returns with [pageDetails] and
    [config] created and the global flag set.  The configuration has the
    customer id of the options and the default URL key, and it records as
    [pubLper] the sampling the publisher asked for, or the empty string,
    before [options.sampling] is overwritten; outside the test mode it
    starts from the default logging percentage with its fetch pending. *)
Theorem enableAnalytics_creates_the_configuration
    (configuration : value) (s : state) (pd : PageDetail) (urlObj : value) :
  cid_missing configuration = false ->
  new_PageDetail = Ok pd ->
  URL_parseUrl (topmostLocation pd) = Ok urlObj ->
  exists c' s',
    enableAnalytics configuration s = (Ok tt, s')
    /\ config s' = Some c'
    /\ pageDetails s' = Some pd
    /\ analyticsEnabled s' = true
    /\ cid c' = get (get configuration "options") "cid"
    /\ pubLper c' = or (get (get configuration "options") "sampling") (VStr "")
    /\ urlToConsume c' = DEFAULT_URL_KEY
    /\ (test_mode urlObj = false ->
          loggingPercent c' = DEFAULT_LOGGING_PERCENT
          /\ ajaxState c' = CONFIG_PENDING
          /\ debug c' = false).
Proof.
  intros Hg Hpd Hurl.
  destruct (cid_present_shape configuration Hg) as (fs & opts & -> & Hopts).
  unfold enableAnalytics. fold (cid_missing (VObj fs)). rewrite Hg, Hopts.
  unfold bind at 1. unfold modify at 1.
  unfold bind at 1. unfold lift at 1. rewrite Hpd.
  unfold bind at 1. unfold modify at 1.
  unfold bind at 1. unfold modify at 1.
  unfold bind at 1. unfold modify_config at 1. cbn [config set_config].
  unfold bind at 1.
  match goal with |- context [Configure_init ?s1] => set (s1' := s1) end.
  set (c0 := set_pubLper (or (get (VObj opts) "sampling") (VStr ""))
               (new_Configure (get (VObj opts) "cid"))).
  destruct (Configure_init_run s1' c0 pd urlObj eq_refl eq_refl Hurl)
    as (c' & s2 & Hrun & Hc' & Hpd' & Hen & _ & Hcid & Hpub & Hkey & _ & Hfetch).
  rewrite Hrun.
  unfold bind, lift, modify. cbn [set_prop].
  eexists c', _. split; [reflexivity|].
  cbn [config pageDetails analyticsEnabled set_origin_calls].
  split; [exact Hc'|]. split; [rewrite Hpd'; reflexivity|].
  split; [rewrite Hen; reflexivity|].
  split; [rewrite Hcid; reflexivity|]. split; [rewrite Hpub; reflexivity|].
  split; [rewrite Hkey; reflexivity|].
  intros Htest. destruct (Hfetch Htest) as (H1 & H2 & H3 & _).
  rewrite H1, H2, H3. repeat split.
Qed.

(** The [ErrorLogger] object [_errorFetch] sends. *)
Definition fetch_error_logger (c : Configure) (pd : PageDetail) : obj value :=
  [("event", VStr ERROR_CONFIG_FETCH);
   ("logid", VStr "kfk");
   ("evtid", VStr "projectevents");
   ("project", VStr "prebidanalytics");
   ("dn", or (domain pd) (VStr ""));
   ("requrl", or (topmostLocation pd) (VStr ""));
   ("pbversion", VStr PREBID_VERSION);
   ("cid", or (cid c) (VStr ""));
   ("rd", VUndef)].

(** X17: When the request for the remote configuration fails, [_errorFetch]
    sets [ajaxState] to [CONFIG_ERROR] and sends one error pixel, tagged
    [analytics_config_ajax_fail], which it also appends to [errorQueue].
    Nothing else changes: the adapter goes on with the logging percentage
    and the URL key it had. *)
Theorem _errorFetch_reports_the_failure (s : state) (c : Configure) (pd : PageDetail) :
  config s = Some c ->
  pageDetails s = Some pd ->
  let url := EVENT_PIXEL_URL ++ "?" ++ formatQS (fetch_error_logger c pd) in
  _errorFetch s =
    (Ok tt,
     set_pixels (pixels s ++ [url])%list
       (set_errorQueue (errorQueue s ++ [url])%list
          (set_config (Some (set_ajaxState CONFIG_ERROR c)) s)))
  /\ String.prefix
       (EVENT_PIXEL_URL
        ++ "?event=analytics_config_ajax_fail&logid=kfk&evtid=projectevents&")
       url = true
  /\ loggingPercent (set_ajaxState CONFIG_ERROR c) = loggingPercent c
  /\ urlToConsume (set_ajaxState CONFIG_ERROR c) = urlToConsume c.
Proof.
  intros Hc Hpd url. split; [|split; [reflexivity|split; reflexivity]].
  unfold _errorFetch, ErrorLogger, ErrorLogger_send, modify_config, get_pageDetails,
    get_config, triggerPixel, modify, ret, bind.
  rewrite Hc. cbn [config pageDetails set_config]. rewrite Hpd. reflexivity.
Qed.





End WithHost.
End ConfigureProofs.

(** ** The Media.net analytics adapter: the handlers at their edges *)

Module HandlerProofs.
Import JS Medianet ObjFacts MedianetProofs TrackFrames.

Lemma forEach_unchanged {A} (l : list A) (f : A -> M unit) (s : state) :
  (forall x, In x l -> f x s = (Ok tt, s)) -> forEach l f s = (Ok tt, s).
Proof.
  induction l as [|x tl IH]; intros Hf; [reflexivity|].
  cbn [forEach]. unfold bind. rewrite (Hf x (or_introl eq_refl)).
  apply IH. intros y Hy. apply Hf. right. exact Hy.
Qed.

Lemma okeys_oget {A} (k : string) (o : obj A) :
  In k (okeys o) -> exists v, oget k o = Some v.
Proof.
  induction o as [|[k' v] tl IH]; intros Hin; [contradiction|].
  cbn [oget]. destruct (String.eqb_spec k' k) as [->|Hne]; [eauto|].
  destruct Hin as [Heq|Hin]; [contradiction|]. apply IH. exact Hin.
Qed.

Section WithHost.
Context {E : Engine} {H : Host}.

(** Code that leaves [config] alone. *)
Definition config_same (s s' : state) : Prop := config s' = config s.

#[local] Instance config_same_frame : Frame config_same.
Proof. split; unfold config_same; congruence. Qed.

Lemma config_same_modify_auction (id : value) (prop : string) (f : Auction -> Auction) :
  steps config_same (modify_auction id prop f).
Proof. apply steps_modify_auction. intros s a _. reflexivity. Qed.

Lemma config_same_bidRequested_bid (auctionId start bid : value) :
  steps config_same (bidRequested_bid auctionId start bid).
Proof. unfold bidRequested_bid. walk; apply config_same_modify_auction. Qed.

(** X19: An event the adapter cannot place is ignored.  For an auction it has
    no entry for, the handlers of BID_REQUESTED, BID_RESPONSE, NO_BID,
    BID_TIMEOUT and AUCTION_END return and change nothing; so does the
    handler of BID_RESPONSE for a response that matches no recorded bid
    request, under its [originalRequestId] or else its [requestId]. *)
Theorem events_without_auction_or_request_are_ignored (args : value) (s : state) :
  is_nullish args = false ->
  (oget (ToString (get args "auctionId")) (auctions s) = None ->
     bidRequestedHandler args s = (Ok tt, s)
     /\ bidResponseHandler args s = (Ok tt, s)
     /\ noBidResponseHandler args s = (Ok tt, s)
     /\ bidTimeoutHandler (VArr [args]) s = (Ok tt, s)
     /\ auctionEndHandler args s = (Ok tt, s))
  /\ (forall a,
        oget (ToString (get args "auctionId")) (auctions s) = Some a ->
        findReqBid a (or (get args "originalRequestId") (get args "requestId")) = None ->
        bidResponseHandler args s = (Ok tt, s)).
Proof.
  intros Hargs. split.
  - intros Hnone.
    assert (Hone : bidTimeout_bid args s = (Ok tt, s)).
    { unfold bidTimeout_bid, bind, lift, find_auction, gets.
      rewrite (get_prop_ok _ _ Hargs). cbn [fst snd]. rewrite Hnone. reflexivity. }
    unfold bidRequestedHandler, bidResponseHandler, noBidResponseHandler,
      bidTimeoutHandler, auctionEndHandler.
    unfold bind, lift, find_auction, gets. rewrite !(get_prop_ok _ _ Hargs).
    cbn [fst snd as_array forEach]. rewrite !Hnone.
    repeat (split; [reflexivity|]). split; [|reflexivity].
    unfold bind. rewrite Hone. reflexivity.
  - intros a Ha Hreq. unfold bidResponseHandler.
    unfold bind at 1. unfold lift at 1. rewrite (get_prop_ok _ _ Hargs).
    unfold bind at 1. unfold find_auction, gets. rewrite Ha. cbv zeta.
    rewrite Hreq. reflexivity.
Qed.

(** The details [bidWonHandler] reports with an error. *)
Definition winning_bid_details (bid : value) : value :=
  VObj [("adId", get bid "adId"); ("auctionId", get bid "auctionId");
        ("adUnitCode", get bid "adUnitCode"); ("bidder", get bid "bidder");
        ("requestId", get bid "requestId");
        ("originalRequestId", get bid "originalRequestId")].

Definition winning_bid_error (event : string) (bid : value) (c : Configure)
    (pd : PageDetail) : string :=
  EVENT_PIXEL_URL ++ "?"
    ++ formatQS [("event", VStr event);
                 ("logid", VStr "kfk");
                 ("evtid", VStr "projectevents");
                 ("project", VStr "prebidanalytics");
                 ("dn", or (domain pd) (VStr ""));
                 ("requrl", or (topmostLocation pd) (VStr ""));
                 ("pbversion", VStr PREBID_VERSION);
                 ("cid", or (cid c) (VStr ""));
                 ("rd", winning_bid_details bid)].

(** The state after an error pixel. *)
Definition with_error_pixel (url : string) (s : state) : state :=
  set_pixels (pixels s ++ [url])%list (set_errorQueue (errorQueue s ++ [url])%list s).

(** X20: A BID_WON event the adapter cannot place is reported, not logged:
    for an auction it has no entry for it sends one error pixel tagged
    [winning_auction_missing], for an auction without a bid object of the
    winning [adId] one tagged [winning_bid_absent], each with the ids of the
    event.  The auctions and [logsQueue] are as before. *)
Theorem bidWonHandler_reports_what_it_cannot_place
    (bid : value) (s : state) (c : Configure) (pd : PageDetail) :
  is_nullish bid = false ->
  config s = Some c ->
  pageDetails s = Some pd ->
  (oget (ToString (get bid "auctionId")) (auctions s) = None ->
     bidWonHandler bid s
     = (Ok tt,
        with_error_pixel (winning_bid_error ERROR_WINNING_AUCTION_MISSING bid c pd) s))
  /\ (forall a,
        oget (ToString (get bid "auctionId")) (auctions s) = Some a ->
        findBidObj a "adId" (get bid "adId") = None ->
        bidWonHandler bid s
        = (Ok tt,
           with_error_pixel (winning_bid_error ERROR_WINNING_BID_ABSENT bid c pd) s)).
Proof.
  intros Hbid Hc Hpd. split.
  - intros Hnone. unfold bidWonHandler.
    unfold bind at 1. unfold lift at 1. rewrite (get_prop_ok _ _ Hbid). cbv zeta.
    unfold bind at 1. unfold find_auction, gets. rewrite Hnone.
    unfold ErrorLogger, ErrorLogger_send, get_pageDetails, get_config,
      triggerPixel, modify, ret, bind.
    rewrite Hpd, Hc. reflexivity.
  - intros a Ha Hbidobj. unfold bidWonHandler.
    unfold bind at 1. unfold lift at 1. rewrite (get_prop_ok _ _ Hbid). cbv zeta.
    unfold bind at 1. unfold find_auction, gets. rewrite Ha, Hbidobj.
    unfold ErrorLogger, ErrorLogger_send, get_pageDetails, get_config,
      triggerPixel, modify, ret, bind.
    rewrite Hpd, Hc. reflexivity.
Qed.

(** The bid [addSlot] records with a new ad slot. *)
Definition dummy_bid (start : value) (adUnitCode : string)
    (mediaTypes allMediaTypeSizes : value) : Bid :=
  new_Bid (VStr "-1") (VStr DUMMY_BIDDER) (VStr "client") start (VStr adUnitCode)
          mediaTypes allMediaTypeSizes VUndef.

(** X21: [Auction.addSlot] adds an ad slot once.  For an ad-unit code
    under which [adSlots] is [undefined] (the auction has no slot for it, and
    it is not a name every object inherits from [Object.prototype]), it
    creates the slot, not yet logged and without targeting, and appends to
    the bid objects one bid of the dummy bidder for the ad unit, started at
    the time read from the clock, with status [BID_SUCCESS].  For an empty
    code, a code that has its slot, or an inherited name such as
    [toString], it does nothing. *)
Theorem addSlot_adds_a_slot_once
    (id : value) (adUnitCode : string)
    (supplyAdCode mediaTypes allMediaTypeSizes tmax adext context : value)
    (s : state) (a : Auction) :
  oget (ToString id) (auctions s) = Some a ->
  (adUnitCode <> "" -> oget adUnitCode (adSlots a) = None ->
   inherited adUnitCode = false ->
     exists a',
       fst (addSlot id adUnitCode supplyAdCode mediaTypes allMediaTypeSizes
                    tmax adext context s) = Ok tt
       /\ oget (ToString id)
               (auctions (snd (addSlot id adUnitCode supplyAdCode mediaTypes
                                       allMediaTypeSizes tmax adext context s)))
          = Some a'
       /\ oget adUnitCode (adSlots a')
          = Some (new_AdSlot tmax supplyAdCode context adext)
       /\ (forall k, k <> adUnitCode -> oget k (adSlots a') = oget k (adSlots a))
       /\ bidObjs a'
          = (bidObjs a
             ++ [dummy_bid (VNum (Date_now (clock_reads s))) adUnitCode mediaTypes
                           allMediaTypeSizes])%list
       /\ bget (dummy_bid (VNum (Date_now (clock_reads s))) adUnitCode mediaTypes
                          allMediaTypeSizes) "status" = BID_SUCCESS
       /\ clock_reads (snd (addSlot id adUnitCode supplyAdCode mediaTypes
                                    allMediaTypeSizes tmax adext context s))
          = S (clock_reads s))
  /\ (adUnitCode = "" \/ ohas adUnitCode (adSlots a) = true
      \/ inherited adUnitCode = true ->
        addSlot id adUnitCode supplyAdCode mediaTypes allMediaTypeSizes
                tmax adext context s = (Ok tt, s)).
Proof.
  intros Ha. split.
  - intros Hcode Hnone Hname.
    assert (Hguard : truthy (VStr adUnitCode) && slot_undefined adUnitCode a = true).
    { apply andb_true_iff. split.
      - cbn. destruct adUnitCode; [contradiction|reflexivity].
      - unfold slot_undefined. rewrite Hname.
        apply ohas_false_iff in Hnone. rewrite Hnone. reflexivity. }
    set (a1 := set_adSlots
                 (oset adUnitCode (new_AdSlot tmax supplyAdCode context adext)
                       (adSlots a)) a).
    set (a2 := addBidObj true
                 (dummy_bid (VNum (Date_now (clock_reads s))) adUnitCode mediaTypes
                            allMediaTypeSizes) a1).
    assert (Hrun :
      addSlot id adUnitCode supplyAdCode mediaTypes allMediaTypeSizes tmax adext
              context s
      = (Ok tt,
         set_auctions
           (oset (ToString id) a2 (oset (ToString id) a1 (auctions s)))
           (set_clock_reads (S (clock_reads s))
              (set_auctions (oset (ToString id) a1 (auctions s)) s)))).
    { unfold addSlot, bind, get_auction. rewrite Ha, Hguard.
      unfold modify_auction at 1. rewrite Ha.
      unfold Date_now_read at 1. unfold modify_auction.
      cbn [fst snd auctions set_auctions set_clock_reads clock_reads].
      rewrite oget_oset_same. reflexivity. }
    rewrite Hrun. cbn [fst snd auctions set_auctions set_clock_reads clock_reads].
    exists a2. split; [reflexivity|]. split; [apply oget_oset_same|].
    subst a2 a1. unfold addBidObj.
    cbn [adSlots bidObjs set_adSlots set_bidObjs set_bidReqs].
    split; [apply oget_oset_same|].
    split; [intros k Hk; apply oget_oset_other; exact Hk|].
    split; [reflexivity|]. split; reflexivity.
  - intros Hskip. unfold addSlot.
    unfold bind at 1. unfold get_auction at 1. rewrite Ha.
    assert (Hguard : truthy (VStr adUnitCode) && slot_undefined adUnitCode a = false).
    { unfold slot_undefined. destruct Hskip as [->|[Hhas|Hname]]; [reflexivity| |].
      - rewrite Hhas. apply andb_false_r.
      - rewrite Hname. rewrite !andb_false_r. reflexivity. }
    rewrite Hguard. reflexivity.
Qed.

Lemma groupBy_not_empty (xs : list value) (key : string) (rv g : obj (list value)) :
  groupBy xs key rv = Ok g -> xs <> [] \/ rv <> [] -> g <> [].
Proof.
  revert rv. induction xs as [|x tl IH]; intros rv Hg Hne; cbn [groupBy] in Hg.
  - injection Hg as <-. destruct Hne as [Hne|Hne]; [contradiction|exact Hne].
  - destruct (get_prop x key) as [k|]; [|discriminate].
    assert (Hset : forall l, oset (ToString k) l rv <> []).
    { intros l Hnil.
      apply (f_equal (@List.length _)) in Hnil. rewrite length_oset in Hnil.
      destruct (ohas (ToString k) rv) eqn:Hhas.
      + apply ohas_true_iff in Hhas as [v Hv]. destruct rv; [discriminate|discriminate].
      + discriminate. }
    destruct (oget (ToString k) rv) as [l|];
      [|destruct (inherited (ToString k)); [discriminate|]];
      apply (IH _ Hg); right; apply Hset.
Qed.

(** X22: An AUCTION_INIT event without an auction id cannot have ad units: the
    handler creates no auction for it, and [addAddSlots] then throws at the
    first ad-unit code, for which it finds no auction to add the slot to.
    Nothing has changed when it throws. *)
Theorem auctionInitHandler_needs_an_auction_for_its_ad_units
    (args : value) (s : state) (adUnit : value) (adUnits : list value) :
  is_nullish args = false ->
  truthy (get args "auctionId") = false ->
  oget (ToString (get args "auctionId")) (auctions s) = None ->
  get args "adUnits" = VArr (adUnit :: adUnits) ->
  exists e, auctionInitHandler args s = (Throw e, s).
Proof.
  intros Hargs Hid Hnone Hunits. unfold auctionInitHandler.
  unfold bind at 1. unfold lift at 1. rewrite (get_prop_ok _ _ Hargs). cbv zeta.
  unfold bind at 1. unfold auction_undefined, gets. cbn [fst snd]. rewrite Hid.
  cbn [andb]. unfold bind at 1. unfold ret at 1.
  unfold bind at 1.
  assert (Hthrow : exists e,
            addAddSlots (get args "auctionId") (get args "adUnits")
                        (get args "timeout") s = (Throw e, s)).
  { unfold addAddSlots. rewrite Hunits. cbn [or truthy as_array].
    unfold bind at 1. unfold lift at 1.
    unfold bind at 1. unfold lift at 1.
    destruct (groupBy (adUnit :: adUnits) "code" []) as [g|e] eqn:Hg; [|eauto].
    assert (Hne : g <> []).
    { apply (groupBy_not_empty _ _ _ _ Hg). left. discriminate. }
    destruct g as [|grp rest]; [contradiction|].
    cbn [forEach]. unfold bind at 1. unfold addAddSlots_code at 1.
    unfold bind at 1. unfold lift at 1.
    destruct (rfold addAddSlots_unit (snd grp) _) as [acc|e]; [|eauto].
    unfold addSlot. unfold bind at 1. unfold get_auction. rewrite Hnone. eauto. }
  destruct Hthrow as [e ->]. eauto.
Qed.

(** X23: Targeting for ad units that no auction has a slot for changes
    nothing: [setTargetingHandler] neither marks a bid nor sends a log. *)
Theorem setTargetingHandler_ignores_unknown_ad_units
    (fields : obj value) (s : state) :
  (forall adunit k a,
     In adunit (okeys fields) -> oget k (auctions s) = Some a ->
     oget adunit (adSlots a) = None) ->
  setTargetingHandler (VObj fields) s = (Ok tt, s).
Proof.
  intros Hnone. unfold setTargetingHandler.
  unfold bind at 1. unfold lift at 1. cbn [Object_keys].
  apply forEach_unchanged. intros adunit Hin.
  unfold bind at 1. unfold gets at 1.
  apply forEach_unchanged. intros auctionId Hid.
  destruct (okeys_oget _ _ Hid) as [a Ha].
  unfold bind, get_auction. cbn [ToString]. rewrite Ha.
  rewrite (Hnone adunit auctionId a Hin Ha). reflexivity.
Qed.

(** X24: What a BID_REQUESTED event for a known auction records of the consent
    it carries, whether or not the handler then finishes with the bids:
    [gdprApplies] is set anew, to whether the event has a [gdpr] object that
    applies; the consent string is replaced only when it applies, so a
    string recorded earlier stays when it does not; [uspConsent] is set only
    while the adapter has none. *)
Theorem bidRequestedHandler_records_consent
    (args : value) (s : state) (c : Configure) (a : Auction) :
  is_nullish args = false ->
  config s = Some c ->
  oget (ToString (get args "auctionId")) (auctions s) = Some a ->
  exists c',
    config (snd (bidRequestedHandler args s)) = Some c'
    /\ gdprApplies c'
       = VBool (truthy (and (get args "gdpr") (get (get args "gdpr") "gdprApplies")))
    /\ gdprConsent c'
       = (if truthy (and (get args "gdpr") (get (get args "gdpr") "gdprApplies"))
          then or (get (get args "gdpr") "consentString") (VStr "")
          else gdprConsent c)
    /\ uspConsent c' = or (uspConsent c) (get args "uspConsent").
Proof.
  intros Hargs Hc Ha. unfold bidRequestedHandler.
  unfold bind at 1. unfold lift at 1. rewrite (get_prop_ok _ _ Hargs). cbv zeta.
  unfold bind at 1. unfold find_auction, gets. cbn [fst snd]. rewrite Ha.
  unfold bind at 1. unfold modify_config at 1. rewrite Hc.
  unfold bind at 1. unfold get_config at 1. cbn [config set_config].
  cbn [gdprApplies set_gdprApplies truthy].
  set (applies := truthy (and (get args "gdpr") (get (get args "gdpr") "gdprApplies"))).
  set (c' := set_uspConsent (or (uspConsent c) (get args "uspConsent"))
               (if applies
                then set_gdprConsent (or (get (get args "gdpr") "consentString") (VStr ""))
                       (set_gdprApplies (VBool applies) c)
                else set_gdprApplies (VBool applies) c)).
  match goal with
  | |- exists x, config (snd (bind ?m1 (fun _ => bind ?m2 (fun _ => bind ?m3 ?k)) ?s0)) = _ /\ _ =>
      assert (Hrun : exists s3,
                bind m1 (fun _ => bind m2 (fun _ => bind m3 k)) s0
                = bind (lift (as_array "forEach" (get args "bids")))
                       (fun bids => forEach bids
                          (bidRequested_bid (get args "auctionId") (get args "start")))
                       s3
                /\ config s3 = Some c')
  end.
  { unfold bind at 1. destruct applies eqn:Happ.
    - unfold modify_config at 1. cbn [config set_config].
      unfold bind at 1. unfold modify_config at 1. cbn [config set_config].
      unfold bind at 1. unfold modify_auction at 1. cbn [auctions set_config].
      rewrite Ha. eexists. split; [reflexivity|]. reflexivity.
    - unfold ret at 1.
      unfold bind at 1. unfold modify_config at 1. cbn [config set_config].
      unfold bind at 1. unfold modify_auction at 1. cbn [auctions set_config].
      rewrite Ha. eexists. split; [reflexivity|]. reflexivity. }
  destruct Hrun as (s3 & -> & Hc3).
  assert (Hkeep : config_same s3
            (snd (bind (lift (as_array "forEach" (get args "bids")))
                       (fun bids => forEach bids
                          (bidRequested_bid (get args "auctionId") (get args "start")))
                       s3))).
  { revert s3 Hc3. intros s3 _. revert s3.
    match goal with |- forall s3, config_same s3 (snd (?m s3)) =>
      change (steps config_same m)
    end.
    walk. apply config_same_bidRequested_bid. }
  unfold config_same in Hkeep. rewrite Hkeep, Hc3.
  exists c'. split; [reflexivity|]. subst c'.
  destruct applies; repeat split; reflexivity.
Qed.


(** [exchangeCurrency] returns, whatever the conversion does, and leaves
    the auctions alone. *)
Lemma exchangeCurrency_returns (price fromCurrency toCurrency : value) (s : state) :
  exists r s',
    exchangeCurrency price fromCurrency toCurrency s = (Ok r, s')
    /\ auctions s' = auctions s.
Proof.
  unfold exchangeCurrency, try_catch, bind, lift, logError, modify, ret.
  destruct (convertCurrency price fromCurrency toCurrency) as [v|e].
  - destruct (toFixed_4 v) as [r|e]; eexists _, _; split; reflexivity.
  - eexists _, _; split; reflexivity.
Qed.

(** A currency code as a bid response may carry it. *)
Definition text_or_falsy (v : value) : Prop :=
  (exists t, v = VStr t) \/ truthy v = false.

(** [currency ? currency.toUpperCase() : fallback] *)
Definition upper_or (v fallback : value) : value :=
  match v with
  | VStr t => if truthy v then VStr (String_toUpperCase t) else fallback
  | _ => fallback
  end.

Lemma toUpperCase_or (v fallback : value) :
  text_or_falsy v ->
  (if truthy v then toUpperCase v else Ok fallback) = Ok (upper_or v fallback).
Proof.
  intros [[t ->]|Hf].
  - unfold upper_or. destruct (truthy (VStr t)); reflexivity.
  - rewrite Hf. unfold upper_or. destruct v; try reflexivity. rewrite Hf. reflexivity.
Qed.

(** X25: The first response to a bid request is recorded as one new bid
    object, made of the request and the response: [addBidObj] appends it and
    marks the request used.  Its status is [BID_FLOOR_REJECTED] when the
    response was rejected and [BID_SUCCESS] otherwise, its currency is the
    response's in upper case, and it has the ad id, the request ids, the
    size, the media type, the deal and the creative of the response.  The
    handler returns even when no currency can be converted. *)
Theorem bidResponseHandler_records_the_first_response
    (bid : value) (s : state) (a : Auction) (bidReq : Bid) :
  is_nullish bid = false ->
  oget (ToString (get bid "auctionId")) (auctions s) = Some a ->
  findReqBid a (or (get bid "originalRequestId") (get bid "requestId")) = Some bidReq ->
  findBidObj a "bidId" (get bid "requestId") = None ->
  text_or_falsy (get bid "currency") ->
  text_or_falsy (get bid "originalCurrency") ->
  (truthy (and (get bid "meta") (get (get bid "meta") "advertiserDomains")) = true ->
   exists l, get (get bid "meta") "advertiserDomains" = VArr l) ->
  exists b s',
    bidResponseHandler bid s = (Ok tt, s')
    /\ auctions s'
       = oset (ToString (get bid "auctionId")) (addBidObj false b a) (auctions s)
    /\ bget b "status"
       = (if strict_eq (get bid "status") (VStr BID_REJECTED)
          then BID_FLOOR_REJECTED else BID_SUCCESS)
    /\ bget b "currency" = upper_or (get bid "currency") (VStr "")
    /\ bget b "originalCurrency"
       = upper_or (get bid "originalCurrency")
                  (upper_or (get bid "currency") (VStr ""))
    /\ Forall (fun k => bget b k = get bid k)
              ["adId"; "requestId"; "originalRequestId"; "width"; "height";
               "mediaType"; "timeToRespond"; "dealId"; "creativeId"]
    /\ bget b "res_mtype" = get bid "mediaType".
Proof.
  intros Hbid Ha Hreq Hfresh Hcur Horig Hadv.
  unfold bidResponseHandler.
  unfold bind at 1. unfold lift at 1. rewrite (get_prop_ok _ _ Hbid). cbv zeta.
  unfold bind at 1. unfold find_auction, gets. rewrite Ha, Hreq, Hfresh.
  unfold bind at 1. unfold lift at 1. rewrite (toUpperCase_or _ _ Hcur).
  unfold bind at 1. unfold lift at 1. rewrite (toUpperCase_or _ _ Horig).
  unfold bind at 1. unfold write_bidObj at 1. unfold ret at 1.
  unfold bind at 1. unfold lift at 1.
  assert (Hadv' : exists advUrl,
            (if truthy (and (get bid "meta") (get (get bid "meta") "advertiserDomains"))
             then rbind (as_array "join" (get (get bid "meta") "advertiserDomains"))
                        (fun l => Ok (VStr (join_values "," l)))
             else Ok (and (get bid "meta") (get (get bid "meta") "advertiserDomains")))
            = Ok advUrl).
  { destruct (truthy (and (get bid "meta") (get (get bid "meta") "advertiserDomains")));
      [|eauto].
    destruct (Hadv eq_refl) as [l ->]. cbn [as_array rbind]. eauto. }
  destruct Hadv' as [advUrl ->].
  set (cur := upper_or (get bid "currency") (VStr "")).
  set (orig := upper_or (get bid "originalCurrency") cur).
  match goal with
  | |- context [oset "advUrl" advUrl ?b2] => set (bidObj2 := b2)
  end.
  set (bidObj3 := oset "inCurrMul" (num 1) (oset "currMul" (num 1)
                   (oset "advUrl" advUrl bidObj2))).
  (* the conversion of the original price *)
  unfold bind at 1.
  assert (H4 : exists b4 s4,
    (if negb (strict_eq (bget bidObj3 "originalCurrency") (VStr "USD"))
     then bind (exchangeCurrency (bget bidObj3 "originalCpm")
                  (bget bidObj3 "originalCurrency") (VStr "USD")) (fun ocpm =>
          bind (exchangeCurrency (num 1) (VStr "USD")
                  (bget bidObj3 "originalCurrency")) (fun imul =>
          ret (oset "inCurrMul" imul (oset "originalCpm" ocpm bidObj3))))
     else ret bidObj3) s = (Ok b4, s4)
    /\ auctions s4 = auctions s
    /\ (forall k, k <> "inCurrMul" -> k <> "originalCpm" ->
          oget k b4 = oget k bidObj3)).
  { destruct (negb (strict_eq (bget bidObj3 "originalCurrency") (VStr "USD"))).
    - destruct (exchangeCurrency_returns (bget bidObj3 "originalCpm")
                  (bget bidObj3 "originalCurrency") (VStr "USD") s)
        as (r1 & s1 & Hr1 & Ha1).
      destruct (exchangeCurrency_returns (num 1) (VStr "USD")
                  (bget bidObj3 "originalCurrency") s1)
        as (r2 & s2 & Hr2 & Ha2).
      unfold bind. rewrite Hr1, Hr2. eexists _, _. split; [reflexivity|].
      split; [congruence|]. intros k Hk1 Hk2.
      rewrite !oget_oset_other by congruence. reflexivity.
    - eexists _, _. split; [reflexivity|]. split; [reflexivity|]. reflexivity. }
  destruct H4 as (b4 & s4 & -> & Ha4 & Hb4).
  unfold bind at 1.
  assert (H5 : exists b5 s5,
    (if negb (strict_eq (bget b4 "currency") (VStr "USD"))
     then bind (exchangeCurrency (bget b4 "cpm") (bget b4 "currency") (VStr "USD"))
            (fun ccpm =>
          bind (exchangeCurrency (num 1) (VStr "USD") (bget b4 "currency"))
            (fun omul =>
          ret (oset "currMul" omul (oset "cpm" ccpm b4))))
     else ret b4) s4 = (Ok b5, s5)
    /\ auctions s5 = auctions s4
    /\ (forall k, k <> "currMul" -> k <> "cpm" -> oget k b5 = oget k b4)).
  { destruct (negb (strict_eq (bget b4 "currency") (VStr "USD"))).
    - destruct (exchangeCurrency_returns (bget b4 "cpm") (bget b4 "currency")
                  (VStr "USD") s4) as (r1 & s1 & Hr1 & Ha1).
      destruct (exchangeCurrency_returns (num 1) (VStr "USD") (bget b4 "currency") s1)
        as (r2 & s2 & Hr2 & Ha2).
      unfold bind. rewrite Hr1, Hr2. eexists _, _. split; [reflexivity|].
      split; [congruence|]. intros k Hk1 Hk2.
      rewrite !oget_oset_other by congruence. reflexivity.
    - eexists _, _. split; [reflexivity|]. split; [reflexivity|]. reflexivity. }
  destruct H5 as (b5 & s5 & -> & Ha5 & Hb5).
  cbv zeta. unfold modify_auction. rewrite Ha5, Ha4, Ha.
  match goal with
  | |- context [oset "status" ?st (oset "dfpbd" ?d b5)] =>
      set (bidObj6 := oset "status" st (oset "dfpbd" d b5))
  end.
  match goal with
  | |- context [addBidObj false ?b a] => set (bidObj9 := b)
  end.
  assert (Hlate : forall k,
            k <> "res_mtype" -> k <> "serverLatencyMillis" -> k <> "ext" ->
            k <> "mpvid" -> k <> "crid" -> oget k bidObj9 = oget k bidObj6).
  { intros k K1 K2 K3 K4 K5. subst bidObj9.
    assert (Hcrid : forall v : value, truthy v = false -> own_props v = []).
    { intros v Hv. destruct v as [| | | |t| | |]; try reflexivity; try discriminate.
      destruct t; [reflexivity|discriminate]. }
    destruct (truthy (get (get bid "ext") "crid")) eqn:Hext;
      [|rewrite (Hcrid _ Hext)];
      destruct (strict_eq (get bid "bidder") (VStr MEDIANET_BIDDER_CODE)
                && instanceof_Object (get bid "ext"));
      destruct (negb (is_undefined (get bid "serverResponseTimeMs")));
      unfold oassign; cbn [fold_left fst snd];
      rewrite ?oget_oset_other by congruence; reflexivity. }
  assert (Hearly : forall k,
            In k ["adId"; "requestId"; "originalRequestId"; "width"; "height";
                  "mediaType"; "timeToRespond"; "dealId"; "creativeId";
                  "currency"; "originalCurrency"] ->
            oget k bidObj9 = oget k bidObj2).
  { intros k Hk.
    assert (Hne : k <> "res_mtype" /\ k <> "serverLatencyMillis" /\ k <> "ext"
                  /\ k <> "mpvid" /\ k <> "crid" /\ k <> "status" /\ k <> "dfpbd"
                  /\ k <> "currMul" /\ k <> "cpm" /\ k <> "inCurrMul"
                  /\ k <> "originalCpm" /\ k <> "advUrl").
    { cbn [In] in Hk.
      repeat destruct Hk as [<-|Hk]; try contradiction; repeat split; discriminate. }
    destruct Hne as (N1 & N2 & N3 & N4 & N5 & N6 & N7 & N8 & N9 & N10 & N11 & N12).
    rewrite (Hlate k N1 N2 N3 N4 N5). subst bidObj6.
    rewrite !oget_oset_other by congruence.
    rewrite (Hb5 k N8 N9), (Hb4 k N10 N11). subst bidObj3.
    rewrite !oget_oset_other by congruence. reflexivity. }
  assert (Hget : forall (b : Bid) k v, oget k b = Some v -> bget b k = v).
  { intros b k v Hv. unfold bget, get. rewrite Hv. reflexivity. }
  assert (Hfield : forall k v,
            In k ["adId"; "requestId"; "originalRequestId"; "width"; "height";
                  "mediaType"; "timeToRespond"; "dealId"; "creativeId";
                  "currency"; "originalCurrency"] ->
            oget k bidObj2 = Some v -> bget bidObj9 k = v).
  { intros k v Hk Hv. apply Hget. rewrite (Hearly k Hk). exact Hv. }
  exists bidObj9. eexists. split; [reflexivity|].
  split; [reflexivity|].
  split.
  { apply Hget. rewrite Hlate by discriminate. subst bidObj6. apply oget_oset_same. }
  assert (Hres : bget bidObj9 "res_mtype" = get bid "mediaType").
  { apply Hget. subst bidObj9. apply oget_oset_same. }
  repeat split; try exact Hres; repeat constructor;
    (apply Hfield; [cbn [In]; tauto|]);
    subst bidObj2; rewrite !oget_oset_other by discriminate;
    unfold oassign; cbn [fold_left fst snd];
    repeat first [ rewrite oget_oset_same
                 | rewrite oget_oset_other by discriminate ];
    reflexivity.
Qed.



(** Code that draws no random number and leaves [config] alone. *)
Definition unsampled (s s' : state) : Prop :=
  random_draws s' = random_draws s /\ config s' = config s.

#[local] Instance unsampled_frame : Frame unsampled.
Proof. split; unfold unsampled; intuition congruence. Qed.

Lemma unsampled_modify_auction (id : value) (prop : string) (f : Auction -> Auction) :
  steps unsampled (modify_auction id prop f).
Proof. apply steps_modify_auction. intros s a _. split; reflexivity. Qed.

Lemma unsampled_modify (f : state -> state) :
  (forall s, random_draws (f s) = random_draws s) ->
  (forall s, config (f s) = config s) ->
  steps unsampled (modify f).
Proof. intros H1 H2. apply steps_modify. intros s. split; auto. Qed.

Lemma unsampled_fireAuctionLog (acid adtag : value) (logType : string) (adId : value) :
  steps unsampled (fireAuctionLog acid adtag logType adId).
Proof.
  unfold fireAuctionLog, auctionLog_telemetry, getCommonLoggingData,
    PageDetail_getLoggingData, get_adSlot, getLoggingBids, getResponseSizeMap,
    getDummyBids, firePixel, triggerPixel.
  walk; first [ apply unsampled_modify_auction
              | apply unsampled_modify; intros; reflexivity ].
Qed.

(** X26: The log of a winning bid is not sampled: [bidWonHandler] draws no
    random number and leaves [config], with its sampling cache, as it was,
    whether it sends the log, reports an error or throws. *)
Theorem bidWonHandler_is_not_sampled (bid : value) (s : state) :
  random_draws (snd (bidWonHandler bid s)) = random_draws s
  /\ config (snd (bidWonHandler bid s)) = config s.
Proof.
  revert s. change (steps unsampled (bidWonHandler bid)).
  unfold bidWonHandler, sendEvent, isValidAuctionAdSlot, ErrorLogger,
    ErrorLogger_send, triggerPixel.
  change (String.eqb LOG_TYPE_RA LOG_TYPE_RA) with true. cbv iota.
  walk; first [ apply unsampled_modify_auction
              | apply unsampled_fireAuctionLog
              | apply unsampled_modify; intros; reflexivity
              | (intros s0; split; reflexivity) ].
Qed.

End WithHost.
End HandlerProofs.

(** ** The Media.net analytics adapter: what goes into a log *)

Module LogProofs.
Import JS Medianet ObjFacts MedianetProofs.

Lemma oget_filter {A} (p : string * A -> bool) (k : string) (v : A) (o : obj A) :
  oget k o = Some v -> p (k, v) = true -> oget k (filter p o) = Some v.
Proof.
  induction o as [|[k' v'] tl IH]; cbn [oget filter]; intros Hk Hp; [discriminate|].
  destruct (String.eqb_spec k' k) as [->|Hne].
  - injection Hk as ->. rewrite Hp. cbn [oget]. rewrite String.eqb_refl. reflexivity.
  - destruct (p (k', v')); [|apply IH; assumption].
    cbn [oget]. destruct (String.eqb_spec k' k); [contradiction|]. apply IH; assumption.
Qed.

Lemma oget_odelete_same {A} (k : string) (o : obj A) : oget k (odelete k o) = None.
Proof.
  unfold odelete. induction o as [|[k' v'] tl IH]; cbn [filter oget fst]; [reflexivity|].
  destruct (String.eqb_spec k' k) as [->|Hne]; cbn [negb]; [exact IH|].
  cbn [oget]. destruct (String.eqb_spec k' k); [contradiction|exact IH].
Qed.

Lemma oget_odelete_other {A} (k k' : string) (o : obj A) :
  k <> k' -> oget k (odelete k' o) = oget k o.
Proof.
  intros Hne. unfold odelete.
  induction o as [|[k0 v0] tl IH]; cbn [filter oget fst]; [reflexivity|].
  destruct (String.eqb_spec k0 k') as [->|Hne0]; cbn [negb].
  - destruct (String.eqb_spec k' k); [congruence|exact IH].
  - cbn [oget]. destruct (String.eqb_spec k0 k); [reflexivity|exact IH].
Qed.

Lemma Forall_odelete {A} (P : string * A -> Prop) (k : string) (o : obj A) :
  Forall P o -> Forall P (odelete k o).
Proof.
  intros Ho. unfold odelete. apply Forall_forall. intros x Hx.
  apply filter_In in Hx as [Hx _]. revert x Hx. apply Forall_forall. exact Ho.
Qed.

Lemma Forall_oset {A} (Q : A -> Prop) (k : string) (v : A) (o : obj A) :
  Forall (fun kv => Q (snd kv)) o -> Q v -> Forall (fun kv => Q (snd kv)) (oset k v o).
Proof.
  intros Ho Hv. unfold oset. destruct (ohas k o).
  - induction Ho as [|[k' v'] tl Hx Htl IH]; cbn [oreplace]; [constructor|].
    destruct (String.eqb k' k); constructor; auto.
  - destruct (Str.array_index k) as [n|].
    + induction Ho as [|[k' v'] tl Hx Htl IH]; cbn [oinsert_index].
      * constructor; [exact Hv|constructor].
      * destruct (Str.array_index k') as [n'|].
        -- destruct (n <? n')%N; constructor; auto.
        -- constructor; [exact Hv|]. constructor; auto.
    + apply Forall_app. split; [exact Ho|]. constructor; [exact Hv|constructor].
Qed.

Section WithHost.
Context {E : Engine} {H : Host}.

(** The common parameters of a log before the part that depends on the
    log type: the log type is added, the [null] and [undefined] parameters
    and the targeting are removed. *)
Definition common_of (logType : string) (common : obj value) : obj value :=
  odelete "targ"
    (filter (fun kv => negb (is_nullish (snd kv)))
            (oset "lgtp" (VStr logType) common)).

Lemma common_of_facts (logType : string) (common : obj value) :
  oget "lgtp" (common_of logType common) = Some (VStr logType)
  /\ oget "targ" (common_of logType common) = None
  /\ Forall (fun kv => is_nullish (snd kv) = false) (common_of logType common).
Proof.
  unfold common_of. split; [|split].
  - rewrite oget_odelete_other by discriminate.
    apply oget_filter; [apply oget_oset_same|reflexivity].
  - apply oget_odelete_same.
  - apply Forall_odelete. apply Forall_forall. intros kv Hin.
    apply filter_In in Hin as [_ Hnn]. apply negb_true_iff in Hnn. exact Hnn.
Qed.

(** The bid parameters without the Media.net fields. *)
Definition without_mnet_fields (b : obj value) : Prop :=
  oget "mpvid" b = None /\ oget "crid" b = None
  /\ oget "ext" b = None /\ oget "pubcrid" b = None.

Lemma mnet_fields_deleted (b : obj value) :
  without_mnet_fields
    (odelete "pubcrid" (odelete "ext" (odelete "crid" (odelete "mpvid" b)))).
Proof.
  unfold without_mnet_fields.
  repeat split;
    repeat first [ apply oget_odelete_same
                 | rewrite oget_odelete_other by discriminate ].
Qed.

(** The last step of [fireAuctionLog] on the bid parameters. *)
Lemma telemetry_finish (c : obj value) (params : list (obj value)) (T : value)
    (t : telemetry) :
  t = {| commonParams := c;
         bidParams :=
           if existsb (fun b => strict_eq (get (VObj b) "pvnm")
                                  (VStr MEDIANET_BIDDER_CODE)) params
           then params
           else map (fun b => odelete "pubcrid" (odelete "ext"
                                (odelete "crid" (odelete "mpvid" b)))) params;
         targ := T |} ->
  commonParams t = c
  /\ List.length (bidParams t) = List.length params
  /\ (existsb (fun b => strict_eq (get (VObj b) "pvnm") (VStr MEDIANET_BIDDER_CODE))
              (bidParams t) = false ->
      Forall without_mnet_fields (bidParams t)).
Proof.
  intros ->. cbn [commonParams bidParams]. split; [reflexivity|].
  destruct (existsb (fun b => strict_eq (get (VObj b) "pvnm")
                                (VStr MEDIANET_BIDDER_CODE)) params) eqn:Hm.
  - split; [reflexivity|]. intros Hx. congruence.
  - split; [apply length_map|]. intros _.
    apply Forall_forall. intros b Hb. apply in_map_iff in Hb as (b0 & <- & _).
    apply mnet_fields_deleted.
Qed.

(** X27: What every auction log carries, whatever the auction: in its common
    parameters the log type under [lgtp], no parameter that is [null] or
    [undefined] and no [targ], which goes to the end of the URL; for a
    winning-bid log (RA) a sampling rate [lper] of 1 and the parameters of
    one bid, for another log no [wts]; and when none of its bids is of
    Media.net, no [mpvid], [crid], [ext] or [pubcrid] in any bid's
    parameters. *)
Theorem telemetry_of_an_auction_log
    (acid adtag : value) (logType : string) (adId : value) (s : state)
    (t : telemetry) :
  fst (auctionLog_telemetry acid adtag logType adId s) = Ok (Some t) ->
  oget "lgtp" (commonParams t) = Some (VStr logType)
  /\ oget "targ" (commonParams t) = None
  /\ Forall (fun kv => is_nullish (snd kv) = false) (commonParams t)
  /\ (logType = LOG_TYPE_RA ->
        oget "lper" (commonParams t) = Some (num 1)
        /\ List.length (bidParams t) = 1)
  /\ (logType <> LOG_TYPE_RA -> oget "wts" (commonParams t) = None)
  /\ (existsb (fun b => strict_eq (get (VObj b) "pvnm") (VStr MEDIANET_BIDDER_CODE))
              (bidParams t) = false ->
        Forall without_mnet_fields (bidParams t)).
Proof.
  unfold auctionLog_telemetry. intros Hrun.
  unfold bind at 1 in Hrun.
  destruct (getCommonLoggingData acid adtag s) as [[common0|e] s1];
    [|discriminate]. cbv zeta in Hrun.
  fold (common_of logType common0) in Hrun.
  destruct (common_of_facts logType common0) as (Hlgtp & Htarg & Hnn).
  set (common := common_of logType common0) in *. clearbody common.
  unfold bind at 1 in Hrun.
  destruct (String.eqb_spec logType LOG_TYPE_RA) as [Hra|Hra].
  - unfold bind at 1 in Hrun.
    destruct (get_auction acid "findBidObj" s1) as [[a|e] s2]; [|discriminate].
    destruct (findBidObj a "adId" adId) as [w|]; [|discriminate].
    unfold bind at 1 in Hrun. unfold lift at 1 in Hrun.
    destruct (Bid_getLoggingData w) as [winLogData|e]; [|discriminate].
    unfold ret in Hrun. injection Hrun as Ht. symmetry in Ht.
    apply (telemetry_finish (oset "lper" (num 1) common) [winLogData]) in Ht
      as (Hc & Hlen & Hm).
    rewrite Hc.
    split; [rewrite oget_oset_other by discriminate; exact Hlgtp|].
    split; [rewrite oget_oset_other by discriminate; exact Htarg|].
    split; [apply (Forall_oset (fun v => is_nullish v = false)); [exact Hnn|reflexivity]|].
    split; [intros _; split; [apply oget_oset_same|exact Hlen]|].
    split; [intros Hne; contradiction|exact Hm].
  - unfold bind at 1 in Hrun.
    destruct (getLoggingBids acid adtag s1) as [[bids|e] s2]; [|discriminate].
    unfold bind at 1 in Hrun. unfold lift at 1 in Hrun.
    destruct (rmap Bid_getLoggingData bids) as [params|e]; [|discriminate].
    unfold ret in Hrun. injection Hrun as Ht. symmetry in Ht.
    apply (telemetry_finish (odelete "wts" common) params) in Ht
      as (Hc & Hlen & Hm).
    rewrite Hc.
    split; [rewrite oget_odelete_other by discriminate; exact Hlgtp|].
    split; [rewrite oget_odelete_other by discriminate; exact Htarg|].
    split; [apply Forall_odelete; exact Hnn|].
    split; [intros Heq; contradiction|].
    split; [intros _; apply oget_odelete_same|exact Hm].
Qed.

(** X28: The bid [getDummyBids] makes for a bid request that has sizes left
    without a response: none for the dummy bidder and none when every size
    has its response; otherwise one bid with the request's ids, the sizes
    left as its [res_sizes], and a status that is never [BID_SUCCESS]: a
    request that had a successful response counts as a no-bid for the
    sizes left. *)
Theorem getDummyBids_bid_is_never_a_success
    (receivedResponse : value) (bidReq : Bid) (pushed : list Bid) :
  getDummyBids_bid receivedResponse bidReq = Ok pushed ->
  pushed = []
  \/ exists d sizes,
       pushed = [d]
       /\ strict_eq (bget bidReq "bidder") (VStr DUMMY_BIDDER) = false
       /\ bget d "bidId" = bget bidReq "bidId"
       /\ bget d "bidder" = bget bidReq "bidder"
       /\ bget d "adUnitCode" = bget bidReq "adUnitCode"
       /\ bget d "status"
          = (if strict_eq (bget bidReq "status") BID_SUCCESS
             then BID_NOBID else bget bidReq "status")
       /\ strict_eq (bget d "status") BID_SUCCESS = false
       /\ bget d "res_sizes" = VArr sizes
       /\ sizes <> []
       /\ Forall (fun size =>
                    truthy (Utils.deepAccess receivedResponse
                              (size_path bidReq (ToString size))) = false)
                 sizes.
Proof.
  unfold getDummyBids_bid. intros Hrun.
  destruct (as_array "filter" (bget bidReq "allMediaTypeSizes")) as [all|e];
    [|discriminate]. cbn [rbind] in Hrun.
  set (emptySizes :=
         filter (fun size =>
                   negb (truthy (Utils.deepAccess receivedResponse
                                   (size_path bidReq (ToString size))))) all) in *.
  destruct (negb (strict_eq (bget bidReq "bidder") (VStr DUMMY_BIDDER))) eqn:Hbidder;
    [|injection Hrun as <-; left; reflexivity].
  destruct (negb (Nat.eqb (List.length emptySizes) 0)) eqn:Hlen;
    [|injection Hrun as <-; left; reflexivity].
  cbn [andb] in Hrun. injection Hrun as <-. right.
  eexists _, emptySizes. split; [reflexivity|].
  apply negb_true_iff in Hbidder. split; [exact Hbidder|].
  split; [reflexivity|]. split; [reflexivity|]. split; [reflexivity|].
  split; [reflexivity|]. split.
  - change (strict_eq (if strict_eq (bget bidReq "status") BID_SUCCESS
                       then BID_NOBID else bget bidReq "status") BID_SUCCESS = false).
    destruct (strict_eq (bget bidReq "status") BID_SUCCESS) eqn:Hs;
      [vm_compute; reflexivity|exact Hs].
  - split; [reflexivity|]. split.
    + intros Hnil. rewrite Hnil in Hlen. discriminate.
    + apply Forall_forall. intros size Hin. subst emptySizes.
      apply filter_In in Hin as [_ Hf]. apply negb_true_iff in Hf. exact Hf.
Qed.

End WithHost.
End LogProofs.

(** ** The Media.net analytics adapter: query strings *)

Module QueryStringProofs.
Import JS Medianet ObjFacts MedianetProofs.

(** Whether a character occurs in a string. *)
Fixpoint occurs (c : ascii) (s : string) : bool :=
  match s with
  | EmptyString => false
  | String a tl => Ascii.eqb a c || occurs c tl
  end.

Lemma occurs_app (c : ascii) (a b : string) :
  occurs c (a ++ b) = occurs c a || occurs c b.
Proof.
  induction a as [|x a IH]; cbn [append occurs]; [reflexivity|].
  rewrite IH. apply orb_assoc.
Qed.

(** [encodeURIComponent] writes letters, digits, a few marks and percent
    signs: no ampersand and no equals sign. *)
Lemma encodeURIComponent_separators (s : string) :
  occurs "&" (Str.encodeURIComponent s) = false
  /\ occurs "=" (Str.encodeURIComponent s) = false.
Proof.
  induction s as [|a tl [IH1 IH2]]; cbn [Str.encodeURIComponent]; [split; reflexivity|].
  assert (Hchar :
    (if Str.uri_unreserved a then Ascii.eqb a "&" else false) = false
    /\ (if Str.uri_unreserved a then Ascii.eqb a "=" else false) = false
    /\ Ascii.eqb (Str.hex_digit (nat_of_ascii a / 16)) "&" = false
    /\ Ascii.eqb (Str.hex_digit (nat_of_ascii a mod 16)) "&" = false
    /\ Ascii.eqb (Str.hex_digit (nat_of_ascii a / 16)) "=" = false
    /\ Ascii.eqb (Str.hex_digit (nat_of_ascii a mod 16)) "=" = false).
  { destruct a as [[] [] [] [] [] [] [] []]; vm_compute; repeat split. }
  destruct Hchar as (H1 & H2 & H3 & H4 & H5 & H6).
  destruct (Str.uri_unreserved a); cbn [occurs].
  - rewrite H1, H2, IH1, IH2. split; reflexivity.
  - rewrite H3, H4, H5, H6, IH1, IH2. split; reflexivity.
Qed.

Lemma split_go_free (c : ascii) (s cur : string) :
  occurs c s = false -> Str.split_go c s cur = [(cur ++ s)%string].
Proof.
  revert cur. induction s as [|a tl IH]; intros cur Hs; cbn [Str.split_go].
  - rewrite append_nil_r. reflexivity.
  - cbn [occurs] in Hs. apply orb_false_iff in Hs as [Ha Htl]. rewrite Ha.
    rewrite (IH _ Htl), append_assoc. reflexivity.
Qed.

Lemma split_go_at (c : ascii) (s t cur : string) :
  occurs c s = false ->
  Str.split_go c (s ++ String c t) cur = (cur ++ s)%string :: Str.split_go c t "".
Proof.
  revert cur. induction s as [|a tl IH]; intros cur Hs; cbn [Str.split_go append].
  - rewrite Ascii.eqb_refl, append_nil_r. reflexivity.
  - cbn [occurs] in Hs. apply orb_false_iff in Hs as [Ha Htl]. rewrite Ha.
    rewrite (IH _ Htl), append_assoc. reflexivity.
Qed.

Lemma split_join (c : ascii) (pieces : list string) :
  pieces <> [] ->
  Forall (fun p => occurs c p = false) pieces ->
  Str.split c (Str.join (String c "") pieces) = pieces.
Proof.
  intros Hne Hfree. unfold Str.split.
  induction Hfree as [|p tl Hp Htl IH]; [contradiction|].
  destruct tl as [|q tl'].
  - cbn [Str.join]. apply (split_go_free c p "" Hp).
  - change (Str.join (String c "") (p :: q :: tl'))
      with (p ++ String c (Str.join (String c "") (q :: tl')))%string.
    rewrite (split_go_at c p _ "" Hp). cbn [append]. f_equal.
    apply IH. discriminate.
Qed.

Section WithHost.
Context {E : Engine} {H : Host}.

(** The text [formatQS] writes after the equals sign. *)
Definition value_text (v : value) : string :=
  if is_undefined v then ""
  else Str.encodeURIComponent
         (ToString (if Utils.isPlainObject v then JSON_stringify_value v else v)).

Lemma formatQS_pair_text (v : value) (key : string) :
  formatQS_pair v key = (key ++ String "=" (value_text v))%string.
Proof.
  unfold formatQS_pair, value_text. destruct (is_undefined v); reflexivity.
Qed.

Lemma value_text_separators (v : value) :
  occurs "&" (value_text v) = false /\ occurs "=" (value_text v) = false.
Proof.
  unfold value_text. destruct (is_undefined v); [split; reflexivity|].
  apply encodeURIComponent_separators.
Qed.

(** X29: A query string written by [formatQS] reads back without ambiguity:
    the values are percent-encoded, so for keys free of ampersands,
    splitting the string at the ampersands gives one [key=value] piece per
    key, in order, and for a key free of equals signs, splitting its piece
    at the equals sign gives the key and the encoded value. *)
Theorem formatQS_has_one_piece_per_key (data : obj value) :
  data <> [] ->
  Forall (fun kv => occurs "&" (fst kv) = false) data ->
  Str.split "&" (formatQS data)
  = map (fun kv => formatQS_pair (snd kv) (fst kv)) data
  /\ Forall (fun kv =>
               occurs "=" (fst kv) = false ->
               Str.split "=" (formatQS_pair (snd kv) (fst kv))
               = [fst kv; value_text (snd kv)])
            data.
Proof.
  intros Hne Hkeys. split.
  - unfold formatQS, Utils._map. apply split_join.
    + destruct data; [contradiction|discriminate].
    + apply Forall_map. eapply Forall_impl; [|exact Hkeys].
      intros [k v] Hk. cbn [fst snd] in *.
      rewrite formatQS_pair_text, occurs_app, Hk. cbn [occurs orb Ascii.eqb].
      apply value_text_separators.
  - apply Forall_forall. intros [k v] _ Hk. cbn [fst snd] in *.
    rewrite formatQS_pair_text. unfold Str.split.
    rewrite (split_go_at "=" k _ "" Hk). cbn [append].
    rewrite (split_go_free "=" _ "" (proj2 (value_text_separators v))).
    reflexivity.
Qed.

(** The key and the value [URL.parseQS] reads of a criterion: the text
    before the first equals sign, and the text between the first and the
    second, the empty string when there is none. *)
Definition criterion_key (criteria : string) : string :=
  nth 0 (Str.split "=" criteria) "".

Definition criterion_value (criteria : string) : value :=
  or (match nth_error (Str.split "=" criteria) 1 with
      | Some x => VStr x
      | None => VUndef
      end) (VStr "").

Lemma find_app {A} (p : A -> bool) (l1 l2 : list A) :
  find p (l1 ++ l2) = match find p l1 with
                      | Some x => Some x
                      | None => find p l2
                      end.
Proof.
  induction l1 as [|x tl IH]; cbn [app find]; [reflexivity|].
  destruct (p x); [reflexivity|exact IH].
Qed.

Lemma parseQS_fold (criteria : list string) (acc : obj value) :
  Forall (fun c => Str.ends_with "[]" (criterion_key c) = false) criteria ->
  exists o,
    fold_left (fun acc c => rbind acc (fun a => parseQS_step a c)) criteria (Ok acc)
    = Ok o
    /\ oget "__proto__" o = oget "__proto__" acc
    /\ forall k,
         k <> "__proto__" ->
         oget k o
         = match find (fun c => String.eqb (criterion_key c) k) (rev criteria) with
           | Some c => Some (criterion_value c)
           | None => oget k acc
           end.
Proof.
  revert acc. induction criteria as [|c tl IH]; intros acc Hplain.
  - exists acc. repeat split; reflexivity.
  - inversion Hplain as [|? ? Hc Htl]; subst.
    cbn [fold_left rbind]. unfold parseQS_step at 2.
    fold (criterion_key c). rewrite Hc. fold (criterion_value c).
    destruct (String.eqb_spec (criterion_key c) "__proto__") as [Hproto|Hproto].
    + destruct (IH acc Htl) as (o & Ho & Hp & Hlook).
      exists o. split; [exact Ho|]. split; [exact Hp|].
      intros k Hk. rewrite (Hlook k Hk). cbn [rev]. rewrite find_app.
      destruct (find _ (rev tl)); [reflexivity|]. cbn [find].
      destruct (String.eqb_spec (criterion_key c) k) as [Heq|_]; [|reflexivity].
      congruence.
    + destruct (IH (oset (criterion_key c) (criterion_value c) acc) Htl)
        as (o & Ho & Hp & Hlook).
      exists o. split; [exact Ho|]. split.
      * rewrite Hp. apply oget_oset_other. congruence.
      * intros k Hk. rewrite (Hlook k Hk). cbn [rev]. rewrite find_app.
        destruct (find _ (rev tl)); [reflexivity|]. cbn [find].
        destruct (String.eqb_spec (criterion_key c) k) as [<-|Hne].
        -- apply oget_oset_same.
        -- apply oget_oset_other. congruence.
Qed.

(** X30: [URL.parseQS] on a query without array keys (keys that end in [[]]):
    it does not throw, a leading question mark is dropped, and each key but
    [__proto__] stands for the value of the last criterion that has it, the
    empty string where that criterion has no equals sign.  A criterion with
    the key [__proto__] stores nothing: the object has no property of its
    own under that name.  The empty query gives the empty object. *)
Theorem URL_parseQS_reads_the_last_value (query : string) :
  URL_parseQS "" = Ok []
  /\ (query <> "" ->
      Forall (fun c => Str.ends_with "[]" (criterion_key c) = false)
             (Str.split "&" (Str.strip_question query)) ->
      exists o,
        URL_parseQS query = Ok o
        /\ oget "__proto__" o = None
        /\ forall k,
             k <> "__proto__" ->
             oget k o
             = match find (fun c => String.eqb (criterion_key c) k)
                          (rev (Str.split "&" (Str.strip_question query))) with
               | Some c => Some (criterion_value c)
               | None => None
               end).
Proof.
  split; [reflexivity|]. intros Hne Hplain. unfold URL_parseQS.
  destruct (String.eqb_spec query "") as [->|_]; [contradiction|].
  apply (parseQS_fold _ [] Hplain).
Qed.

(** A criterion with an array key whose name, without the brackets, is one
    every object inherits from [Object.prototype] makes [URL.parseQS]
    throw: what [acc[k]] holds has no method [push]. *)
Lemma parseQS_step_inherited_array_key (acc : obj value) (criteria : string) :
  Str.ends_with "[]" (criterion_key criteria) = true ->
  oget (Str.replace_first "[]" "" (criterion_key criteria)) acc = None ->
  inherited (Str.replace_first "[]" "" (criterion_key criteria)) = true ->
  parseQS_step acc criteria = Throw (TypeError "acc[k].push is not a function").
Proof.
  intros Hk Hnone Hname. unfold parseQS_step. fold (criterion_key criteria).
  rewrite Hk, Hnone, Hname. reflexivity.
Qed.

End WithHost.
End QueryStringProofs.

(* ===================================================================== *)
(** * The adapters on sample inputs *)
(* ===================================================================== *)

Module Examples.
Import JS Sample.

(** ** Smaato *)

Definition bid_request (bidId : string) : value :=
  VObj [("bidId", VStr bidId);
        ("params", VObj [("publisherId", VStr "publisher-1");
                         ("adspaceId", VStr "adspace-1")]);
        ("mediaTypes",
         VObj [("banner", VObj [("sizes", VArr [VArr [num 300; num 250];
                                                VArr [num 728; num 90]])])])].

Definition bidder_request : value :=
  VObj [("auctionId", VStr "auction-1");
        ("refererInfo", VObj [("referer", VStr "https://example.com/")])].

Example buildRequests_runs :
  rbind (Smaato.buildRequests [bid_request "bid-1"; bid_request "bid-2"] bidder_request)
        (fun sr => Ok (Smaato.method sr, Smaato.url sr))
  = Ok ("POST", VStr Smaato.SMAATO_ENDPOINT).
Proof. vm_compute. reflexivity. Qed.

Example imp_formats :
  rbind (Smaato.buildOpenRtbBidRequest [bid_request "bid-1"] bidder_request)
        (fun request => Ok (JSON_stringify (get request "imp")))
  = Ok (Some ("[{" ++ Smaato.dq ++ "id" ++ Smaato.dq ++ ":" ++ Smaato.dq ++ "bid-1"
              ++ Smaato.dq ++ "," ++ Smaato.dq ++ "banner" ++ Smaato.dq ++ ":{"
              ++ Smaato.dq ++ "w" ++ Smaato.dq ++ ":300," ++ Smaato.dq ++ "h"
              ++ Smaato.dq ++ ":250," ++ Smaato.dq ++ "format" ++ Smaato.dq ++ ":[{"
              ++ Smaato.dq ++ "w" ++ Smaato.dq ++ ":300," ++ Smaato.dq ++ "h"
              ++ Smaato.dq ++ ":250},{" ++ Smaato.dq ++ "w" ++ Smaato.dq ++ ":728,"
              ++ Smaato.dq ++ "h" ++ Smaato.dq ++ ":90}]}," ++ Smaato.dq ++ "tagid"
              ++ Smaato.dq ++ ":" ++ Smaato.dq ++ "adspace-1" ++ Smaato.dq ++ "}]")).
Proof. vm_compute. reflexivity. Qed.

Lemma buildRequests_witness :
  exists (sr : Smaato.ServerRequest) (request : value) (json : string)
         (imps : list value),
    Smaato.buildRequests [bid_request "bid-1"; bid_request "bid-2"] bidder_request
    = Ok sr
    /\ Smaato.method sr = "POST"
    /\ Smaato.buildOpenRtbBidRequest [bid_request "bid-1"; bid_request "bid-2"]
         bidder_request = Ok request
    /\ JSON_stringify request = Some json
    /\ Smaato.data sr = VStr json
    /\ get request "imp" = VArr imps
    /\ Forall2 SmaatoProofs.imp_matches
               [bid_request "bid-1"; bid_request "bid-2"] imps.
Proof.
  apply (SmaatoProofs.buildRequests_one_imp_per_bid_request
           [bid_request "bid-1"; bid_request "bid-2"] bidder_request).
  - discriminate.
  - repeat constructor.
  - repeat constructor; eexists _, _; (split; [vm_compute; reflexivity|]);
      repeat constructor.
  - reflexivity.
  - reflexivity.
Defined.

(** A rich-media ad: [{"richmedia":{"mediadata":{"content":"<b>ad</b>"}}}] *)
Definition richmedia_adm : string :=
  "{" ++ Smaato.dq ++ "richmedia" ++ Smaato.dq ++ ":{" ++ Smaato.dq ++ "mediadata"
      ++ Smaato.dq ++ ":{" ++ Smaato.dq ++ "content" ++ Smaato.dq ++ ":"
      ++ Smaato.dq ++ "<b>ad</b>" ++ Smaato.dq ++ "}}}".

Definition seatbid_bid (adm : string) : value :=
  VObj [("impid", VStr "bid-1"); ("price", num 2); ("w", num 300); ("h", num 250);
        ("crid", VStr "creative-1"); ("adm", VStr adm)].

Definition response (adType adm : string) : Smaato.ServerResponse :=
  {| Smaato.headers_get := fun name =>
       if String.eqb name "X-SMT-ADTYPE" then VStr adType else VUndef;
     Smaato.body :=
       VObj [("cur", VStr "USD");
             ("seatbid", VArr [VObj [("bid", VArr [seatbid_bid adm])]])] |}.


Example interpretResponse_richmedia :
  Smaato.interpretResponse (response "Richmedia" richmedia_adm)
  = Ok [{| Smaato.requestId := VStr "bid-1";
           Smaato.cpm := num 2;
           Smaato.width := num 300;
           Smaato.height := num 250;
           Smaato.ad := VStr "<b>ad</b>";
           Smaato.ttl := num 300;
           Smaato.creativeId := VStr "creative-1";
           Smaato.dealId := VNull;
           Smaato.netRevenue := false;
           Smaato.currency := VStr "USD" |}].
Proof. vm_compute. reflexivity. Qed.



(** ** Media.net *)

Import Medianet.

Definition configuration : value := VObj [("options", VObj [("cid", VStr "customer-1")])].

(** The adapter after [enableAnalytics(configuration)]. *)
Definition enabled : state := snd (enableAnalytics configuration initial_state).

Definition event (eventType : string) (args : value) : value :=
  VObj [("eventType", VStr eventType); ("args", args)].

Definition banner : value :=
  VObj [("banner", VObj [("sizes", VArr [VArr [num 300; num 250]])])].

Definition auction_init : value :=
  VObj [("auctionId", VStr "auction-1");
        ("adUnits", VArr [VObj [("code", VStr "div-1"); ("mediaTypes", banner)]]);
        ("timeout", num 3000);
        ("timestamp", num 1000)].

Definition bid_requested : value :=
  VObj [("auctionId", VStr "auction-1");
        ("auctionStart", num 1001);
        ("start", num 1002);
        ("bids", VArr [VObj [("adUnitCode", VStr "div-1");
                             ("bidder", VStr "medianet");
                             ("bidId", VStr "bid-1");
                             ("src", VStr "client");
                             ("mediaTypes", banner)];
                       VObj [("adUnitCode", VStr "div-1");
                             ("bidder", VStr "other");
                             ("bidId", VStr "bid-2");
                             ("src", VStr "client");
                             ("mediaTypes", banner)]])].

Definition bid_response : value :=
  VObj [("auctionId", VStr "auction-1"); ("requestId", VStr "bid-1");
        ("bidder", VStr "medianet"); ("width", num 300); ("height", num 250);
        ("cpm", num 2); ("currency", VStr "usd"); ("adId", VStr "ad-1")].

Definition no_bid (bidId : string) : value :=
  VObj [("auctionId", VStr "auction-1"); ("bidId", VStr bidId)].

Definition auction_end : value :=
  VObj [("auctionId", VStr "auction-1"); ("auctionEnd", num 1100)].

Definition set_targeting : value :=
  VObj [("div-1", VObj [("hb_adid", VStr "ad-1"); ("hb_pb", VStr "2.00")])].

Definition bid_won : value :=
  VObj [("auctionId", VStr "auction-1"); ("adUnitCode", VStr "div-1");
        ("adId", VStr "ad-1")].

(** The auction up to the responses. *)
Definition auction_running : state :=
  MedianetProofs.run_events
    [event "auctionInit" auction_init; event "bidRequested" bid_requested;
     event "bidResponse" bid_response] enabled.

(** The whole auction. *)
Definition auction_done : state :=
  MedianetProofs.run_events
    [event "noBid" (no_bid "bid-1"); event "noBid" (no_bid "bid-2");
     event "auctionEnd" auction_end; event "setTargeting" set_targeting;
     event "setTargeting" set_targeting; event "bidWon" bid_won] auction_running.

Example enableAnalytics_runs :
  ajax_requests enabled
  = ["https://prebid.media.net/rtb/prebid/analytics/config?cid=customer-1&dn=example.com"]
  /\ origin_calls enabled
     = [VObj [("options", VObj [("cid", VStr "customer-1"); ("sampling", num 1)])]]
  /\ analyticsEnabled enabled = true.
Proof. vm_compute. repeat split; reflexivity. Qed.

Example auction_statuses :
  map (fun b => (bget b "bidId", bget b "status"))
      (MedianetProofs.bidObjs_of auction_done "auction-1")
  = [(VStr "-1", BID_SUCCESS); (VStr "bid-1", BID_SUCCESS); (VStr "bid-2", BID_NOBID)].
Proof. vm_compute. reflexivity. Qed.

Example auction_logs :
  List.length (logsQueue auction_done) = 2
  /\ map (fun url => String.prefix (ENDPOINT ++ "&requrl=") url) (logsQueue auction_done)
     = [true; true]
  /\ pixels auction_done = logsQueue auction_done
  /\ random_draws auction_done = 1.
Proof. vm_compute. repeat split; reflexivity. Qed.

Lemma track_witness :
  MedianetProofs.is_lifecycle_event (get (event "auctionDebug" VUndef) "eventType") = false
  /\ auctions (snd (track (event "auctionDebug" VUndef) auction_running))
     = auctions auction_running
  /\ logsQueue (snd (track (event "auctionDebug" VUndef) auction_running))
     = logsQueue auction_running
  /\ errorQueue (snd (track (event "auctionDebug" VUndef) auction_running))
     = errorQueue auction_running
  /\ pixels (snd (track (event "auctionDebug" VUndef) auction_running))
     = pixels auction_running
  /\ config (snd (track (event "auctionDebug" VUndef) auction_running))
     = config auction_running
  /\ ajax_requests (snd (track (event "auctionDebug" VUndef) auction_running))
     = ajax_requests auction_running.
Proof.
  split; [reflexivity|].
  apply (MedianetProofs.track_ignores_other_events
           (event "auctionDebug" VUndef) auction_running).
  reflexivity.
Defined.


(** A winning-bid log for the ad of the sample response appends one URL;
    one for an ad id without a bid object appends none. *)
Example fireAuctionLog_for_a_winning_bid :
  List.length
    (logsQueue (snd (fireAuctionLog (VStr "auction-1") (VStr "div-1") LOG_TYPE_RA
                                    (VStr "ad-1") auction_running)))
  = S (List.length (logsQueue auction_running))
  /\ logsQueue (snd (fireAuctionLog (VStr "auction-1") (VStr "div-1") LOG_TYPE_RA
                                    (VStr "ad-9") auction_running))
     = logsQueue auction_running.
Proof. vm_compute. split; reflexivity. Qed.



Lemma fireAuctionLog_witness :
  exists t : telemetry,
    fst (fireAuctionLog (VStr "auction-1") (VStr "div-1") LOG_TYPE_APPR VUndef
                        auction_running) = Ok tt
    /\ logsQueue (snd (fireAuctionLog (VStr "auction-1") (VStr "div-1") LOG_TYPE_APPR
                                      VUndef auction_running))
       = (logsQueue auction_running
          ++ [(ENDPOINT ++ "&" ++ telemetry_qs t)%string])%list
    /\ pixels (snd (fireAuctionLog (VStr "auction-1") (VStr "div-1") LOG_TYPE_APPR
                                   VUndef auction_running))
       = (pixels auction_running
          ++ [(ENDPOINT ++ "&" ++ telemetry_qs t)%string])%list
    /\ formatQS_pair (VStr "a b") "key"
       = "key=" ++ Str.encodeURIComponent (ToString (VStr "a b"))
    /\ formatQS [("a", num 1); ("b", VUndef); ("c", VObj [("d", VStr "e")])]
       = "a=1&b=&c=%7B%22d%22%3A%22e%22%7D".
Proof.
  destruct (config auction_running) as [c|] eqn:Hc; [|vm_compute in Hc; discriminate].
  destruct (pageDetails auction_running) as [pd|] eqn:Hpd;
    [|vm_compute in Hpd; discriminate].
  destruct (oget (ToString (VStr "auction-1")) (auctions auction_running)) as [a|] eqn:Ha;
    [|vm_compute in Ha; discriminate].
  destruct (oget (ToString (VStr "div-1")) (adSlots a)) as [slot|] eqn:Hslot;
    [|vm_compute in Ha; injection Ha as <-; vm_compute in Hslot; discriminate].
  destruct (getLoggingBids (VStr "auction-1") (VStr "div-1") auction_running)
    as [[bids|e] s1] eqn:Hbids; [|vm_compute in Hbids; discriminate].
  destruct (rmap Bid_getLoggingData bids) as [params|e] eqn:Hparams;
    [|vm_compute in Hbids; injection Hbids as <- _; vm_compute in Hparams;
      discriminate].
  destruct (MedianetProofs.fireAuctionLog_appends_one_url
              (VStr "auction-1") (VStr "div-1") LOG_TYPE_APPR VUndef auction_running)
    as (Hreturns & Hfires & _ & _ & _ & _ & _ & _ & Hother).
  assert (Hret : fst (fireAuctionLog (VStr "auction-1") (VStr "div-1") LOG_TYPE_APPR
                                     VUndef auction_running) = Ok tt).
  { apply (Hreturns c pd a slot Hc Hpd Ha Hslot). right.
    split; [reflexivity|]. exists bids, s1, params. split; [exact Hbids|exact Hparams]. }
  destruct (Hfires Hret (or_introl eq_refl)) as (t & _ & Hlogs & Hpixels).
  exists t. split; [exact Hret|]. split; [exact Hlogs|]. split; [exact Hpixels|].
  split; [apply Hother; reflexivity|].
  vm_compute. reflexivity.
Defined.


Lemma exchangeCurrency_witness :
  convertCurrency (num 5) (VStr "GBP") (VStr "USD")
  = Throw (Exn "Error" "no conversion rate")
  /\ exchangeCurrency (num 5) (VStr "GBP") (VStr "USD") enabled
     = (Ok (num 5),
        set_console_errors
          (console_errors enabled
           ++ [MedianetProofs.conversion_error (num 5) (VStr "GBP") (VStr "USD")])%list
          enabled)
  /\ exchangeCurrency (num 5) (VStr "EUR") (VStr "USD") enabled
     = (Ok (VStr (toFixed4 (float_of_Z 5))), enabled).
Proof.
  split; [reflexivity|]. split.
  - apply (proj1 (MedianetProofs.exchangeCurrency_catches_and_formats
                    (num 5) (VStr "GBP") (VStr "USD") enabled)
             (Exn "Error" "no conversion rate")).
    reflexivity.
  - apply (proj2 (MedianetProofs.exchangeCurrency_catches_and_formats
                    (num 5) (VStr "EUR") (VStr "USD") enabled)).
    reflexivity.
Defined.

Lemma enableAnalytics_witness :
  MedianetProofs.cid_missing (VObj [("options", VObj [])]) = true
  /\ fst (enableAnalytics (VObj [("options", VObj [])]) initial_state) = Ok tt
  /\ console_errors (snd (enableAnalytics (VObj [("options", VObj [])]) initial_state))
     = (console_errors initial_state
        ++ ["Media.net Analytics adapter: cid is required."])%list
  /\ pageDetails (snd (enableAnalytics (VObj [("options", VObj [])]) initial_state))
     = pageDetails initial_state
  /\ config (snd (enableAnalytics (VObj [("options", VObj [])]) initial_state))
     = config initial_state
  /\ analyticsEnabled (snd (enableAnalytics (VObj [("options", VObj [])]) initial_state))
     = analyticsEnabled initial_state
  /\ origin_calls (snd (enableAnalytics (VObj [("options", VObj [])]) initial_state))
     = origin_calls initial_state.
Proof.
  split; [reflexivity|].
  apply (proj1 (MedianetProofs.enableAnalytics_requires_cid
                  (VObj [("options", VObj [])]) initial_state)).
  reflexivity.
Defined.

(** The slot is targeted and won a second time after its records went out. *)
Definition replay : list value :=
  [event "setTargeting" set_targeting; event "bidWon" bid_won].

Lemma fireApPrLog_witness :
  logsQueue (snd (fireApPrLog (VStr "auction-1") (VStr "div-1") LOG_TYPE_APPR
                    (MedianetProofs.run_events replay auction_done)))
  = logsQueue (MedianetProofs.run_events replay auction_done)
  /\ pixels (snd (fireApPrLog (VStr "auction-1") (VStr "div-1") LOG_TYPE_APPR
                    (MedianetProofs.run_events replay auction_done)))
     = pixels (MedianetProofs.run_events replay auction_done).
Proof.
  destruct MedianetProofs.fireApPrLog_at_most_once as (_ & Hlogged & _).
  destruct (oget (ToString (VStr "auction-1")) (auctions auction_done)) as [a|] eqn:Ha;
    [|vm_compute in Ha; discriminate].
  destruct (oget (ToString (VStr "div-1")) (adSlots a)) as [slot|] eqn:Hslot;
    [|vm_compute in Ha; injection Ha as <-; vm_compute in Hslot; discriminate].
  refine (Hlogged replay (VStr "auction-1") (VStr "div-1") LOG_TYPE_APPR auction_done
            a slot Ha Hslot _).
  vm_compute in Ha; injection Ha as <-.
  vm_compute in Hslot; injection Hslot as <-.
  vm_compute. reflexivity.
Defined.





End Examples.

(* ===================================================================== *)
(** * Further sample runs *)
(* ===================================================================== *)

Module Scenarios.
Import JS Sample Medianet Examples.

(** ** Smaato *)

(** A bid request for a test endpoint. *)
Definition bid_request_at (endpoint : string) : value :=
  VObj [("bidId", VStr "bid-1");
        ("params", VObj [("publisherId", VStr "publisher-1");
                         ("adspaceId", VStr "adspace-1");
                         ("endpoint", VStr endpoint)]);
        ("mediaTypes",
         VObj [("banner", VObj [("sizes", VArr [VArr [num 300; num 250]])])])].

(** A bid request whose ad unit has an empty list of sizes. *)
Definition bid_request_without_size : value :=
  VObj [("bidId", VStr "bid-1");
        ("params", VObj [("publisherId", VStr "publisher-1");
                         ("adspaceId", VStr "adspace-1")]);
        ("mediaTypes", VObj [("banner", VObj [("sizes", VArr [])])])].

(** A bidder request under the GDPR and with a US privacy string. *)
Definition bidder_request_privacy : value :=
  VObj [("auctionId", VStr "auction-1");
        ("refererInfo", VObj [("referer", VStr "https://example.com/")]);
        ("gdprConsent", VObj [("gdprApplies", VBool true);
                              ("consentString", VStr "consent-1")]);
        ("uspConsent", VStr "1YNN")].

(** An image ad:
    [{"image":{"img":{"url":"https://cdn.example/a.png","w":300,"h":250,
      "ctaurl":"https://click.example/"},
      "impressiontrackers":["https://imp.example/1"],
      "clicktrackers":["https://clk.example/1"]}}] *)
Definition image_adm : string :=
  "{" ++ Smaato.dq ++ "image" ++ Smaato.dq ++ ":{"
      ++ Smaato.dq ++ "img" ++ Smaato.dq ++ ":{"
      ++ Smaato.dq ++ "url" ++ Smaato.dq ++ ":"
      ++ Smaato.dq ++ "https://cdn.example/a.png" ++ Smaato.dq ++ ","
      ++ Smaato.dq ++ "w" ++ Smaato.dq ++ ":300,"
      ++ Smaato.dq ++ "h" ++ Smaato.dq ++ ":250,"
      ++ Smaato.dq ++ "ctaurl" ++ Smaato.dq ++ ":"
      ++ Smaato.dq ++ "https://click.example/" ++ Smaato.dq ++ "},"
      ++ Smaato.dq ++ "impressiontrackers" ++ Smaato.dq ++ ":["
      ++ Smaato.dq ++ "https://imp.example/1" ++ Smaato.dq ++ "],"
      ++ Smaato.dq ++ "clicktrackers" ++ Smaato.dq ++ ":["
      ++ Smaato.dq ++ "https://clk.example/1" ++ Smaato.dq ++ "]}}".

Lemma isBidRequestValid_on_samples :
  Smaato.isBidRequestValid (bid_request "bid-1") = Ok true
  /\ Smaato.isBidRequestValid (VObj [("params", VObj [("publisherId", num 7)])])
     = Ok false
  /\ Smaato.isBidRequestValid (VObj [("params", VNull)])
     = Throw (TypeError "Cannot read properties of null (reading 'publisherId')")
  /\ Smaato.isBidRequestValid VUndef
     = Throw (TypeError "Cannot read properties of undefined (reading 'params')").
Proof.
  split; [|split; [|split]].
  - rewrite (proj1 (SmaatoEdges.isBidRequestValid_checks_params (bid_request "bid-1")));
      [reflexivity|reflexivity|discriminate].
  - rewrite (proj1 (SmaatoEdges.isBidRequestValid_checks_params
                      (VObj [("params", VObj [("publisherId", num 7)])])));
      [reflexivity|reflexivity|discriminate].
  - apply (proj1 (proj2 (SmaatoEdges.isBidRequestValid_checks_params
                           (VObj [("params", VNull)])))); reflexivity.
  - apply (proj2 (proj2 (SmaatoEdges.isBidRequestValid_checks_params VUndef))).
    reflexivity.
Defined.

Lemma buildRequests_on_nothing :
  Smaato.buildRequests [] bidder_request
  = Throw (TypeError "Cannot read properties of undefined (reading 'params')")
  /\ exists e,
       Smaato.buildRequests [bid_request "bid-1"; bid_request_without_size]
                            bidder_request = Throw e.
Proof.
  split.
  - apply (proj1 (SmaatoEdges.buildRequests_throws_without_request_or_size
                    [] bidder_request)). reflexivity.
  - apply (proj2 (SmaatoEdges.buildRequests_throws_without_request_or_size
                    [bid_request "bid-1"; bid_request_without_size] bidder_request)
             bid_request_without_size).
    + right. left. reflexivity.
    + reflexivity.
Defined.

Lemma buildRequests_to_a_test_endpoint :
  exists sr : Smaato.ServerRequest,
    Smaato.buildRequests [bid_request_at "https://test.example/bid"] bidder_request
    = Ok sr
    /\ Smaato.url sr
       = (if truthy (get (get (nth 0 [bid_request_at "https://test.example/bid"] VUndef)
                              "params") "endpoint")
          then get (get (nth 0 [bid_request_at "https://test.example/bid"] VUndef)
                        "params") "endpoint"
          else VStr Smaato.SMAATO_ENDPOINT)
    /\ Smaato.customHeaders sr
       = [("X-SMT-Client", VStr Smaato.CLIENT);
          ("X-SMT-SessionId", get bidder_request "auctionId")].
Proof.
  apply (SmaatoEdges.buildRequests_endpoint_and_headers
           [bid_request_at "https://test.example/bid"] bidder_request).
  - discriminate.
  - repeat constructor.
  - repeat constructor; eexists _, _; (split; [vm_compute; reflexivity|]);
      repeat constructor.
  - reflexivity.
  - reflexivity.
Defined.

Lemma buildOpenRtbBidRequest_under_privacy_laws :
  exists request : value,
    Smaato.buildOpenRtbBidRequest [bid_request "bid-1"] bidder_request_privacy
    = Ok request
    /\ get (get request "regs") "coppa"
       = (if strict_eq Smaato.getConfig_coppa (VBool true) then num 1 else num 0)
    /\ get (get (get request "regs") "ext") "gdpr"
       = (if truthy (and (get bidder_request_privacy "gdprConsent")
                         (get (get bidder_request_privacy "gdprConsent") "gdprApplies"))
          then num 1 else num 0)
    /\ get (get (get request "regs") "ext") "us_privacy"
       = get bidder_request_privacy "uspConsent"
    /\ Object_keys (get (get request "regs") "ext")
       = Ok (if is_undefined (get bidder_request_privacy "uspConsent")
             then ["gdpr"] else ["gdpr"; "us_privacy"]).
Proof.
  apply (SmaatoEdges.buildOpenRtbBidRequest_privacy
           [bid_request "bid-1"] bidder_request_privacy).
  - repeat constructor.
  - repeat constructor; eexists _, _; (split; [vm_compute; reflexivity|]);
      repeat constructor.
  - reflexivity.
  - reflexivity.
Defined.

Definition richmedia_response : Smaato.ServerResponse :=
  response "Richmedia" richmedia_adm.

Lemma interpretResponse_of_a_richmedia_ad :
  exists bids,
    Smaato.interpretResponse richmedia_response = Ok bids
    /\ List.length bids = 1
    /\ Forall (fun b =>
            strict_eq (Smaato.ad b) (VStr "") = false
            /\ (strict_eq (Smaato.headers_get richmedia_response "X-SMT-ADTYPE")
                          (VStr "Img") = true
                \/ strict_eq (Smaato.headers_get richmedia_response "X-SMT-ADTYPE")
                             (VStr "Richmedia") = true)
            /\ Smaato.netRevenue b = false
            /\ Smaato.currency b = get (Smaato.body richmedia_response) "cur"
            /\ Smaato.ttl b = SmaatoProofs.ttl_of richmedia_response
            /\ (Smaato.headers_get richmedia_response "X-SMT-Expires" = VUndef ->
                Smaato.ttl b = num 300))
         bids.
Proof.
  eexists. split; [vm_compute; reflexivity|]. split; [reflexivity|].
  apply (SmaatoEdges.interpretResponse_bid_invariants richmedia_response).
  vm_compute. reflexivity.
Defined.

Definition video_response : Smaato.ServerResponse := response "Video" richmedia_adm.

Lemma interpretResponse_of_a_video_ad :
  Smaato.interpretResponse video_response = Ok [].
Proof.
  apply (SmaatoEdges.interpretResponse_other_ad_types video_response
           [VObj [("bid", VArr [seatbid_bid richmedia_adm])]]).
  - reflexivity.
  - reflexivity.
  - reflexivity.
  - reflexivity.
  - repeat constructor. eexists. vm_compute. reflexivity.
Defined.

Lemma createImgAd_of_an_image :
  exists ad,
    Smaato.createImgAd (VStr image_adm) = Ok ad
    /\ strict_eq ad (VStr "") = false
    /\ exists markup,
         ad = VStr markup /\ String.prefix "<div onclick=" markup = true.
Proof.
  eexists. split; [vm_compute; reflexivity|].
  apply (SmaatoEdges.createImgAd_markup_not_empty (VStr image_adm)).
  vm_compute. reflexivity.
Defined.

(** ** Media.net *)

(** A BID_REQUESTED event without bids, with its consent. *)
Definition consent_event (applies : bool) (consent usp : string) : value :=
  VObj [("auctionId", VStr "auction-1");
        ("bids", VArr []);
        ("gdpr", VObj [("gdprApplies", VBool applies);
                       ("consentString", VStr consent)]);
        ("uspConsent", VStr usp)].

(** The adapter once the auction has started. *)
Definition auction_started : state :=
  MedianetProofs.run_events [event "auctionInit" auction_init] enabled.

(** The adapter once the bids are requested. *)
Definition auction_requested : state :=
  MedianetProofs.run_events
    [event "auctionInit" auction_init; event "bidRequested" bid_requested] enabled.

(** The adapter once it has a US privacy string. *)
Definition auction_with_consent : state :=
  MedianetProofs.run_events
    [event "bidRequested" (consent_event true "consent-1" "1YNN")] auction_started.

Definition later_consent : list value :=
  [event "bidRequested" (consent_event false "consent-2" "1NNN")].

Lemma uspConsent_of_the_first_request :
  exists c c',
    config auction_with_consent = Some c
    /\ uspConsent c = VStr "1YNN"
    /\ config (MedianetProofs.run_events later_consent auction_with_consent) = Some c'
    /\ uspConsent c' = uspConsent c.
Proof.
  destruct (config auction_with_consent) as [c|] eqn:Hc;
    [|vm_compute in Hc; discriminate].
  assert (Hu : uspConsent c = VStr "1YNN").
  { vm_compute in Hc. injection Hc as <-. reflexivity. }
  destruct (AdapterInvariants.uspConsent_is_kept later_consent auction_with_consent c Hc)
    as (c' & Hc' & Hu').
  { rewrite Hu. reflexivity. }
  exists c, c'. repeat split; assumption.
Defined.



Definition after_the_end : list value := [event "setTargeting" set_targeting].

Lemma noBid_after_the_end :
  noBidResponseHandler (no_bid "bid-2")
    (MedianetProofs.run_events after_the_end
       (snd (auctionEndHandler auction_end auction_running)))
  = (Ok tt,
     MedianetProofs.run_events after_the_end
       (snd (auctionEndHandler auction_end auction_running))).
Proof.
  destruct (oget (ToString (get auction_end "auctionId")) (auctions auction_running))
    as [a|] eqn:Ha; [|vm_compute in Ha; discriminate].
  apply (AdapterInvariants.noBid_after_auctionEnd_is_dropped
           auction_end (no_bid "bid-2") after_the_end auction_running a).
  - reflexivity.
  - reflexivity.
  - exact Ha.
  - reflexivity.
Defined.

Lemma Configure_init_on_the_sample_page :
  exists c pd urlObj c' s',
    config enabled = Some c
    /\ pageDetails enabled = Some pd
    /\ URL_parseUrl (topmostLocation pd) = Ok urlObj
    /\ ConfigureProofs.test_mode urlObj = false
    /\ Configure_init enabled = (Ok tt, s')
    /\ config s' = Some c'
    /\ loggingPercent c' = loggingPercent c
    /\ ajax_requests s'
       = (ajax_requests enabled
          ++ [(CONFIG_URL ++ "?cid=" ++ Str.encodeURIComponent (ToString (cid c))
                 ++ "&dn=" ++ Str.encodeURIComponent (ToString (domain pd)))%string])%list.
Proof.
  destruct (config enabled) as [c|] eqn:Hc; [|vm_compute in Hc; discriminate].
  destruct (pageDetails enabled) as [pd|] eqn:Hpd; [|vm_compute in Hpd; discriminate].
  destruct (URL_parseUrl (topmostLocation pd)) as [urlObj|e] eqn:Hu;
    [|vm_compute in Hpd; injection Hpd as <-; vm_compute in Hu; discriminate].
  assert (Ht : ConfigureProofs.test_mode urlObj = false).
  { vm_compute in Hpd. injection Hpd as <-. vm_compute in Hu. injection Hu as <-.
    reflexivity. }
  destruct (ConfigureProofs.Configure_init_test_mode_or_fetch enabled c pd urlObj
              Hc Hpd Hu)
    as (c' & s' & Hrun & Hc' & _ & _ & _ & Hfetch).
  destruct (Hfetch Ht) as (Hl & _ & _ & _ & Hreq).
  exists c, pd, urlObj, c', s'. repeat split; assumption.
Defined.

Lemma _errorFetch_on_the_sample_page :
  exists c pd,
    config enabled = Some c
    /\ pageDetails enabled = Some pd
    /\ _errorFetch enabled
       = (Ok tt,
          set_pixels
            (pixels enabled
             ++ [(EVENT_PIXEL_URL ++ "?"
                  ++ formatQS (ConfigureProofs.fetch_error_logger c pd))%string])%list
            (set_errorQueue
               (errorQueue enabled
                ++ [(EVENT_PIXEL_URL ++ "?"
                     ++ formatQS (ConfigureProofs.fetch_error_logger c pd))%string])%list
               (set_config (Some (set_ajaxState CONFIG_ERROR c)) enabled))).
Proof.
  destruct (config enabled) as [c|] eqn:Hc; [|vm_compute in Hc; discriminate].
  destruct (pageDetails enabled) as [pd|] eqn:Hpd; [|vm_compute in Hpd; discriminate].
  exists c, pd. split; [reflexivity|]. split; [reflexivity|].
  exact (proj1 (ConfigureProofs._errorFetch_reports_the_failure enabled c pd Hc Hpd)).
Defined.



Lemma enableAnalytics_on_the_sample_page :
  exists pd c' s',
    new_PageDetail = Ok pd
    /\ enableAnalytics configuration initial_state = (Ok tt, s')
    /\ config s' = Some c'
    /\ pageDetails s' = Some pd
    /\ analyticsEnabled s' = true
    /\ cid c' = VStr "customer-1"
    /\ pubLper c' = VStr ""
    /\ urlToConsume c' = DEFAULT_URL_KEY.
Proof.
  destruct new_PageDetail as [pd|e] eqn:Hpd; [|vm_compute in Hpd; discriminate].
  destruct (URL_parseUrl (topmostLocation pd)) as [urlObj|e] eqn:Hu;
    [|vm_compute in Hpd; injection Hpd as <-; vm_compute in Hu; discriminate].
  destruct (ConfigureProofs.enableAnalytics_creates_the_configuration
              configuration initial_state pd urlObj eq_refl Hpd Hu)
    as (c' & s' & Hrun & Hc' & Hpd' & Hen & Hcid & Hper & Hkey & _).
  exists pd, c', s'. repeat split; assumption.
Defined.

(** An event of an auction the adapter has not seen. *)
Definition stray_event : value :=
  VObj [("auctionId", VStr "auction-9"); ("bidId", VStr "bid-1");
        ("requestId", VStr "bid-1"); ("adId", VStr "ad-9")].

(** A response to a bid request the auction does not have. *)
Definition stray_response : value :=
  VObj [("auctionId", VStr "auction-1"); ("requestId", VStr "bid-9")].

Lemma stray_events_are_ignored :
  bidRequestedHandler stray_event auction_running = (Ok tt, auction_running)
  /\ bidResponseHandler stray_event auction_running = (Ok tt, auction_running)
  /\ noBidResponseHandler stray_event auction_running = (Ok tt, auction_running)
  /\ bidTimeoutHandler (VArr [stray_event]) auction_running = (Ok tt, auction_running)
  /\ auctionEndHandler stray_event auction_running = (Ok tt, auction_running)
  /\ bidResponseHandler stray_response auction_running = (Ok tt, auction_running).
Proof.
  destruct (HandlerProofs.events_without_auction_or_request_are_ignored
              stray_event auction_running eq_refl) as (Hstray & _).
  destruct (Hstray eq_refl) as (H1 & H2 & H3 & H4 & H5).
  repeat (split; [assumption|]).
  destruct (oget (ToString (get stray_response "auctionId")) (auctions auction_running))
    as [a|] eqn:Ha; [|vm_compute in Ha; discriminate].
  apply (proj2 (HandlerProofs.events_without_auction_or_request_are_ignored
                  stray_response auction_running eq_refl) a Ha).
  vm_compute in Ha. injection Ha as <-. reflexivity.
Defined.

Lemma bidWon_of_a_stray_auction :
  exists c pd,
    config auction_running = Some c
    /\ pageDetails auction_running = Some pd
    /\ bidWonHandler stray_event auction_running
       = (Ok tt,
          HandlerProofs.with_error_pixel
            (HandlerProofs.winning_bid_error ERROR_WINNING_AUCTION_MISSING
               stray_event c pd)
            auction_running).
Proof.
  destruct (config auction_running) as [c|] eqn:Hc; [|vm_compute in Hc; discriminate].
  destruct (pageDetails auction_running) as [pd|] eqn:Hpd;
    [|vm_compute in Hpd; discriminate].
  exists c, pd. split; [reflexivity|]. split; [reflexivity|].
  apply (proj1 (HandlerProofs.bidWonHandler_reports_what_it_cannot_place
                  stray_event auction_running c pd eq_refl Hc Hpd)).
  reflexivity.
Defined.

Lemma addSlot_of_a_second_ad_unit :
  exists a a',
    oget "auction-1" (auctions auction_running) = Some a
    /\ oget "div-2" (adSlots a) = None
    /\ oget "auction-1"
            (auctions (snd (addSlot (VStr "auction-1") "div-2" VUndef banner
                                    (VArr [VStr "300x250"]) (num 3000) VUndef VUndef
                                    auction_running)))
       = Some a'
    /\ oget "div-2" (adSlots a') = Some (new_AdSlot (num 3000) VUndef VUndef VUndef)
    /\ List.length (bidObjs a') = S (List.length (bidObjs a))
    /\ addSlot (VStr "auction-1") "div-1" VUndef banner
               (VArr [VStr "300x250"]) (num 3000) VUndef VUndef auction_running
       = (Ok tt, auction_running)
    /\ addSlot (VStr "auction-1") "toString" VUndef banner
               (VArr [VStr "300x250"]) (num 3000) VUndef VUndef auction_running
       = (Ok tt, auction_running).
Proof.
  destruct (oget "auction-1" (auctions auction_running)) as [a|] eqn:Ha;
    [|vm_compute in Ha; discriminate].
  assert (Hnew : oget "div-2" (adSlots a) = None).
  { vm_compute in Ha. injection Ha as <-. reflexivity. }
  assert (Hold : ohas "div-1" (adSlots a) = true).
  { vm_compute in Ha. injection Ha as <-. reflexivity. }
  destruct (proj1 (HandlerProofs.addSlot_adds_a_slot_once
                     (VStr "auction-1") "div-2" VUndef banner
                     (VArr [VStr "300x250"]) (num 3000) VUndef VUndef
                     auction_running a Ha))
    as (a' & _ & Ha' & Hslot & _ & Hobjs & _); [discriminate|exact Hnew|reflexivity|].
  exists a, a'. split; [reflexivity|]. split; [exact Hnew|].
  split; [exact Ha'|]. split; [exact Hslot|]. split; [|split].
  - rewrite Hobjs. rewrite length_app. cbn [List.length]. lia.
  - apply (proj2 (HandlerProofs.addSlot_adds_a_slot_once
                    (VStr "auction-1") "div-1" VUndef banner
                    (VArr [VStr "300x250"]) (num 3000) VUndef VUndef
                    auction_running a Ha)).
    right. left. exact Hold.
  - apply (proj2 (HandlerProofs.addSlot_adds_a_slot_once
                    (VStr "auction-1") "toString" VUndef banner
                    (VArr [VStr "300x250"]) (num 3000) VUndef VUndef
                    auction_running a Ha)).
    right. right. reflexivity.
Defined.

(** An AUCTION_INIT event that has ad units and no auction id. *)
Definition auction_init_without_id : value :=
  VObj [("adUnits", VArr [VObj [("code", VStr "div-1"); ("mediaTypes", banner)]]);
        ("timeout", num 3000)].

Lemma auctionInit_without_id :
  exists e, auctionInitHandler auction_init_without_id enabled = (Throw e, enabled).
Proof.
  apply (HandlerProofs.auctionInitHandler_needs_an_auction_for_its_ad_units
           auction_init_without_id enabled
           (VObj [("code", VStr "div-1"); ("mediaTypes", banner)]) []);
    reflexivity.
Defined.

(** Targeting of an ad unit that is in no auction. *)
Definition stray_targeting : obj value :=
  [("div-9", VObj [("hb_adid", VStr "ad-1"); ("hb_pb", VStr "2.00")])].

Lemma setTargeting_of_a_stray_ad_unit :
  setTargetingHandler (VObj stray_targeting) auction_running = (Ok tt, auction_running).
Proof.
  apply (HandlerProofs.setTargetingHandler_ignores_unknown_ad_units
           stray_targeting auction_running).
  intros adunit k a [<-|[]] Ha.
  destruct (auctions auction_running) as [|[k0 a0] [|]] eqn:Hs;
    try (vm_compute in Hs; discriminate).
  cbn in Ha. destruct (String.eqb k0 k); [|discriminate].
  injection Ha as <-. vm_compute in Hs. injection Hs as _ <-. reflexivity.
Defined.

Lemma bidRequested_with_consent :
  exists c',
    config (snd (bidRequestedHandler (consent_event true "consent-1" "1YNN")
                                     auction_started)) = Some c'
    /\ gdprApplies c' = VBool true
    /\ gdprConsent c' = VStr "consent-1"
    /\ uspConsent c' = VStr "1YNN".
Proof.
  destruct (config auction_started) as [c|] eqn:Hc; [|vm_compute in Hc; discriminate].
  destruct (oget (ToString (get (consent_event true "consent-1" "1YNN") "auctionId"))
                 (auctions auction_started)) as [a|] eqn:Ha;
    [|vm_compute in Ha; discriminate].
  destruct (HandlerProofs.bidRequestedHandler_records_consent
              (consent_event true "consent-1" "1YNN") auction_started c a
              eq_refl Hc Ha) as (c' & Hc' & Happlies & Hconsent & Husp).
  exists c'. split; [exact Hc'|]. split; [exact Happlies|]. split; [exact Hconsent|].
  rewrite Husp. vm_compute in Hc. injection Hc as <-. reflexivity.
Defined.

Lemma bidResponse_to_the_first_request :
  exists a b s',
    oget "auction-1" (auctions auction_requested) = Some a
    /\ bidResponseHandler bid_response auction_requested = (Ok tt, s')
    /\ auctions s'
       = oset (ToString (get bid_response "auctionId")) (addBidObj false b a)
              (auctions auction_requested)
    /\ bget b "status" = BID_SUCCESS
    /\ bget b "currency" = VStr "USD"
    /\ bget b "adId" = VStr "ad-1".
Proof.
  destruct (oget (ToString (get bid_response "auctionId")) (auctions auction_requested))
    as [a|] eqn:Ha; [|vm_compute in Ha; discriminate].
  destruct (findReqBid a (or (get bid_response "originalRequestId")
                             (get bid_response "requestId"))) as [bidReq|] eqn:Hreq;
    [|vm_compute in Ha; injection Ha as <-; vm_compute in Hreq; discriminate].
  assert (Hobj : findBidObj a "bidId" (get bid_response "requestId") = None).
  { vm_compute in Ha. injection Ha as <-. reflexivity. }
  destruct (HandlerProofs.bidResponseHandler_records_the_first_response
              bid_response auction_requested a bidReq eq_refl Ha Hreq Hobj)
    as (b & s' & Hrun & Hauctions & Hstatus & Hcur & _ & Hfields & _).
  - left. eexists. reflexivity.
  - right. reflexivity.
  - intros Hmeta. discriminate Hmeta.
  - exists a, b, s'. split; [assumption|]. split; [exact Hrun|].
    split; [exact Hauctions|]. split; [exact Hstatus|]. split; [exact Hcur|].
    apply (Forall_inv Hfields).
Defined.

Lemma telemetry_of_the_sample_auction :
  exists t,
    fst (auctionLog_telemetry (VStr "auction-1") (VStr "div-1") LOG_TYPE_APPR VUndef
                              auction_running) = Ok (Some t)
    /\ oget "lgtp" (commonParams t) = Some (VStr LOG_TYPE_APPR)
    /\ oget "targ" (commonParams t) = None
    /\ oget "wts" (commonParams t) = None
    /\ Forall (fun kv => is_nullish (snd kv) = false) (commonParams t).
Proof.
  destruct (fst (auctionLog_telemetry (VStr "auction-1") (VStr "div-1") LOG_TYPE_APPR
                                      VUndef auction_running)) as [[t|]|e] eqn:Ht;
    try (vm_compute in Ht; discriminate).
  destruct (LogProofs.telemetry_of_an_auction_log
              (VStr "auction-1") (VStr "div-1") LOG_TYPE_APPR VUndef auction_running
              t Ht) as (Hlgtp & Htarg & Hnull & _ & Hwts & _).
  exists t. split; [reflexivity|]. split; [exact Hlgtp|]. split; [exact Htarg|].
  split; [apply Hwts; discriminate|exact Hnull].
Defined.

(** A bid request for two sizes, one of which has its response. *)
Definition request_for_two_sizes : Bid :=
  new_Bid (VStr "bid-1") (VStr "other") (VStr "client") (num 1002) (VStr "div-1")
          banner (VArr [VStr "300x250"; VStr "728x90"]) VUndef.

Definition response_sizes : value :=
  VObj [("bid-1", VObj [("300x250", VBool true)])].

Lemma getDummyBids_bid_of_a_size_left :
  exists d,
    getDummyBids_bid response_sizes request_for_two_sizes = Ok [d]
    /\ bget d "bidId" = VStr "bid-1"
    /\ bget d "res_sizes" = VArr [VStr "728x90"]
    /\ strict_eq (bget d "status") BID_SUCCESS = false.
Proof.
  destruct (getDummyBids_bid response_sizes request_for_two_sizes) as [pushed|e] eqn:Hrun;
    [|vm_compute in Hrun; discriminate].
  destruct (LogProofs.getDummyBids_bid_is_never_a_success
              response_sizes request_for_two_sizes pushed Hrun)
    as [Hnone|(d & sizes & Hone & _ & Hid & _ & _ & _ & Hstatus & Hsizes & _)].
  - rewrite Hnone in Hrun. vm_compute in Hrun. discriminate.
  - exists d. rewrite Hone. split; [reflexivity|]. split; [exact Hid|].
    split; [|exact Hstatus].
    rewrite Hone in Hrun. vm_compute in Hrun. injection Hrun as <-. reflexivity.
Defined.

Definition sample_query : obj value :=
  [("cid", VStr "customer-1"); ("dn", VStr "a&b=c"); ("rd", VUndef)].

Lemma formatQS_of_a_sample :
  Str.split "&" (formatQS sample_query)
  = map (fun kv => formatQS_pair (snd kv) (fst kv)) sample_query
  /\ Forall (fun kv =>
               QueryStringProofs.occurs "=" (fst kv) = false ->
               Str.split "=" (formatQS_pair (snd kv) (fst kv))
               = [fst kv; QueryStringProofs.value_text (snd kv)])
            sample_query.
Proof.
  apply (QueryStringProofs.formatQS_has_one_piece_per_key sample_query).
  - discriminate.
  - repeat constructor.
Defined.

Lemma URL_parseQS_of_a_sample :
  URL_parseQS "" = Ok []
  /\ exists o,
       URL_parseQS "?a=1&b&__proto__=x&a=2" = Ok o
       /\ oget "a" o = Some (VStr "2")
       /\ oget "b" o = Some (VStr "")
       /\ oget "c" o = None
       /\ oget "__proto__" o = None.
Proof.
  split; [exact (proj1 (QueryStringProofs.URL_parseQS_reads_the_last_value ""))|].
  destruct (proj2 (QueryStringProofs.URL_parseQS_reads_the_last_value
                     "?a=1&b&__proto__=x&a=2"))
    as (o & Ho & Hproto & Hget).
  - discriminate.
  - vm_compute. repeat constructor.
  - exists o. split; [exact Ho|].
    rewrite !Hget by discriminate. rewrite Hproto. vm_compute. repeat split.
Defined.

End Scenarios.
